(** * Cosmic Solutions backend: status propagation, presence and notifications

    A shallow embedding of the task/project status synchronisation
    (the technician's status route, models/Task.js, models/Project.js), of the
    socket server (SocketServer: authentication middleware, presence map,
    notification dispatch) and of the Notification model statics, together
    with the properties the design document states about them.

    Conventions.
    - A MongoDB collection is a list of documents carrying their [_id].
    - An ObjectId of a task, project or manager is a number (12 bytes).
    - Dates are clock readings ([nat]); [new Date()] reads the [now]
      argument of the operation.
    - JavaScript numbers that are the result of a division are IEEE 754
      binary64 values ([spec_float] with precision 53); array lengths and
      the integer progress of a task are kept as [nat] and [Z].
    - A function that can throw returns a [Result]. *)

From Stdlib Require Import ZArith List String Ascii Bool Lia.
From Stdlib Require Import Floats.SpecFloat.
From stdpp Require Import base option list gmap strings.

Local Open Scope string_scope.
Local Open Scope list_scope.
Local Open Scope Z_scope.

(** ** JavaScript values *)

Module JS.

(** [s.toLowerCase()] on the ASCII letters. *)
Definition lower_ascii (c : ascii) : ascii :=
  let n := nat_of_ascii c in
  if ((65 <=? n)%nat && (n <=? 90)%nat)%bool then ascii_of_nat (n + 32) else c.

Fixpoint toLowerCase (s : string) : string :=
  match s with
  | EmptyString => EmptyString
  | String c r => String (lower_ascii c) (toLowerCase r)
  end.

(** White space of [String.prototype.trim] in the ASCII range:
    TAB, LF, VT, FF, CR and SPACE. *)
Definition is_space (c : ascii) : bool :=
  let n := nat_of_ascii c in
  (((9 <=? n)%nat && (n <=? 13)%nat) || (n =? 32)%nat)%bool.

Fixpoint trim_start (s : string) : string :=
  match s with
  | EmptyString => EmptyString
  | String c r => if is_space c then trim_start r else s
  end.

(** Drops the trailing white space: a character is kept when it is not
    a space or when something is kept after it. *)
Fixpoint trim_end (s : string) : string :=
  match s with
  | EmptyString => EmptyString
  | String c r =>
      match trim_end r with
      | EmptyString => if is_space c then EmptyString else String c EmptyString
      | r' => String c r'
      end
  end.

Definition trim (s : string) : string := trim_end (trim_start s).

(** Truthiness of a value that is a string or [undefined]. *)
Definition truthy (v : option string) : bool :=
  match v with
  | Some (String _ _) => true
  | _ => false
  end.

(** [a || b] on such values. *)
Definition or (a b : option string) : option string :=
  if truthy a then a else b.

(** [s.startsWith(p)] *)
Fixpoint startsWith (p s : string) : bool :=
  match p, s with
  | EmptyString, _ => true
  | String a p', String b s' => Ascii.eqb a b && startsWith p' s'
  | String _ _, EmptyString => false
  end.

Fixpoint drop (n : nat) (s : string) : string :=
  match n, s with
  | O, _ => s
  | S n', String _ r => drop n' r
  | S _, EmptyString => EmptyString
  end.

(** [s.replace(pat, rep)] with a string pattern: the first occurrence
    only. *)
Fixpoint replace (pat rep s : string) : string :=
  if startsWith pat s then String.append rep (drop (String.length pat) s)
  else match s with
       | EmptyString => EmptyString
       | String c r => String c (replace pat rep r)
       end.

End JS.

(** ** IEEE 754 binary64 numbers *)

Module JSNumber.

Definition prec : Z := 53.
Definition emax : Z := 1024.

Definition number := spec_float.

(** An integer as a number (exact below 2^53). *)
Definition of_Z (n : Z) : number :=
  match n with
  | Z0 => S754_zero false
  | _ => binary_normalize prec emax n 0 false
  end.

Definition of_nat (n : nat) : number := of_Z (Z.of_nat n).

Definition div (x y : number) : number := SFdiv prec emax x y.
Definition mul (x y : number) : number := SFmul prec emax x y.

(** [x === y], [x > y], [x <= y] on numbers. *)
Definition eqb (x y : number) : bool := SFeqb x y.
Definition gtb (x y : number) : bool := SFltb y x.
Definition leb (x y : number) : bool := SFleb x y.

(** [Math.round(x)] is floor(x + 1/2), computed exactly: the nearest
    integer, a tie going towards +infinity. NaN, the infinities and the
    zeros are returned as they are; a number with a non-negative
    exponent is an integer already; a result of zero keeps the sign of
    [x]. *)
Definition Math_round (x : number) : number :=
  match x with
  | S754_finite s m e =>
      if 0 <=? e then x
      else
        let twice := if s then - (2 * Zpos m) else 2 * Zpos m in
        let n := (twice + 2 ^ (- e)) / 2 ^ (1 - e) in
        if n =? 0 then S754_zero s else of_Z n
  | _ => x
  end.

(** The integer a number denotes, when it is one. *)
Definition to_Z (x : number) : option Z :=
  match x with
  | S754_zero _ => Some 0
  | S754_finite s m e =>
      if 0 <=? e then Some ((if s then -1 else 1) * (Zpos m * 2 ^ e))
      else if Zpos m mod 2 ^ (- e) =? 0
           then Some ((if s then -1 else 1) * (Zpos m / 2 ^ (- e)))
           else None
  | _ => None
  end.

(** [Math.round((c / t) * 100)], the expression both the technician
    route and [Project.calculateCompletion] use. *)
Definition percentage (c t : nat) : number :=
  Math_round (mul (div (of_nat c) (of_nat t)) (of_Z 100)).

(** The percentage of the design document on exact rationals:
    round(100 * c / t) with a tie going up, i.e.
    floor((200 c + t) / (2 t)). *)
Definition exact_percentage (c t : nat) : Z :=
  (200 * Z.of_nat c + Z.of_nat t) / (2 * Z.of_nat t).

End JSNumber.

Definition ObjectId := N.
Definition Date := nat.

(** What a call returns: a value, or the error it throws. *)
Inductive Result (A : Type) : Type :=
| Ok (a : A)
| Throw (message : string).
Arguments Ok {A} a.
Arguments Throw {A} message.

(** ** models/Task.js *)

Module Task.

Record File := mkFile {
  file_name : string;
  file_url : string;
  file_uploadedBy : ObjectId;
  file_uploadedAt : Date
}.

Record Comment := mkComment {
  comment_text : string;
  comment_author : ObjectId;
  comment_createdAt : Date
}.

Record StatusLogEntry := mkLog {
  log_status : string;
  log_updatedBy : ObjectId;
  log_timestamp : Date;
  log_comment : option string;
  log_files : list File;
  log_delayReason : option string
}.

Record t := mk {
  _id : ObjectId;
  title : string;
  project : ObjectId;
  assignedTo : ObjectId;
  assignedBy : option ObjectId;
  status : string;
  deadline : option Date;
  dueDate : option Date;
  startedDate : option Date;
  completedDate : option Date;
  completedAt : option Date;
  progress : Z;
  comments : list Comment;
  files : list File;
  statusLog : list StatusLogEntry;
  delayReason : option string
}.

Definition set_status (v : string) (x : t) : t :=
  mk (_id x) (title x) (project x) (assignedTo x) (assignedBy x) v
     (deadline x) (dueDate x) (startedDate x) (completedDate x) (completedAt x)
     (progress x) (comments x) (files x) (statusLog x) (delayReason x).
Definition set_deadline (v : option Date) (x : t) : t :=
  mk (_id x) (title x) (project x) (assignedTo x) (assignedBy x) (status x)
     v (dueDate x) (startedDate x) (completedDate x) (completedAt x)
     (progress x) (comments x) (files x) (statusLog x) (delayReason x).
Definition set_dueDate (v : option Date) (x : t) : t :=
  mk (_id x) (title x) (project x) (assignedTo x) (assignedBy x) (status x)
     (deadline x) v (startedDate x) (completedDate x) (completedAt x)
     (progress x) (comments x) (files x) (statusLog x) (delayReason x).
Definition set_startedDate (v : option Date) (x : t) : t :=
  mk (_id x) (title x) (project x) (assignedTo x) (assignedBy x) (status x)
     (deadline x) (dueDate x) v (completedDate x) (completedAt x)
     (progress x) (comments x) (files x) (statusLog x) (delayReason x).
Definition set_completedDate (v : option Date) (x : t) : t :=
  mk (_id x) (title x) (project x) (assignedTo x) (assignedBy x) (status x)
     (deadline x) (dueDate x) (startedDate x) v (completedAt x)
     (progress x) (comments x) (files x) (statusLog x) (delayReason x).
Definition set_completedAt (v : option Date) (x : t) : t :=
  mk (_id x) (title x) (project x) (assignedTo x) (assignedBy x) (status x)
     (deadline x) (dueDate x) (startedDate x) (completedDate x) v
     (progress x) (comments x) (files x) (statusLog x) (delayReason x).
Definition set_progress (v : Z) (x : t) : t :=
  mk (_id x) (title x) (project x) (assignedTo x) (assignedBy x) (status x)
     (deadline x) (dueDate x) (startedDate x) (completedDate x) (completedAt x)
     v (comments x) (files x) (statusLog x) (delayReason x).
Definition set_comments (v : list Comment) (x : t) : t :=
  mk (_id x) (title x) (project x) (assignedTo x) (assignedBy x) (status x)
     (deadline x) (dueDate x) (startedDate x) (completedDate x) (completedAt x)
     (progress x) v (files x) (statusLog x) (delayReason x).
Definition set_files (v : list File) (x : t) : t :=
  mk (_id x) (title x) (project x) (assignedTo x) (assignedBy x) (status x)
     (deadline x) (dueDate x) (startedDate x) (completedDate x) (completedAt x)
     (progress x) (comments x) v (statusLog x) (delayReason x).
Definition set_statusLog (v : list StatusLogEntry) (x : t) : t :=
  mk (_id x) (title x) (project x) (assignedTo x) (assignedBy x) (status x)
     (deadline x) (dueDate x) (startedDate x) (completedDate x) (completedAt x)
     (progress x) (comments x) (files x) v (delayReason x).
Definition set_delayReason (v : option string) (x : t) : t :=
  mk (_id x) (title x) (project x) (assignedTo x) (assignedBy x) (status x)
     (deadline x) (dueDate x) (startedDate x) (completedDate x) (completedAt x)
     (progress x) (comments x) (files x) (statusLog x) v.

Definition is_set (d : option Date) : bool :=
  match d with Some _ => true | None => false end.

(** [taskSchema.pre('save')], block by block; [isModified] is the
    document's change tracking and [now] the clock. *)

(** "Sync date fields" *)
Definition sync_dates (isModified : string -> bool) (x : t) : t :=
  let x :=
    if isModified "deadline" && negb (isModified "dueDate")
    then set_dueDate (deadline x) x
    else if isModified "dueDate" && negb (isModified "deadline")
    then set_deadline (dueDate x) x
    else x in
  if isModified "completedDate" && negb (isModified "completedAt")
  then set_completedAt (completedDate x) x
  else if isModified "completedAt" && negb (isModified "completedDate")
  then set_completedDate (completedAt x) x
  else x.

(** "Auto-set completion date when status changes to completed" *)
Definition on_completed (isModified : string -> bool) (now : Date) (x : t) : t :=
  if isModified "status" &&
     (String.eqb (status x) "completed" || String.eqb (status x) "Completed")
  then
    let x :=
      if negb (is_set (completedDate x)) && negb (is_set (completedAt x))
      then set_completedAt (Some now) (set_completedDate (Some now) x)
      else x in
    set_progress 100 x
  else x.

(** "Auto-set started date when status changes to in_progress" *)
Definition on_started (isModified : string -> bool) (now : Date) (x : t) : t :=
  if isModified "status" &&
     (String.eqb (status x) "in_progress" || String.eqb (status x) "In Progress")
  then if negb (is_set (startedDate x)) then set_startedDate (Some now) x else x
  else x.

(** "Update progress based on status": the [switch] on
    [this.status.toLowerCase()]. *)
Definition progress_from_status (isModified : string -> bool) (x : t) : t :=
  if isModified "status" then
    let s := JS.toLowerCase (status x) in
    if String.eqb s "assigned" || String.eqb s "pending" then set_progress 0 x
    else if String.eqb s "in_progress" || String.eqb s "in progress"
    then (if progress x =? 0 then set_progress 25 x else x)
    else if String.eqb s "completed" then set_progress 100 x
    else x
  else x.

Definition pre_save (isModified : string -> bool) (now : Date) (x : t) : t :=
  progress_from_status isModified
    (on_started isModified now
       (on_completed isModified now
          (sync_dates isModified x))).

(** Change tracking between the document as loaded and as it is now,
    for the paths the middleware asks about: a path is modified when
    its value differs from the loaded one. *)
Definition modified_since (loaded cur : t) (path : string) : bool :=
  if String.eqb path "status" then negb (String.eqb (status loaded) (status cur))
  else if String.eqb path "deadline" then negb (bool_decide (deadline loaded = deadline cur))
  else if String.eqb path "dueDate" then negb (bool_decide (dueDate loaded = dueDate cur))
  else if String.eqb path "completedDate"
  then negb (bool_decide (completedDate loaded = completedDate cur))
  else if String.eqb path "completedAt"
  then negb (bool_decide (completedAt loaded = completedAt cur))
  else if String.eqb path "progress" then negb (progress loaded =? progress cur)
  else if String.eqb path "startedDate"
  then negb (bool_decide (startedDate loaded = startedDate cur))
  else false.

(** [taskSchema.methods.updateProgress]: the assignments of the method,
    then [this.save()], which runs [pre_save]; the result is the
    document as written. *)
Definition updateProgress (now : Date) (progressValue : Z) (loaded : t) : t :=
  let x := set_progress (Z.max 0 (Z.min 100 progressValue)) loaded in
  let x :=
    if progress x =? 0 then set_status "assigned" x
    else if progress x =? 100 then
      let x := set_status "completed" x in
      if negb (is_set (completedDate x))
      then set_completedAt (Some now) (set_completedDate (Some now) x)
      else x
    else if (0 <? progress x) &&
            (String.eqb (status x) "assigned" || String.eqb (status x) "Pending")
    then
      let x := set_status "in_progress" x in
      if negb (is_set (startedDate x)) then set_startedDate (Some now) x else x
    else x in
  pre_save (modified_since loaded x) now x.

(** Collection operations used by the routes. *)

(** [Task.findOne({ _id, assignedTo })] *)
Definition findOne (id who : ObjectId) (coll : list t) : option t :=
  List.find (fun x => N.eqb (_id x) id && N.eqb (assignedTo x) who) coll.

(** [Task.findById(id)] *)
Definition findById (id : ObjectId) (coll : list t) : option t :=
  List.find (fun x => N.eqb (_id x) id) coll.

(** [Task.find({ project })] *)
Definition findByProject (pid : ObjectId) (coll : list t) : list t :=
  List.filter (fun x => N.eqb (project x) pid) coll.

(** [Task.findByIdAndUpdate(id, update)]: the first document with that
    id is replaced by its update; no middleware and no validator runs. *)
Fixpoint findByIdAndUpdate (id : ObjectId) (update : t -> t) (coll : list t) : list t :=
  match coll with
  | nil => nil
  | x :: r => if N.eqb (_id x) id then update x :: r
              else x :: findByIdAndUpdate id update r
  end.

End Task.

(** ** models/Project.js *)

Module Project.
Import JSNumber.

Record t := mk {
  _id : ObjectId;
  siteName : string;
  assignedManager : option ObjectId;
  status : string;
  tasks : list ObjectId;
  progress : number;
  tasksCount : nat;
  completedTasks : nat;
  completionPercentage : number;
  endDate : option Date
}.

Definition set_status (v : string) (p : t) : t :=
  mk (_id p) (siteName p) (assignedManager p) v (tasks p) (progress p)
     (tasksCount p) (completedTasks p) (completionPercentage p) (endDate p).
Definition set_tasks (v : list ObjectId) (p : t) : t :=
  mk (_id p) (siteName p) (assignedManager p) (status p) v (progress p)
     (tasksCount p) (completedTasks p) (completionPercentage p) (endDate p).
Definition set_progress (v : number) (p : t) : t :=
  mk (_id p) (siteName p) (assignedManager p) (status p) (tasks p) v
     (tasksCount p) (completedTasks p) (completionPercentage p) (endDate p).
Definition set_tasksCount (v : nat) (p : t) : t :=
  mk (_id p) (siteName p) (assignedManager p) (status p) (tasks p) (progress p)
     v (completedTasks p) (completionPercentage p) (endDate p).
Definition set_completedTasks (v : nat) (p : t) : t :=
  mk (_id p) (siteName p) (assignedManager p) (status p) (tasks p) (progress p)
     (tasksCount p) v (completionPercentage p) (endDate p).
Definition set_completionPercentage (v : number) (p : t) : t :=
  mk (_id p) (siteName p) (assignedManager p) (status p) (tasks p) (progress p)
     (tasksCount p) (completedTasks p) v (endDate p).
Definition set_endDate (v : option Date) (p : t) : t :=
  mk (_id p) (siteName p) (assignedManager p) (status p) (tasks p) (progress p)
     (tasksCount p) (completedTasks p) (completionPercentage p) v.

(** [projectSchema.pre('save')] *)
Definition pre_save (isModified : string -> bool) (p : t) : t :=
  (* Sync progress and completionPercentage fields *)
  let p :=
    if isModified "progress" && negb (isModified "completionPercentage")
    then set_completionPercentage (progress p) p
    else if isModified "completionPercentage" && negb (isModified "progress")
    then set_progress (completionPercentage p) p
    else p in
  (* Auto-update tasksCount if tasks array is modified *)
  if isModified "tasks" then set_tasksCount (length (tasks p)) p else p.

(** [populate('tasks')]: the referenced documents that exist, in the
    order of the references. *)
Definition populate (coll : list Task.t) (refs : list ObjectId) : list Task.t :=
  omap (fun id => Task.findById id coll) refs.

(** [projectSchema.methods.calculateCompletion]: the returned
    percentage and the document after the call. [this.populate('tasks')]
    puts the documents found in the place of the references, so that
    the array of the document no longer holds a reference without a
    task; the array is kept here by the ids of those documents. *)
Definition calculateCompletion (coll : list Task.t) (p : t) : number * t :=
  let p :=
    match tasks p with
    | nil => p
    | _ :: _ =>
        let populated := populate coll (tasks p) in
        let p := set_tasks (List.map Task._id populated) p in
        let completedTasksCount :=
          length (List.filter (fun x => String.eqb (Task.status x) "Completed") populated) in
        let p := set_completedTasks completedTasksCount p in
        let p := set_tasksCount (length populated) p in
        let p := set_completionPercentage
                   (if (0 <? tasksCount p)%nat
                    then percentage completedTasksCount (tasksCount p)
                    else of_Z 0) p in
        set_progress (completionPercentage p) p
    end in
  (completionPercentage p, p).

(** [projectSchema.methods.updateStatusByCompletion] *)
Definition updateStatusByCompletion (now : Date) (p : t) : t :=
  if eqb (completionPercentage p) (of_Z 100)
  then set_endDate (Some now) (set_status "Completed" p)
  else if gtb (completionPercentage p) (of_Z 0) && String.eqb (status p) "Planning"
  then set_status "In Progress" p
  else p.

(** [Project.findById(id)] *)
Definition findById (id : ObjectId) (coll : list t) : option t :=
  List.find (fun p => N.eqb (_id p) id) coll.

(** [Project.findByIdAndUpdate(id, update)] *)
Fixpoint findByIdAndUpdate (id : ObjectId) (update : t -> t) (coll : list t) : list t :=
  match coll with
  | nil => nil
  | p :: r => if N.eqb (_id p) id then update p :: r
              else p :: findByIdAndUpdate id update r
  end.

(** What a loaded document has tracked of the changes made to it since
    the load: the paths that were assigned, and the values given to
    [tasks.push]. *)
Record Changes := mkChanges {
  assigned : string -> bool;
  pushed : list ObjectId
}.

(** [this.isModified(path)] *)
Definition isModified (c : Changes) (path : string) : bool :=
  assigned c path ||
  (String.eqb path "tasks" && match pushed c with nil => false | _ :: _ => true end).

(** The update [doc.save()] sends for a loaded document. Mongoose
    writes the changes, not the document: the values given to
    [tasks.push] go out as [$push] and are appended to the stored
    array, whatever the array of the document holds; an assigned array
    goes out whole; every other path that is modified once the
    middleware has run goes out as [$set] of the document's value.
    [doc] is the document after the middleware, [stored] the document
    in the collection. *)
Definition delta (c : Changes) (doc stored : t) : t :=
  let m := isModified c in
  mk (_id stored)
     (if m "siteName" then siteName doc else siteName stored)
     (if m "assignedManager" then assignedManager doc else assignedManager stored)
     (if m "status" then status doc else status stored)
     (if assigned c "tasks" then tasks doc else tasks stored ++ pushed c)
     (if m "progress" || m "completionPercentage" then progress doc else progress stored)
     (if m "tasks" || m "tasksCount" then tasksCount doc else tasksCount stored)
     (if m "completedTasks" then completedTasks doc else completedTasks stored)
     (if m "progress" || m "completionPercentage"
      then completionPercentage doc else completionPercentage stored)
     (if m "endDate" then endDate doc else endDate stored).

Section Save.
(** The schema validators (required fields, enumerations, min and
    max), which Mongoose runs before the [pre('save')] middleware. *)
Variable validate : t -> bool.

(** [doc.save()] of a document loaded from [coll]: validation, the
    middleware, then the update of the stored document by the
    changes. *)
Definition save (c : Changes) (doc : t) (coll : list t) : Result (list t) :=
  if validate doc
  then Ok (findByIdAndUpdate (_id doc) (delta c (pre_save (isModified c) doc)) coll)
  else Throw "ValidationError".
End Save.

End Project.

(** ** The technician routes: PUT /tasks/:taskId/status *)

Module Technician.
Import JSNumber.

(** The rooms the route publishes to: [`user_${id}`] and ["superadmin"]. *)
Inductive Room :=
| UserRoom (id : ObjectId)
| Superadmin.

(** A [task_status_updated] event. *)
Record Emit := mkEmit {
  emit_room : Room;
  emit_task : Task.t;
  emit_project : Project.t;
  emit_delayReason : option string
}.

(** The two collections, the events published so far, and whether
    [initializeSocket] has run ([getIO] throws when it has not). *)
Record World := mkWorld {
  tasks : list Task.t;
  projects : list Project.t;
  emitted : list Emit;
  io_initialized : bool
}.

(** [req.params.taskId], [req.user.id] and [req.body], with values of
    the types the handler expects: the task id is an ObjectId, the
    status, the comment and the delay reason are strings, the files are
    objects with a [name] and a [url]. *)
Record Request := mkRequest {
  taskId : ObjectId;
  user : ObjectId;
  body_status : string;
  body_comment : option string;
  body_files : list (string * string);
  body_delayReason : option string
}.

Record Response := mkResponse {
  code : nat;
  message : string
}.

(** [!delayReason || delayReason.trim() === ""] *)
Definition delayReason_missing (r : option string) : bool :=
  match r with
  | None => true
  | Some s => negb (JS.truthy (Some s)) || String.eqb (JS.trim s) ""
  end.

(** [fileData], for files whose name and url are not empty:
    [file.name || file] and [file.url || file] are then the name and
    the url. *)
Definition fileData (now : Date) (req : Request) : list Task.File :=
  List.map (fun f => Task.mkFile (fst f) (snd f) (user req) now) (body_files req).

(** For an empty name [file.name || file] is the file object itself,
    and so is [file.url || file] for an empty url. The schema has a
    String there, to which Mongoose cannot cast an object:
    [Task.findByIdAndUpdate] then throws a CastError and writes
    nothing. *)
Definition fileData_casts (req : Request) : bool :=
  forallb (fun f => JS.truthy (Some (fst f)) && JS.truthy (Some (snd f))) (body_files req).

(** [updateData], as the change [findByIdAndUpdate] makes to the stored
    task; [task] is the document found at the start of the handler.
    An [undefined] value in an update is dropped by Mongoose, so
    [delayReason: undefined] leaves the stored reason as it is. *)
Definition updateData (now : Date) (req : Request) (task : Task.t) (x : Task.t) : Task.t :=
  let status := body_status req in
  let x := Task.set_status status x in
  let x :=
    if String.eqb status "in_progress" && negb (Task.is_set (Task.startedDate task))
    then Task.set_startedDate (Some now) x
    else if String.eqb status "completed"
    then Task.set_progress 100 (Task.set_completedDate (Some now) x)
    else x in
  let x :=
    if String.eqb status "delayed"
    then Task.set_delayReason (body_delayReason req) x
    else x in
  let x :=
    if JS.truthy (body_comment req)
    then Task.set_comments
           (Task.comments x ++
            [Task.mkComment (default "" (body_comment req)) (user req) now]) x
    else x in
  let x := Task.set_files (Task.files x ++ fileData now req) x in
  Task.set_statusLog
    (Task.statusLog x ++
     [Task.mkLog status (user req) now
        (if JS.truthy (body_comment req) then body_comment req else None)
        (fileData now req)
        (if String.eqb status "delayed" then body_delayReason req else None)]) x.

(** The status the route derives from the counts. *)
Definition newProjectStatus (completed total : nat) : string :=
  if (completed =? total)%nat then "Completed"
  else if (0 <? completed)%nat then "In Progress"
  else "Planning".

(** "Automatic project status update based on task completion": the
    project collection and the in-memory [parentProject] after it. *)
Definition recompute (tasks : list Task.t) (parentProject : Project.t)
    (projects : list Project.t) : list Project.t * Project.t :=
  let allProjectTasks := Task.findByProject (Project._id parentProject) tasks in
  if (0 <? length allProjectTasks)%nat then
    let completedTasks :=
      List.filter (fun x => String.eqb (Task.status x) "completed") allProjectTasks in
    let totalTasks := length allProjectTasks in
    let completionPercentage := percentage (length completedTasks) totalTasks in
    let projects :=
      Project.findByIdAndUpdate (Project._id parentProject)
        (fun p => Project.set_completionPercentage completionPercentage
                    (Project.set_tasksCount totalTasks
                       (Project.set_completedTasks (length completedTasks) p)))
        projects in
    let status' := newProjectStatus (length completedTasks) totalTasks in
    if negb (String.eqb status' (Project.status parentProject)) then
      (Project.findByIdAndUpdate (Project._id parentProject)
         (Project.set_status status') projects,
       Project.set_completionPercentage completionPercentage
         (Project.set_tasksCount totalTasks
            (Project.set_completedTasks (length completedTasks)
               (Project.set_status status' parentProject))))
    else (projects, parentProject)
  else (projects, parentProject).

(** "Emit real-time event to manager and superadmin" *)
Definition emit_events (task fullyPopulatedTask : Task.t) (parentProject : Project.t)
    (delayReason : option string) (w : World) : list Emit :=
  if io_initialized w then
    let to_manager :=
      match Task.assignedBy task with
      | Some m => [mkEmit (UserRoom m) fullyPopulatedTask parentProject delayReason]
      | None => []
      end in
    emitted w ++ to_manager ++
    [mkEmit Superadmin fullyPopulatedTask parentProject delayReason]
  else emitted w.

Definition error500 : Response := mkResponse 500 "Failed to update task status".

Section Handler.
Variable validate : Project.t -> bool.

(** "Ensure the task is present in the parent project's tasks array":
    [stored] is the project as found, its tasks populated from the task
    collection. The result is the project collection and the in-memory
    [parentProject]; the push is followed by [parentProject.save()],
    which appends the pushed id to the stored array and writes the
    length of the in-memory array as [tasksCount]. *)
Definition ensure_listed (tasks : list Task.t) (updatedTask : Task.t)
    (stored : Project.t) (projects : list Project.t)
  : Result (list Project.t * Project.t) :=
  let populated := Project.populate tasks (Project.tasks stored) in
  let parentProject := Project.set_tasks (List.map Task._id populated) stored in
  if negb (existsb (fun x => N.eqb (Task._id x) (Task._id updatedTask)) populated)
  then
    let doc := Project.set_tasks (Project.tasks parentProject ++ [Task._id updatedTask])
                 parentProject in
    let pushed := Project.mkChanges (fun _ => false) [Task._id updatedTask] in
    match Project.save validate pushed doc projects with
    | Ok projects => Ok (projects, Project.pre_save (Project.isModified pushed) doc)
    | Throw e => Throw e
    end
  else Ok (projects, parentProject).

(** The handler. Every exit is a response together with the world it
    leaves behind; an exception thrown by the task update leaves the
    world as it was, and one after it leaves the update in place (there
    is no transaction). *)
Definition putTaskStatus (now : Date) (req : Request) (w : World) : Response * World :=
  match Task.findOne (taskId req) (user req) (tasks w) with
  | None => (mkResponse 404 "Task not found or access denied", w)
  | Some task =>
      if String.eqb (body_status req) "delayed" && delayReason_missing (body_delayReason req)
      then (mkResponse 400 "Delay reason is required when reporting delay.", w)
      else if negb (fileData_casts req)
      then (error500, w)
      else
        let tasks1 := Task.findByIdAndUpdate (taskId req) (updateData now req task) (tasks w) in
        let w1 := mkWorld tasks1 (projects w) (emitted w) (io_initialized w) in
        match Task.findById (taskId req) tasks1 with
        | None => (error500, w1)
        | Some updatedTask =>
            match Project.findById (Task.project updatedTask) (projects w) with
            | None => (error500, w1)
            | Some stored =>
                match ensure_listed tasks1 updatedTask stored (projects w) with
                | Throw _ => (error500, w1)
                | Ok (projects1, parentProject) =>
                    let '(projects2, parentProject) :=
                      recompute tasks1 parentProject projects1 in
                    let delayReason :=
                      if String.eqb (body_status req) "delayed"
                      then JS.or (body_delayReason req) None else None in
                    let w2 := mkWorld tasks1 projects2 (emitted w) (io_initialized w) in
                    (mkResponse 200 "Task status updated successfully",
                     mkWorld tasks1 projects2
                       (emit_events task updatedTask parentProject delayReason w2)
                       (io_initialized w))
                end
            end
        end
  end.
End Handler.

End Technician.

(** ** models/Notification.js *)

Module Notification.

(** A stored notification. [userId] is the ObjectId of the target in
    its string form; [createdAt] is written by the [timestamps] option
    when the document is saved. *)
Record t := mk {
  _id : ObjectId;
  userId : string;
  title : string;
  message : string;
  type : string;
  isRead : bool;
  priority : string;
  category : string;
  readAt : option Date;
  expiresAt : option Date;
  createdAt : option Date
}.

(** The fields given to [Notification.create]; [None] is [undefined]. *)
Record fields := mkFields {
  f_userId : option string;
  f_title : option string;
  f_message : option string;
  f_type : string;
  f_priority : string;
  f_category : string
}.

Definition one_of (values : list string) (v : string) : bool :=
  existsb (String.eqb v) values.

(** [required] with [trim] and [maxlength] on a string path. *)
Definition required_string (maxlength : nat) (v : option string) : bool :=
  match v with
  | None => false
  | Some s => negb (String.eqb (JS.trim s) "") &&
              (String.length (JS.trim s) <=? maxlength)%nat
  end.

(** The validators of [notificationSchema]. *)
Definition validate (f : fields) : bool :=
  match f_userId f with Some _ => true | None => false end &&
  required_string 200 (f_title f) &&
  required_string 1000 (f_message f) &&
  one_of ["info"; "success"; "warning"; "error"; "system"] (f_type f) &&
  one_of ["low"; "medium"; "high"; "urgent"] (f_priority f) &&
  one_of ["general"; "security"; "system"; "task"; "maintenance"] (f_category f).

(** [Notification.create(fields)]: the saved document, or the
    validation error. [id] is the generated identity. *)
Definition create (id : ObjectId) (now : Date) (f : fields) : Result t :=
  if validate f then
    Ok (mk id (default "" (f_userId f))
           (JS.trim (default "" (f_title f)))
           (JS.trim (default "" (f_message f)))
           (f_type f) false (f_priority f) (f_category f)
           None None (Some now))
  else Throw "ValidationError".

Definition unread_of (u : string) (n : t) : bool :=
  String.eqb (userId n) u && negb (isRead n).

(** [notificationSchema.statics.markAllAsRead]:
    [updateMany({ userId, isRead: false }, { $set: { isRead: true, readAt: Date.now() } })] *)
Definition markAllAsRead (now : Date) (u : string) (coll : list t) : list t :=
  List.map (fun n =>
              if unread_of u n
              then mk (_id n) (userId n) (title n) (message n) (type n) true
                      (priority n) (category n) (Some now) (expiresAt n) (createdAt n)
              else n) coll.

(** [notificationSchema.statics.getUnreadCount]:
    [countDocuments({ userId, isRead: false })] *)
Definition getUnreadCount (u : string) (coll : list t) : nat :=
  length (List.filter (unread_of u) coll).

End Notification.

(** ** The socket server (class SocketServer) *)

Module SocketServer.

Record User := mkUser {
  user_id : string;
  user_name : string;
  user_role : string;
  user_isActive : bool
}.

(** An authenticated socket: [socket.id], [socket.userId], [socket.user]. *)
Record Socket := mkSocket {
  socket_id : string;
  socket_userId : string;
  socket_user : User
}.

(** What the server does to the outside, in order. *)
Inductive Effect :=
| Saved (n : Notification.t)
| EmitNotification (to : string) (n : Notification.t)
| EmitConnected (to : string) (u : User).

Record Server := mkServer {
  connectedUsers : gmap string string;   (* userId -> socketId *)
  rooms : list (string * string);        (* (socket id, room) *)
  notifications : list Notification.t;
  users : list User;
  effects : list Effect;
  next_id : ObjectId
}.

Definition set_connectedUsers (m : gmap string string) (s : Server) : Server :=
  mkServer m (rooms s) (notifications s) (users s) (effects s) (next_id s).
Definition set_rooms (r : list (string * string)) (s : Server) : Server :=
  mkServer (connectedUsers s) r (notifications s) (users s) (effects s) (next_id s).
Definition add_effect (e : Effect) (s : Server) : Server :=
  mkServer (connectedUsers s) (rooms s) (notifications s) (users s)
           (effects s ++ [e]) (next_id s).

(** [socket.handshake]: the places a token is looked for. *)
Record Handshake := mkHandshake {
  auth_token : option string;
  headers_authorization : option string;
  query_token : option string;
  auth_authorization : option string
}.

(** [x?.replace('Bearer ', '')] *)
Definition strip_bearer (x : option string) : option string :=
  JS.replace "Bearer " "" <$> x.

Definition handshake_token (h : Handshake) : option string :=
  JS.or (JS.or (JS.or (auth_token h) (strip_bearer (headers_authorization h)))
               (query_token h))
        (strip_bearer (auth_authorization h)).

(** [User.findById(id)] *)
Definition findUser (id : string) (coll : list User) : option User :=
  List.find (fun u => String.eqb (user_id u) id) coll.

Section Transport.
(** [jwt.verify(token, process.env.JWT_SECRET)]: the [id] claim of a
    token that verifies, [None] when it throws. *)
Variable jwt_verify : string -> option string.

(** The authentication middleware of [setupMiddleware]: the socket
    passed to [next()], or the error passed to [next(err)]. *)
Definition middleware (sid : string) (h : Handshake) (s : Server) : Result Socket :=
  if negb (JS.truthy (handshake_token h))
  then Throw "Authentication error: No token provided"
  else
    match jwt_verify (default "" (handshake_token h)) with
    | None => Throw "Authentication error: Invalid token"
    | Some id =>
        match findUser id (users s) with
        | None => Throw "Authentication error: User not found"
        | Some user => Ok (mkSocket sid (user_id user) user)
        end
    end.

(** The ['connection'] handler of [setupEventHandlers]. *)
Definition on_connection (socket : Socket) (s : Server) : Server :=
  let s := set_connectedUsers
             (<[socket_userId socket := socket_id socket]> (connectedUsers s)) s in
  let s := set_rooms
             (rooms s ++
              [(socket_id socket, String.append "user:" (socket_userId socket));
               (socket_id socket, String.append "role:" (user_role (socket_user socket)))]) s in
  add_effect (EmitConnected (socket_id socket) (socket_user socket)) s.

(** The ['disconnect'] handler; the transport takes the socket out of
    its rooms. *)
Definition on_disconnect (socket : Socket) (s : Server) : Server :=
  let s := set_connectedUsers (delete (socket_userId socket) (connectedUsers s)) s in
  set_rooms (List.filter (fun r => negb (String.eqb (fst r) (socket_id socket))) (rooms s)) s.

(** A connection attempt: the middleware, and the ['connection']
    handler only when the middleware accepted. *)
Definition connect (sid : string) (h : Handshake) (s : Server) : Result Socket * Server :=
  match middleware sid h s with
  | Ok socket => (Ok socket, on_connection socket s)
  | Throw e => (Throw e, s)
  end.
End Transport.

(** [this.connectedUsers.get(userId)] is truthy. *)
Definition isPresent (userId : string) (s : Server) : bool :=
  JS.truthy (connectedUsers s !! userId).

(** The notification payload handed to the dispatcher. *)
Record Payload := mkPayload {
  p_title : option string;
  p_message : option string;
  p_type : option string;
  p_priority : option string;
  p_category : option string
}.

Definition fields_of (userId : option string) (p : Payload) : Notification.fields :=
  Notification.mkFields userId (p_title p) (p_message p)
    (default "info" (JS.or (p_type p) (Some "info")))
    (default "medium" (JS.or (p_priority p) (Some "medium")))
    (default "general" (JS.or (p_category p) (Some "general"))).

(** [this.connectedUsers.get(userId)]; an [undefined] user id is not a
    key of the map. *)
Definition handle_of (userId : option string) (s : Server) : option string :=
  userId ≫= (fun u => connectedUsers s !! u).

(** [sendNotificationToUser(userId, notification)] *)
Definition sendNotificationToUser (now : Date) (userId : option string) (p : Payload)
    (s : Server) : Result Notification.t * Server :=
  (* Save notification to database *)
  match Notification.create (next_id s) now (fields_of userId p) with
  | Throw e => (Throw e, s)
  | Ok savedNotification =>
      let s := mkServer (connectedUsers s) (rooms s)
                 (notifications s ++ [savedNotification]) (users s)
                 (effects s ++ [Saved savedNotification]) (N.succ (next_id s)) in
      (* Send to connected user *)
      let socketId := handle_of userId s in
      if JS.truthy socketId
      then (Ok savedNotification,
            add_effect (EmitNotification (default "" socketId) savedNotification) s)
      else (Ok savedNotification, s)
  end.

(** [userIds.map(userId => this.sendNotificationToUser(userId, notification))]:
    every call is started and runs to its end whatever the others do;
    the calls are taken in the order of the list. *)
Fixpoint map_send (now : Date) (userIds : list (option string)) (p : Payload) (s : Server)
  : list (Result Notification.t) * Server :=
  match userIds with
  | nil => (nil, s)
  | u :: rest =>
      let '(r, s) := sendNotificationToUser now u p s in
      let '(rs, s) := map_send now rest p s in
      (r :: rs, s)
  end.

(** [Promise.all(promises)]: all the values when every promise is
    fulfilled, and otherwise a rejection with the error of one that was
    rejected (here the first of the list). *)
Fixpoint Promise_all {A} (settled : list (Result A)) : Result (list A) :=
  match settled with
  | nil => Ok nil
  | Throw e :: _ => Throw e
  | Ok a :: rest =>
      match Promise_all rest with
      | Ok l => Ok (a :: l)
      | Throw e => Throw e
      end
  end.

(** [sendNotificationToUsers(userIds, notification)] *)
Definition sendNotificationToUsers (now : Date) (userIds : list (option string))
    (p : Payload) (s : Server) : Result (list Notification.t) * Server :=
  let '(settled, s) := map_send now userIds p s in
  (Promise_all settled, s).

End SocketServer.

(** ** models/Task.js: due dates and queries *)

Module TaskDue.

(** The virtual [effectiveDueDate]: [this.deadline || this.dueDate]. *)
Definition effectiveDueDate (x : Task.t) : option Date :=
  match Task.deadline x with
  | Some d => Some d
  | None => Task.dueDate x
  end.

(** The virtual [effectiveCompletedDate]:
    [this.completedDate || this.completedAt]. *)
Definition effectiveCompletedDate (x : Task.t) : option Date :=
  match Task.completedDate x with
  | Some d => Some d
  | None => Task.completedAt x
  end.

(** [status !== 'completed' && status !== 'Completed'], which is also
    [status: { $nin: ['completed', 'Completed'] }]. *)
Definition not_completed (x : Task.t) : bool :=
  negb (String.eqb (Task.status x) "completed") &&
  negb (String.eqb (Task.status x) "Completed").

(** [taskSchema.methods.isOverdue], as a truth value. *)
Definition isOverdue (now : Date) (x : Task.t) : bool :=
  match effectiveDueDate x with
  | Some dueDate => (dueDate <? now)%nat && not_completed x
  | None => false
  end.

(** [{ field: { $lt: now } }]: a missing date does not match. *)
Definition before (now : Date) (d : option Date) : bool :=
  match d with
  | Some d => (d <? now)%nat
  | None => false
  end.

(** [taskSchema.statics.findOverdue] *)
Definition findOverdue (now : Date) (coll : list Task.t) : list Task.t :=
  List.filter (fun x => (before now (Task.deadline x) || before now (Task.dueDate x)) &&
                        not_completed x) coll.

(** [taskSchema.statics.findByAssignee] *)
Definition findByAssignee (who : ObjectId) (coll : list Task.t) : list Task.t :=
  List.filter (fun x => N.eqb (Task.assignedTo x) who) coll.

End TaskDue.

(** ** The technician routes: GET /stats *)

Module TechnicianStats.

(** [Task.countDocuments({ assignedTo, status })] *)
Definition countDocuments (who : ObjectId) (status : string) (coll : list Task.t) : nat :=
  length (List.filter (fun x => N.eqb (Task.assignedTo x) who &&
                                String.eqb (Task.status x) status) coll).

Record Stats := mkStats {
  assignedTasksCount : nat;
  inProgressTasksCount : nat;
  completedTasksCount : nat;
  delayedTasksCount : nat
}.

(** The [data] of the response. *)
Definition stats (who : ObjectId) (coll : list Task.t) : Stats :=
  mkStats (countDocuments who "assigned" coll)
          (countDocuments who "in_progress" coll)
          (countDocuments who "completed" coll)
          (countDocuments who "delayed" coll).

(** A status the dashboard has a counter for. *)
Definition counted (status : string) : bool :=
  String.eqb status "assigned" || String.eqb status "in_progress" ||
  String.eqb status "completed" || String.eqb status "delayed".

End TechnicianStats.

(** ** models/Notification.js: one notification, and expiry *)

Module NotificationDoc.
Import Notification.

(** The assignments of [notificationSchema.methods.markAsRead]. *)
Definition markAsRead (now : Date) (n : t) : t :=
  mk (_id n) (userId n) (title n) (message n) (type n) true
     (priority n) (category n) (Some now) (expiresAt n) (createdAt n).

(** [this.save()] of a loaded notification: the stored document with
    that identity is replaced. *)
Fixpoint save (doc : t) (coll : list t) : list t :=
  match coll with
  | nil => nil
  | n :: r => if N.eqb (_id n) (_id doc) then doc :: r else n :: save doc r
  end.

(** [{ expiresAt: { $lt: Date.now() } }]: a [null] expiry does not
    match. *)
Definition expired (now : Date) (n : t) : bool :=
  match expiresAt n with
  | Some e => (e <? now)%nat
  | None => false
  end.

(** [notificationSchema.statics.cleanupExpiredNotifications]: the
    collection after the [deleteMany]. *)
Definition cleanupExpiredNotifications (now : Date) (coll : list t) : list t :=
  List.filter (fun n => negb (expired now n)) coll.

End NotificationDoc.

(** ** The socket server: roles, broadcasts and counts *)

Module SocketBroadcast.
Import SocketServer.

(** A publication to a room or to every socket; the payload is the
    notification as given, not a stored record. *)
Inductive Broadcast :=
| ToRoom (room : string) (p : Payload)
| ToAll (p : Payload).

(** [User.find({ role }).select('_id')] and the [toString] of the ids. *)
Definition role_userIds (role : string) (s : Server) : list (option string) :=
  List.map (fun u => Some (user_id u))
           (List.filter (fun u => String.eqb (user_role u) role) (users s)).

(** [User.find().select('_id')] *)
Definition all_userIds (s : Server) : list (option string) :=
  List.map (fun u => Some (user_id u)) (users s).

(** [sendNotificationToRole(role, notification)]: the outcome, the server
    and what was published to the role room. The room is published to
    only after [sendNotificationToUsers] is fulfilled. *)
Definition sendNotificationToRole (now : Date) (role : string) (p : Payload) (s : Server)
  : Result unit * Server * list Broadcast :=
  match sendNotificationToUsers now (role_userIds role s) p s with
  | (Ok _, s) => (Ok tt, s, [ToRoom (String.append "role:" role) p])
  | (Throw e, s) => (Throw e, s, [])
  end.

(** [sendNotificationToAll(notification)] *)
Definition sendNotificationToAll (now : Date) (p : Payload) (s : Server)
  : Result unit * Server * list Broadcast :=
  match sendNotificationToUsers now (all_userIds s) p s with
  | (Ok _, s) => (Ok tt, s, [ToAll p])
  | (Throw e, s) => (Throw e, s, [])
  end.

(** [getConnectedUsersCount()]: [this.connectedUsers.size]. *)
Definition getConnectedUsersCount (s : Server) : nat := size (connectedUsers s).

End SocketBroadcast.

(** ** services/notificationService.js *)

Module NotificationService.
Import SocketServer.

(** [saveNotificationToDatabase(userId, notification)] *)
Definition saveNotificationToDatabase (now : Date) (userId : option string) (p : Payload)
    (s : Server) : Result Notification.t * Server :=
  match Notification.create (next_id s) now (fields_of userId p) with
  | Throw e => (Throw e, s)
  | Ok n =>
      (Ok n, mkServer (connectedUsers s) (rooms s) (notifications s ++ [n]) (users s)
                      (effects s ++ [Saved n]) (N.succ (next_id s)))
  end.

(** [userIds.map(userId => this.saveNotificationToDatabase(userId, notification))] *)
Fixpoint map_save (now : Date) (userIds : list (option string)) (p : Payload) (s : Server)
  : list (Result Notification.t) * Server :=
  match userIds with
  | nil => (nil, s)
  | u :: rest =>
      let '(r, s) := saveNotificationToDatabase now u p s in
      let '(rs, s) := map_save now rest p s in
      (r :: rs, s)
  end.

(** The double quote of the message templates. *)
Definition dquote : string := String (ascii_of_nat 34) EmptyString.

Section Service.
(** Whether [global.socketServer] is set. *)
Variable socketServer : bool.

(** [sendRealTimeNotification(userId, notification)]: the socket server
    when there is one, the database alone otherwise, and the database
    again when the first attempt threw; if that fails too the first
    error is thrown. *)
Definition sendRealTimeNotification (now : Date) (userId : option string) (p : Payload)
    (s : Server) : Result Notification.t * Server :=
  let attempt := if socketServer then sendNotificationToUser now userId p s
                 else saveNotificationToDatabase now userId p s in
  match attempt with
  | (Ok result, s) => (Ok result, s)
  | (Throw error, s) =>
      match saveNotificationToDatabase now userId p s with
      | (Ok result, s) => (Ok result, s)
      | (Throw _, s) => (Throw error, s)
      end
  end.

(** [saveNotificationToRole(role, notification)] *)
Definition saveNotificationToRole (now : Date) (role : string) (p : Payload) (s : Server)
  : Result (list Notification.t) * Server :=
  let '(settled, s) := map_save now (SocketBroadcast.role_userIds role s) p s in
  (Promise_all settled, s).

(** [sendNotificationToUsers(userIds, notification)] of the service *)
Definition sendNotificationToUsers (now : Date) (userIds : list (option string))
    (p : Payload) (s : Server) : Result (list Notification.t) * Server :=
  if socketServer then SocketServer.sendNotificationToUsers now userIds p s
  else let '(settled, s) := map_save now userIds p s in (Promise_all settled, s).

(** [sendNotificationToRole(role, notification)] of the service: what it
    resolves to is not used by its callers. *)
Definition sendNotificationToRole (now : Date) (role : string) (p : Payload) (s : Server)
  : Result unit * Server * list SocketBroadcast.Broadcast :=
  if socketServer then SocketBroadcast.sendNotificationToRole now role p s
  else match saveNotificationToRole now role p s with
       | (Ok _, s) => (Ok tt, s, [])
       | (Throw e, s) => (Throw e, s, [])
       end.

(** [sendTaskAssignedNotification(technicianId, task, assignedBy)];
    [priority] is [task.priority]. *)
Definition sendTaskAssignedNotification (now : Date) (technicianId : option string)
    (title : string) (priority : option string) (s : Server) : Result Notification.t * Server :=
  sendRealTimeNotification now technicianId
    (mkPayload (Some "New Task Assigned")
               (Some (String.append "You have been assigned a new task: " title))
               (Some "info") (JS.or priority (Some "medium")) (Some "task")) s.

(** [sendTaskCompletedNotification(managerId, task, completedBy)] *)
Definition sendTaskCompletedNotification (now : Date) (managerId : option string)
    (title name : string) (s : Server) : Result Notification.t * Server :=
  sendRealTimeNotification now managerId
    (mkPayload (Some "Task Completed")
               (Some (String.append "Task "
                        (String.append dquote
                           (String.append title
                              (String.append dquote
                                 (String.append " has been completed by " name))))))
               (Some "success") (Some "medium") (Some "task")) s.

(** [sendProjectCreatedNotification(project, createdBy)] *)
Definition sendProjectCreatedNotification (now : Date) (title name : string) (s : Server)
  : Result unit * Server * list SocketBroadcast.Broadcast :=
  sendNotificationToRole now "super-admin"
    (mkPayload (Some "New Project Created")
               (Some (String.append "A new project "
                        (String.append dquote
                           (String.append title
                              (String.append dquote
                                 (String.append " has been created by " name))))))
               (Some "info") (Some "medium") (Some "project")) s.

(** [sendReportSubmittedNotification(managerId, report, submittedBy)] *)
Definition sendReportSubmittedNotification (now : Date) (managerId : option string)
    (name : string) (s : Server) : Result Notification.t * Server :=
  sendRealTimeNotification now managerId
    (mkPayload (Some "Report Submitted")
               (Some (String.append "A new report has been submitted by " name))
               (Some "success") (Some "medium") (Some "report")) s.

End Service.

End NotificationService.

(** ** middleware/auth.js *)

Module Auth.
Import SocketServer.

(** The characters before the first space. *)
Fixpoint until_space (s : string) : string :=
  match s with
  | EmptyString => EmptyString
  | String c r => if Ascii.eqb c " " then EmptyString else String c (until_space r)
  end.

(** [s.split(' ')[1]]: what lies between the first space and the next
    one, [undefined] when there is no space. *)
Fixpoint split_second (s : string) : option string :=
  match s with
  | EmptyString => None
  | String c r => if Ascii.eqb c " " then Some (until_space r) else split_second r
  end.

(** What a middleware does with a request: it calls [next()] with
    [req.user] set, or it answers. *)
Inductive Outcome :=
| Next (user : User)
| Respond (code : nat) (message : string).

(** The token [protect] reads from [req.headers.authorization]. *)
Definition bearer_token (authorization : option string) : option string :=
  if JS.truthy authorization && JS.startsWith "Bearer" (default "" authorization)
  then split_second (default "" authorization)
  else None.

Section Middleware.
Variable jwt_verify : string -> option string.

(** [protect] *)
Definition protect (authorization : option string) (users : list User) : Outcome :=
  let token := bearer_token authorization in
  if negb (JS.truthy token)
  then Respond 401 "Access denied. No token provided."
  else
    match jwt_verify (default "" token) with
    | None => Respond 401 "Invalid token"
    | Some id =>
        match findUser id users with
        | None => Respond 401 "User not found"
        | Some user =>
            if negb (user_isActive user)
            then Respond 401 "User account is deactivated"
            else Next user
        end
    end.

(** [optionalAuth]: the [req.user] it leaves, if any; it never answers. *)
Definition optionalAuth (authorization : option string) (users : list User) : option User :=
  let token := bearer_token authorization in
  if JS.truthy token then
    match jwt_verify (default "" token) with
    | None => None
    | Some id =>
        match findUser id users with
        | Some user => if user_isActive user then Some user else None
        | None => None
        end
    end
  else None.

(** [authorize(...roles)], given [req.user]. *)
Definition authorize (roles : list string) (user : option User) : Outcome :=
  match user with
  | None => Respond 401 "User not authenticated"
  | Some u =>
      if negb (existsb (String.eqb (user_role u)) roles)
      then Respond 403 "Access denied. Insufficient permissions."
      else Next u
  end.

(** [router.use(protect); router.use(authorize(...roles))] *)
Definition guarded (roles : list string) (authorization : option string)
    (users : list User) : Outcome :=
  match protect authorization users with
  | Next u => authorize roles (Some u)
  | Respond code message => Respond code message
  end.
End Middleware.

End Auth.

(** ** config/socket.js *)

Module SocketConfig.

(** The claims of a verified token that the handshake keeps. *)
Record Claims := mkClaims {
  claim_id : string;
  claim_role : option string
}.

Section Handshake.
Variable jwt_verify : string -> option Claims.

(** The authentication middleware of [initializeSocket]: only
    [socket.handshake.auth.token] is read, and no user is looked up. *)
Definition middleware (auth_token : option string) : Result Claims :=
  if negb (JS.truthy auth_token)
  then Throw "Authentication token required"
  else match jwt_verify (default "" auth_token) with
       | Some claims => Ok claims
       | None => Throw "Authentication failed"
       end.
End Handshake.

(** The rooms the ['connection'] handler joins, in order
    ([joinedRooms]). *)
Definition joinedRooms (socket : Claims) : list string :=
  let role_room :=
    match claim_role socket with
    | Some userRole =>
        let role := JS.toLowerCase userRole in
        if String.eqb role "superadmin" || String.eqb role "super-admin" then ["superadmin"]
        else if String.eqb role "manager" then ["manager"]
        else if String.eqb role "technician" then ["technician"]
        else []
    | None => []
    end in
  role_room ++ [String.append "user_" (claim_id socket)].

End SocketConfig.

(** ** routes/tasks.js: POST / (a manager creates and assigns a task) *)

Module TaskRoutes.

(** The fields of a user the route reads. *)
Record User := mkUser {
  user_id : ObjectId;
  user_role : string
}.

(** A [task_assigned] event: the technician whose room [`user_${id}`]
    it is published to, and the task. *)
Record Assigned := mkAssigned {
  assigned_to : ObjectId;
  assigned_task : Task.t
}.

Record World := mkWorld {
  tasks : list Task.t;
  projects : list Project.t;
  users : list User;
  emitted : list Assigned;
  io_initialized : bool
}.

(** [req.user.id] and [req.body]; [None] is a field that is not given. *)
Record Request := mkRequest {
  user : ObjectId;
  body_title : option string;
  body_description : option string;
  body_project : option ObjectId;
  body_assignedTo : option ObjectId;
  body_priority : option string;
  body_deadline : option Date
}.

Record Response := mkResponse {
  code : nat;
  message : string
}.

(** The request validation: [title], [project] and [assignedTo] not
    empty, [priority], when given, one of the four. *)
Definition body_valid (req : Request) : bool :=
  JS.truthy (body_title req) &&
  bool_decide (is_Some (body_project req)) &&
  bool_decide (is_Some (body_assignedTo req)) &&
  match body_priority req with
  | Some priority => existsb (String.eqb priority) ["low"; "medium"; "high"; "urgent"]
  | None => true
  end.

(** [User.findById(id)] *)
Definition findUser (id : ObjectId) (coll : list User) : option User :=
  List.find (fun u => N.eqb (user_id u) id) coll.

(** [new Task({ title, description, project, assignedTo, assignedBy,
    priority, deadline })] with the defaults of the schema; the title
    is trimmed by the schema. [id] is the generated identity. *)
Definition newTask (id : ObjectId) (req : Request) (project technician : ObjectId) : Task.t :=
  Task.mk id (JS.trim (default "" (body_title req))) project technician (Some (user req))
    "assigned" (body_deadline req) None None None None 0 [] [] [] None.

(** The paths the constructor was given, which are the modified paths of
    the new document; paths that hold a default are not. *)
Definition given (req : Request) (path : string) : bool :=
  existsb (String.eqb path) ["title"; "project"; "assignedTo"; "assignedBy"; "priority"] ||
  (String.eqb path "description" && bool_decide (is_Some (body_description req))) ||
  (String.eqb path "deadline" && bool_decide (is_Some (body_deadline req))).

(** The validators of the task schema that can fail for such a
    document: a title is required, after the trim. *)
Definition task_valid (x : Task.t) : bool :=
  negb (String.eqb (Task.title x) "").

Section Handler.
Variable validate : Project.t -> bool.

(** The handler, behind [protect] and [authorize('manager')]. *)
Definition createTask (id : ObjectId) (now : Date) (req : Request) (w : World)
  : Response * World :=
  if negb (body_valid req) then (mkResponse 400 "Validation failed", w)
  else
    (* Check project exists and belongs to manager *)
    match body_project req ≫= (fun p => Project.findById p (projects w)) with
    | None => (mkResponse 404 "Project not found", w)
    | Some foundProject =>
        match Project.assignedManager foundProject with
        | None => (mkResponse 500 "Failed to create task", w)
        | Some manager =>
            if negb (N.eqb manager (user req))
            then (mkResponse 403 "Not authorized for this project", w)
            else
              (* Check technician exists *)
              match body_assignedTo req ≫= (fun t => findUser t (users w)) with
              | None => (mkResponse 404 "Technician not found", w)
              | Some technician =>
                  if negb (String.eqb (user_role technician) "technician")
                  then (mkResponse 404 "Technician not found", w)
                  else
                    (* Create task *)
                    let doc := newTask id req (Project._id foundProject)
                                 (user_id technician) in
                    if negb (task_valid doc)
                    then (mkResponse 500 "Failed to create task", w)
                    else
                      let saved := Task.pre_save (given req) now doc in
                      let w1 := mkWorld (tasks w ++ [saved]) (projects w) (users w)
                                  (emitted w) (io_initialized w) in
                      (* Add task to project's tasks array *)
                      let listed := Project.set_tasks
                                      (Project.tasks foundProject ++ [Task._id saved])
                                      foundProject in
                      match Project.save validate
                              (Project.mkChanges (fun _ => false) [Task._id saved])
                              listed (projects w) with
                      | Throw _ => (mkResponse 500 "Failed to create task", w1)
                      | Ok projects1 =>
                          (mkResponse 201 "Task created and assigned successfully",
                           mkWorld (tasks w1) projects1 (users w)
                             (if io_initialized w
                              then emitted w ++ [mkAssigned (user_id technician) saved]
                              else emitted w)
                             (io_initialized w))
                      end
              end
        end
    end.
End Handler.

End TaskRoutes.

(** ** Derived notions used in the statements *)

Module Derived.

(** The progress the middleware leaves, as a function of the status. *)
Definition progress_for_status (s : string) (p : Z) : Z :=
  let p := if String.eqb s "completed" || String.eqb s "Completed" then 100 else p in
  let l := JS.toLowerCase s in
  if String.eqb l "assigned" || String.eqb l "pending" then 0
  else if String.eqb l "in_progress" || String.eqb l "in progress"
  then (if p =? 0 then 25 else p)
  else if String.eqb l "completed" then 100
  else p.

(** The schema accepts the notification for a target that is given. *)
Definition payload_ok (p : SocketServer.Payload) : bool :=
  Notification.validate (SocketServer.fields_of (Some "") p).

(** A notification as the dispatcher stores it: unread, without expiry,
    created at the time of the call. *)
Definition fresh (now : Date) (n : Notification.t) : Prop :=
  Notification.isRead n = false /\ Notification.readAt n = None /\
  Notification.expiresAt n = None /\ Notification.createdAt n = Some now.

(** The number [Math.round((c / t) * 100)] is the integer
    round(100 c / t) of exact arithmetic. *)
Definition agrees (c t : nat) : bool :=
  bool_decide (JSNumber.to_Z (JSNumber.percentage c t) = Some (JSNumber.exact_percentage c t)).

End Derived.

(** ** Sample data *)

Module Fixtures.

(** A project with two referenced tasks. *)
Definition project7 : Project.t :=
  Project.mk 7%N "Plant A" (Some 1%N) "Planning" [11%N; 12%N]
    (JSNumber.of_Z 0) 0 0 (JSNumber.of_Z 0) None.

(** A task of project 7, assigned to technician 3 by manager 1. *)
Definition task (id : ObjectId) (status : string) (progress : Z) : Task.t :=
  Task.mk id "Install meter" 7%N 3%N (Some 1%N) status None None None None None
    progress [] [] [] None.

(** Tasks 1 to [n] of project 7, the first [c] of them completed. *)
Definition tasks_upto (c n : nat) : list Task.t :=
  List.map (fun i => if (i <=? c)%nat then task (N.of_nat i) "completed" 100
                     else task (N.of_nat i) "assigned" 0)
           (seq 1 n).

Definition project_with (status : string) (n : nat) : Project.t :=
  Project.mk 7%N "Plant A" (Some 1%N) status (List.map N.of_nat (seq 1 n))
    (JSNumber.of_Z 0) n 0 (JSNumber.of_Z 0) None.

(** Forty tasks, twenty-two of them completed. *)
Definition world40 : Technician.World :=
  Technician.mkWorld (tasks_upto 22 40) [project_with "In Progress" 40] [] true.

(** Two open tasks in a project that is on hold. *)
Definition world_on_hold : Technician.World :=
  Technician.mkWorld (tasks_upto 0 2) [project_with "On Hold" 2] [] true.

(** Two open tasks in a project marked delayed. *)
Definition world_delayed : Technician.World :=
  Technician.mkWorld (tasks_upto 0 2) [project_with "Delayed" 2] [] true.

(** One completed task. *)
Definition world_done : Technician.World :=
  Technician.mkWorld (tasks_upto 1 1) [project_with "Completed" 1] [] true.

(** Technician 3 sets the status of a task. *)
Definition status_request (id : ObjectId) (status : string) (reason : option string)
  : Technician.Request :=
  Technician.mkRequest id 3%N status None [] reason.

Definition always_valid (p : Project.t) : bool := true.

Definition uma : SocketServer.User := SocketServer.mkUser "U" "Uma" "manager" true.

(** A user whose account was deactivated. *)
Definition xi : SocketServer.User := SocketServer.mkUser "X" "Xi" "technician" false.

Definition server0 : SocketServer.Server :=
  SocketServer.mkServer ∅ [] [] [uma; xi] [] 100%N.

Definition socket_of (u : SocketServer.User) (sid : string) : SocketServer.Socket :=
  SocketServer.mkSocket sid (SocketServer.user_id u) u.

Definition hello : SocketServer.Payload :=
  SocketServer.mkPayload (Some "Hello") (Some "World") None None (Some "task").

(** A notification whose category the schema does not list. *)
Definition unlisted_category : SocketServer.Payload :=
  SocketServer.mkPayload (Some "Hello") (Some "World") None None (Some "project").

(** Manager 1 asks for a task of project 7 for technician 3. *)
Definition create_request (title : string) : TaskRoutes.Request :=
  TaskRoutes.mkRequest 1%N (Some title) None (Some 7%N) (Some 3%N) None (Some 30%nat).

Definition create_world : TaskRoutes.World :=
  TaskRoutes.mkWorld (tasks_upto 0 2) [project_with "Planning" 2]
    [TaskRoutes.mkUser 1%N "manager"; TaskRoutes.mkUser 3%N "technician"] [] true.


(** A verifier that knows two tokens. *)
Definition jwt (token : string) : option string :=
  if String.eqb token "token-of-X" then Some "X"
  else if String.eqb token "token-of-U" then Some "U"
  else None.

Definition handshake_of_X : SocketServer.Handshake :=
  SocketServer.mkHandshake None (Some "Bearer token-of-X") None None.

End Fixtures.

(** * Properties *)

(** ** Collections *)

Module CollectionFacts.

Lemma task_find_id id coll x :
  Task.findById id coll = Some x -> Task._id x = id.
Proof.
  unfold Task.findById. intros H. apply find_some in H as [_ H].
  by apply N.eqb_eq.
Qed.

Lemma task_find_in id coll x :
  Task.findById id coll = Some x -> In x coll.
Proof. unfold Task.findById. intros H. by apply find_some in H as [H _]. Qed.


(** After an update that keeps the identity, the document found under
    an id is the update of the one found before. *)
Lemma task_find_update id f coll :
  (forall x, Task._id (f x) = Task._id x) ->
  Task.findById id (Task.findByIdAndUpdate id f coll) = f <$> Task.findById id coll.
Proof.
  intros Hid. unfold Task.findById.
  induction coll as [|y r IH]; simpl; [done|].
  destruct (N.eqb (Task._id y) id) eqn:E; simpl.
  - by rewrite Hid, E.
  - by rewrite E.
Qed.

Lemma project_find_id id coll p :
  Project.findById id coll = Some p -> Project._id p = id.
Proof.
  unfold Project.findById. intros H. apply find_some in H as [_ H].
  by apply N.eqb_eq.
Qed.

Lemma project_find_update id f coll :
  (forall p, Project._id p = id -> Project._id (f p) = id) ->
  Project.findById id (Project.findByIdAndUpdate id f coll)
  = f <$> Project.findById id coll.
Proof.
  intros Hid. unfold Project.findById.
  induction coll as [|y r IH]; simpl; [done|].
  destruct (N.eqb (Project._id y) id) eqn:E; simpl.
  - apply N.eqb_eq in E. by rewrite (Hid _ E), N.eqb_refl.
  - by rewrite E.
Qed.

Lemma project_pre_save_id isModified p :
  Project._id (Project.pre_save isModified p) = Project._id p.
Proof.
  unfold Project.pre_save.
  repeat match goal with |- context [if ?b then _ else _] => destruct b end; done.
Qed.

End CollectionFacts.

(** ** Notification statics *)

Module NotificationFacts.
Import Notification.

Lemma markAllAsRead_none_unread now u coll :
  List.filter (unread_of u) (markAllAsRead now u coll) = [].
Proof.
  unfold markAllAsRead.
  induction coll as [|n r IH]; simpl; [done|].
  destruct (unread_of u n) eqn:E; simpl.
  - unfold unread_of in *. simpl. by rewrite andb_false_r.
  - by rewrite E.
Qed.

Lemma markAllAsRead_others now u coll :
  List.filter (fun n => negb (String.eqb (userId n) u)) (markAllAsRead now u coll)
  = List.filter (fun n => negb (String.eqb (userId n) u)) coll.
Proof.
  unfold markAllAsRead.
  induction coll as [|n r IH]; simpl; [done|].
  destruct (unread_of u n) eqn:E; simpl.
  - unfold unread_of in E. apply andb_true_iff in E as [E _].
    by rewrite E.
  - by rewrite IH.
Qed.

(** C10. After [markAllAsRead(u)], [getUnreadCount(u)] is 0, and the
    notifications of every other user are the ones stored before, each
    as it was. *)
Theorem C10_markAllAsRead_clears_unread now u coll :
  getUnreadCount u (markAllAsRead now u coll) = 0%nat /\
  List.filter (fun n => negb (String.eqb (userId n) u)) (markAllAsRead now u coll)
  = List.filter (fun n => negb (String.eqb (userId n) u)) coll.
Proof.
  split.
  - unfold getUnreadCount. by rewrite markAllAsRead_none_unread.
  - apply markAllAsRead_others.
Qed.

End NotificationFacts.

(** ** Project middleware *)

Module ProjectFacts.
Import Project CollectionFacts.

Lemma pre_save_tasks isModified p :
  tasks (pre_save isModified p) = tasks p.
Proof.
  unfold pre_save.
  repeat match goal with |- context [if ?b then _ else _] => destruct b end; done.
Qed.

Lemma pre_save_tasksCount isModified p :
  isModified "tasks" = true ->
  tasksCount (pre_save isModified p) = length (tasks (pre_save isModified p)).
Proof.
  intros H. rewrite pre_save_tasks. unfold pre_save. rewrite H.
  repeat match goal with |- context [if ?b then _ else _] => destruct b end; done.
Qed.

Lemma delta_id c doc stored : _id (delta c doc stored) = _id stored.
Proof. reflexivity. Qed.

(** The stored document after a save that passed the validation. *)
Lemma save_stored validate c doc coll stored :
  validate doc = true ->
  findById (_id doc) coll = Some stored ->
  exists coll',
    save validate c doc coll = Ok coll' /\
    findById (_id doc) coll' = Some (delta c (pre_save (isModified c) doc) stored).
Proof.
  intros Hv Hf. unfold save. rewrite Hv. eexists. split; [reflexivity|].
  rewrite project_find_update, Hf; [reflexivity|].
  intros q Hq. by rewrite delta_id.
Qed.

(** C9, as stated, fails for the stored project. The status route loads
    the project with its tasks populated, which drops the references
    [1] and [2] that have no task behind them, pushes the id of task 3
    and saves: the document then has one task and [tasksCount] 1, and
    the stored project has the three references [1; 2; 3] with
    [tasksCount] 1. *)
Lemma C9_stored_count_differs :
  exists projects doc p,
    Technician.ensure_listed Fixtures.always_valid
      [Fixtures.task 3%N "assigned" 0] (Fixtures.task 3%N "assigned" 0)
      (Fixtures.project_with "Planning" 2) [Fixtures.project_with "Planning" 2]
    = Ok (projects, doc) /\
    tasks doc = [3%N] /\ tasksCount doc = 1%nat /\
    findById 7%N projects = Some p /\
    tasks p = [1%N; 2%N; 3%N] /\ tasksCount p = 1%nat /\
    tasksCount p <> length (tasks p).
Proof.
  do 3 eexists. split; [reflexivity|].
  repeat split; try reflexivity. vm_compute. discriminate.
Qed.

(** C9, amended. When the tasks array of a loaded project was modified,
    the document has after the save a [tasksCount] equal to the length
    of its tasks array. The save writes the changes and not the
    document: the stored [tasksCount] is that length, and the stored
    array is the assigned array or, after [push], the stored array with
    the pushed ids appended. So the stored [tasksCount] is the length
    of the stored array exactly when the array was assigned or the
    array of the document is as long as the stored array and the pushed
    ids together. *)
Theorem C9_save_syncs_tasksCount validate c doc coll stored :
  isModified c "tasks" = true ->
  validate doc = true ->
  findById (_id doc) coll = Some stored ->
  let doc' := pre_save (isModified c) doc in
  tasks doc' = tasks doc /\
  tasksCount doc' = length (tasks doc') /\
  exists coll' p,
    save validate c doc coll = Ok coll' /\
    findById (_id doc) coll' = Some p /\
    tasksCount p = length (tasks doc') /\
    tasks p = (if assigned c "tasks" then tasks doc' else tasks stored ++ pushed c) /\
    (tasksCount p = length (tasks p) <->
     assigned c "tasks" = true \/
     length (tasks doc') = (length (tasks stored) + length (pushed c))%nat).
Proof.
  intros Hmod Hv Hf doc'.
  assert (tasksCount doc' = length (tasks doc')) as Hsync
    by (by apply pre_save_tasksCount).
  split; [apply pre_save_tasks|]. split; [exact Hsync|].
  destruct (save_stored validate c doc coll stored Hv Hf) as (coll' & Hs & Hp).
  exists coll', (delta c doc' stored).
  split; [exact Hs|]. split; [exact Hp|].
  unfold delta. cbn [tasksCount tasks]. rewrite Hmod. cbn [orb].
  split; [exact Hsync|]. split; [reflexivity|].
  rewrite Hsync. destruct (assigned c "tasks").
  - split; [by left | done].
  - rewrite length_app. split.
    + intros H. by right.
    + by intros [H|H].
Qed.

(** [calculateCompletion] does nothing on a project without task
    references: the stored percentage is returned as it is. *)
Lemma calculateCompletion_no_tasks coll p :
  tasks p = [] -> calculateCompletion coll p = (completionPercentage p, p).
Proof. unfold calculateCompletion. by intros ->. Qed.

Lemma C9_save_syncs_tasksCount_witness :
  exists coll' p,
    save Fixtures.always_valid (mkChanges (fun _ => false) [3%N])
      (set_tasks [1%N; 2%N; 3%N] (Fixtures.project_with "Planning" 2))
      [Fixtures.project_with "Planning" 2] = Ok coll' /\
    findById 7%N coll' = Some p /\
    tasks p = [1%N; 2%N; 3%N] /\ tasksCount p = 3%nat.
Proof.
  destruct (C9_save_syncs_tasksCount Fixtures.always_valid
              (mkChanges (fun _ => false) [3%N])
              (set_tasks [1%N; 2%N; 3%N] (Fixtures.project_with "Planning" 2))
              [Fixtures.project_with "Planning" 2] (Fixtures.project_with "Planning" 2)
              eq_refl eq_refl eq_refl)
    as (_ & _ & coll' & p & Hs & Hp & Hc & Ht & _).
  exists coll', p. split; [exact Hs|]. split; [exact Hp|]. split; [exact Ht | exact Hc].
Defined.

End ProjectFacts.


(** ** Presence, authentication and dispatch *)

Module SocketFacts.
Import SocketServer.

(** *** The presence map *)

(** C5, as stated, fails: with two sessions of one user open, the
    disconnection of the first removes the user's only entry. *)
Lemma C5_second_session_forgotten :
  isPresent "U"
    (on_disconnect (Fixtures.socket_of Fixtures.uma "h1")
       (on_connection (Fixtures.socket_of Fixtures.uma "h2")
          (on_connection (Fixtures.socket_of Fixtures.uma "h1") Fixtures.server0)))
  = false.
Proof. unfold isPresent. simpl. by rewrite lookup_delete_eq. Qed.

(** C5, amended. The map holds one handle per user: a second
    registration replaces the handle of the first, and a disconnection
    removes the user's entry, so that after register(U, h),
    unregister(U, h) the user is absent, and so is it after
    register(U, h1), register(U, h2), unregister(U, h1). *)
Theorem C5_presence_single_handle (u : User) (h h1 h2 : string) (s : Server) :
  let sock sid := mkSocket sid (user_id u) u in
  connectedUsers (on_connection (sock h2) (on_connection (sock h1) s)) !! user_id u = Some h2 /\
  isPresent (user_id u) (on_disconnect (sock h) (on_connection (sock h) s)) = false /\
  isPresent (user_id u)
    (on_disconnect (sock h1) (on_connection (sock h2) (on_connection (sock h1) s))) = false.
Proof.
  unfold isPresent. simpl. rewrite lookup_insert_eq, !lookup_delete_eq. done.
Qed.

(** A registered handle is seen by [isPresent] (socket ids are not empty). *)
Lemma isPresent_on_connection (sock : Socket) (s : Server) :
  socket_id sock <> "" ->
  isPresent (socket_userId sock) (on_connection sock s) = true.
Proof.
  intros H. unfold isPresent. simpl. rewrite lookup_insert_eq.
  by destruct (socket_id sock).
Qed.

(** *** sendNotificationToUser *)

Lemma send_cases now userId p s :
  (Notification.validate (fields_of userId p) = false /\
   sendNotificationToUser now userId p s = (Throw "ValidationError", s)) \/
  (Notification.validate (fields_of userId p) = true /\
   exists n, Notification.create (next_id s) now (fields_of userId p) = Ok n /\
     fst (sendNotificationToUser now userId p s) = Ok n /\
     notifications (snd (sendNotificationToUser now userId p s)) = notifications s ++ [n] /\
     next_id (snd (sendNotificationToUser now userId p s)) = N.succ (next_id s) /\
     connectedUsers (snd (sendNotificationToUser now userId p s)) = connectedUsers s /\
     effects (snd (sendNotificationToUser now userId p s))
     = effects s ++ Saved n ::
         (if JS.truthy (handle_of userId s)
          then [EmitNotification (default "" (handle_of userId s)) n] else [])).
Proof.
  unfold sendNotificationToUser, Notification.create, handle_of.
  destruct (Notification.validate (fields_of userId p)); [right|left; done].
  split; [done|]. eexists. split; [done|]. simpl.
  destruct (JS.truthy _); simpl; rewrite <- ?app_assoc; done.
Qed.

(** C3, as stated, fails: not every call persists a row and returns
    it. A notification whose category the schema does not list, as the
    notification service sends for a created project, makes
    [Notification.create] throw; the call throws in turn, and nothing
    is saved and nothing is pushed. *)
Lemma C3_rejected_call_persists_nothing :
  sendNotificationToUser 5%nat (Some "U") Fixtures.unlisted_category Fixtures.server0
  = (Throw "ValidationError", Fixtures.server0).
Proof. reflexivity. Qed.

(** C3, amended. A call whose fields the schema of the notifications
    accepts returns the saved record, which has the generated identity,
    the creation time and the given fields. What the call does is the
    save followed, when and only when the target has a registered
    handle, by one push of the saved record to that handle, and nothing
    else; the record returned is the same whatever the presence map
    holds. A call whose fields the schema rejects throws, and nothing
    is saved or pushed. *)
Theorem C3_sendNotificationToUser_saves_then_pushes now userId p s :
  (Notification.validate (fields_of userId p) = true ->
   exists n,
     Notification.create (next_id s) now (fields_of userId p) = Ok n /\
     Notification._id n = next_id s /\
     Notification.createdAt n = Some now /\
     Notification.userId n = default "" userId /\
     Notification.title n = JS.trim (default "" (p_title p)) /\
     Notification.message n = JS.trim (default "" (p_message p)) /\
     Notification.isRead n = false /\
     sendNotificationToUser now userId p s
     = (Ok n,
        mkServer (connectedUsers s) (rooms s) (notifications s ++ [n]) (users s)
          (effects s ++ Saved n ::
             (if match userId with Some u => isPresent u s | None => false end
              then [EmitNotification (default "" (handle_of userId s)) n] else []))
          (N.succ (next_id s))) /\
     forall m, fst (sendNotificationToUser now userId p (set_connectedUsers m s)) = Ok n) /\
  (Notification.validate (fields_of userId p) = false ->
   sendNotificationToUser now userId p s = (Throw "ValidationError", s)).
Proof.
  unfold sendNotificationToUser, Notification.create. split; intros Hv.
  - cbn [set_connectedUsers next_id]. rewrite Hv. eexists.
    split; [reflexivity|].
    cbn [Notification._id Notification.createdAt Notification.userId Notification.title
         Notification.message Notification.isRead fields_of Notification.f_userId
         Notification.f_title Notification.f_message].
    repeat (split; [reflexivity|]). split.
    + unfold handle_of, isPresent, add_effect.
      cbn [connectedUsers rooms notifications users effects next_id].
      destruct userId as [u|]; cbn [mbind option_bind]; [|reflexivity].
      destruct (JS.truthy (connectedUsers s !! u)); [|reflexivity].
      by rewrite <- app_assoc.
    + intros m. by destruct (JS.truthy _).
  - by rewrite Hv.
Qed.

Lemma C3_sendNotificationToUser_saves_then_pushes_witness :
  exists n,
    Notification._id n = 100%N /\
    Notification.createdAt n = Some 5%nat /\
    sendNotificationToUser 5%nat (Some "U") Fixtures.hello Fixtures.server0
    = (Ok n, mkServer ∅ [] [n] [Fixtures.uma; Fixtures.xi] [Saved n] 101%N).
Proof.
  destruct (proj1 (C3_sendNotificationToUser_saves_then_pushes 5%nat (Some "U")
                     Fixtures.hello Fixtures.server0) eq_refl)
    as (n & _ & Hi & Hc & _ & _ & _ & _ & Hs & _).
  exists n. split; [exact Hi|]. split; [exact Hc | exact Hs].
Defined.

(** *** sendNotificationToUsers *)

Lemma map_send_stores now userIds p : forall s,
  let s' := snd (map_send now userIds p s) in
  (next_id s <= next_id s')%N /\
  (forall n, In n (notifications s) -> In n (notifications s')) /\
  (forall u, In (Some u) userIds ->
     Notification.validate (fields_of (Some u) p) = true ->
     exists n, In n (notifications s') /\ Notification.userId n = u /\
               Notification.createdAt n = Some now /\
               (next_id s <= Notification._id n)%N).
Proof.
  induction userIds as [|v rest IH]; intros s; simpl.
  - split; [lia|]. split; [done|]. intros u [].
  - destruct (sendNotificationToUser now v p s) as [r s1] eqn:E1.
    specialize (IH s1).
    destruct (map_send now rest p s1) as [rs s2] eqn:E2. simpl in *.
    destruct IH as (Hid & Hkeep & Hnew).
    destruct (send_cases now v p s) as [[Hv Hs]|(Hv & n & Hc & Hr & Hn & Hi & _)];
      rewrite E1 in *; simpl in *.
    + injection Hs as -> ->. split; [done|]. split; [done|].
      intros u [->|Hin] Hu; [congruence|]. by apply Hnew.
    + split; [lia|]. split.
      { intros k Hk. apply Hkeep. rewrite Hn. apply in_or_app. by left. }
      intros u [->|Hin] Hu.
      * exists n. unfold Notification.create in Hc. rewrite Hu in Hc.
        injection Hc as <-. simpl. split; [|split; [done|split; [done|lia]]].
        apply Hkeep. rewrite Hn. apply in_or_app. right. by left.
      * destruct (Hnew u Hin Hu) as (k & Hk1 & Hk2 & Hk3 & Hk4).
        exists k. repeat split; try done. lia.
Qed.

Lemma map_send_results now userIds p : forall s,
  Forall2 (fun u r => if Notification.validate (fields_of u p)
                     then exists n, r = Ok n else r = Throw "ValidationError")
          userIds (fst (map_send now userIds p s)).
Proof.
  induction userIds as [|v rest IH]; intros s; simpl; [constructor|].
  destruct (sendNotificationToUser now v p s) as [r s1] eqn:E1.
  specialize (IH s1). destruct (map_send now rest p s1) as [rs s2]. simpl in *.
  constructor; [|done].
  destruct (send_cases now v p s) as [[Hv Hs]|(Hv & n & _ & Hr & _)];
    rewrite E1 in *; rewrite Hv; simpl in *.
  - by injection Hs as -> _.
  - eauto.
Qed.

Lemma Promise_all_settled (p : Payload) (userIds : list (option string))
    (rs : list (Result Notification.t)) :
  Forall2 (fun u r => if Notification.validate (fields_of u p)
                     then exists n, r = Ok n else r = Throw "ValidationError")
          userIds rs ->
  if forallb (fun u => Notification.validate (fields_of u p)) userIds
  then exists l, Promise_all rs = Ok l /\ length l = length userIds
  else Promise_all rs = Throw "ValidationError".
Proof.
  induction 1 as [|u r us rs' Hur _ IH]; simpl; [by exists []|].
  destruct (Notification.validate (fields_of u p)); simpl.
  - destruct Hur as [n ->].
    destruct (forallb _ us).
    + destruct IH as (l & -> & Hl). exists (n :: l). simpl. by rewrite Hl.
    + by rewrite IH.
  - by rewrite Hur.
Qed.

(** C4, as stated, fails: with the middle target rejected by the schema
    the call does not return a collection of outcomes, it is rejected
    with that target's error. *)
Lemma C4_failure_is_raised :
  fst (sendNotificationToUsers 5%nat [Some "A"; None; Some "C"] Fixtures.hello Fixtures.server0)
  = Throw "ValidationError".
Proof. reflexivity. Qed.

(** C4, amended. Every target is attempted whatever happens to the
    others: each target whose notification the schema accepts ends with a
    notification saved by this call. The call itself is fulfilled, with
    one record per target, only when every target was saved; when one
    fails it is rejected with a single error and the failures are not
    collected. *)
Theorem C4_each_target_attempted now userIds p s :
  let valid u := Notification.validate (fields_of u p) in
  let r := fst (sendNotificationToUsers now userIds p s) in
  let s' := snd (sendNotificationToUsers now userIds p s) in
  (forall u, In (Some u) userIds -> valid (Some u) = true ->
     exists n, In n (notifications s') /\ Notification.userId n = u /\
               Notification.createdAt n = Some now /\
               (next_id s <= Notification._id n)%N) /\
  (forall n, In n (notifications s) -> In n (notifications s')) /\
  (forallb valid userIds = true -> exists l, r = Ok l /\ length l = length userIds) /\
  (forallb valid userIds = false -> r = Throw "ValidationError").
Proof.
  unfold sendNotificationToUsers.
  pose proof (map_send_stores now userIds p s) as (_ & Hkeep & Hnew).
  pose proof (Promise_all_settled p userIds _ (map_send_results now userIds p s)) as Hall.
  destruct (map_send now userIds p s) as [rs s2]. simpl in *.
  split; [done|]. split; [done|].
  destruct (forallb _ userIds); split; try done.
Qed.

Lemma C4_each_target_attempted_witness :
  (exists n, In n (notifications
                     (snd (sendNotificationToUsers 5%nat [Some "A"; None; Some "C"]
                             Fixtures.hello Fixtures.server0))) /\
             Notification.userId n = "A" /\ Notification.createdAt n = Some 5%nat /\
             (100 <= Notification._id n)%N) /\
  (exists n, In n (notifications
                     (snd (sendNotificationToUsers 5%nat [Some "A"; None; Some "C"]
                             Fixtures.hello Fixtures.server0))) /\
             Notification.userId n = "C" /\ Notification.createdAt n = Some 5%nat /\
             (100 <= Notification._id n)%N) /\
  fst (sendNotificationToUsers 5%nat [Some "A"; None; Some "C"] Fixtures.hello Fixtures.server0)
  = Throw "ValidationError".
Proof.
  pose proof (C4_each_target_attempted 5%nat [Some "A"; None; Some "C"]
                Fixtures.hello Fixtures.server0) as (Hnew & _ & _ & Hthrow).
  split; [|split].
  - apply (Hnew "A"); [simpl; tauto | reflexivity].
  - apply (Hnew "C"); [simpl; tauto | reflexivity].
  - apply Hthrow. reflexivity.
Defined.

End SocketFacts.


(** ** Task middleware and methods *)

Module TaskFacts.
Import Task Derived.

Ltac split_ifs :=
  repeat match goal with
         | |- context [if ?b then _ else _] => destruct b eqn:?
         end.

(** No block of the middleware changes the identity or the status. *)
Lemma sync_dates_keeps isModified x :
  _id (sync_dates isModified x) = _id x /\
  status (sync_dates isModified x) = status x /\
  progress (sync_dates isModified x) = progress x.
Proof. unfold sync_dates. split_ifs; done. Qed.

Lemma on_completed_keeps isModified now x :
  _id (on_completed isModified now x) = _id x /\
  status (on_completed isModified now x) = status x /\
  progress (on_completed isModified now x)
  = if isModified "status" &&
       (String.eqb (status x) "completed" || String.eqb (status x) "Completed")
    then 100 else progress x.
Proof. unfold on_completed. split_ifs; done. Qed.

Lemma on_started_keeps isModified now x :
  _id (on_started isModified now x) = _id x /\
  status (on_started isModified now x) = status x /\
  progress (on_started isModified now x) = progress x.
Proof. unfold on_started. split_ifs; done. Qed.

Lemma progress_from_status_keeps isModified x :
  _id (progress_from_status isModified x) = _id x /\
  status (progress_from_status isModified x) = status x.
Proof. unfold progress_from_status. split_ifs; done. Qed.

Lemma pre_save_status isModified now x :
  status (pre_save isModified now x) = status x.
Proof.
  unfold pre_save.
  rewrite (proj2 (progress_from_status_keeps _ _)).
  rewrite (proj1 (proj2 (on_started_keeps _ _ _))).
  rewrite (proj1 (proj2 (on_completed_keeps _ _ _))).
  apply sync_dates_keeps.
Qed.

Lemma pre_save_id isModified now x :
  _id (pre_save isModified now x) = _id x.
Proof.
  unfold pre_save.
  rewrite (proj1 (progress_from_status_keeps _ _)).
  rewrite (proj1 (on_started_keeps _ _ _)).
  rewrite (proj1 (on_completed_keeps _ _ _)).
  apply sync_dates_keeps.
Qed.

Lemma pre_save_progress isModified now x :
  progress (pre_save isModified now x)
  = if isModified "status" then progress_for_status (status x) (progress x)
    else progress x.
Proof.
  unfold pre_save.
  pose proof (on_started_keeps isModified now
                (on_completed isModified now (sync_dates isModified x))) as (_ & Hs1 & Hp1).
  pose proof (on_completed_keeps isModified now (sync_dates isModified x)) as (_ & Hs2 & Hp2).
  pose proof (sync_dates_keeps isModified x) as (_ & Hs3 & Hp3).
  rewrite Hs3, Hp3 in Hp2. rewrite Hs2, Hs3 in Hs1. rewrite Hp2 in Hp1.
  set (y := on_started isModified now _) in *. clearbody y.
  unfold progress_from_status, progress_for_status.
  rewrite Hs1, Hp1.
  destruct (isModified "status"); [|done]. cbn [andb].
  split_ifs; done.
Qed.

Lemma progress_assigned p : progress_for_status "assigned" p = 0.
Proof. reflexivity. Qed.

Lemma progress_completed p : progress_for_status "completed" p = 100.
Proof. reflexivity. Qed.

Lemma progress_Completed p : progress_for_status "Completed" p = 100.
Proof. reflexivity. Qed.

Lemma progress_in_progress p :
  progress_for_status "in_progress" p = if p =? 0 then 25 else p.
Proof. reflexivity. Qed.

(** After a save that changes the status: a completed task has progress
    100, an assigned or pending one has progress 0. *)
Lemma pre_save_couples isModified now x :
  isModified "status" = true ->
  (status x = "completed" \/ status x = "Completed" ->
   progress (pre_save isModified now x) = 100) /\
  (JS.toLowerCase (status x) = "assigned" \/ JS.toLowerCase (status x) = "pending" ->
   progress (pre_save isModified now x) = 0).
Proof.
  intros Hm. rewrite pre_save_progress, Hm. split.
  - intros [-> | ->]; reflexivity.
  - unfold progress_for_status. by intros [-> | ->]; rewrite ?orb_true_r.
Qed.

Lemma clamp_range v : 0 <= Z.max 0 (Z.min 100 v) <= 100.
Proof. lia. Qed.

(** After [updateProgress]: progress 100 only on a completed task, and
    progress 0 exactly on an assigned one. *)
Lemma updateProgress_couples now v x :
  let r := updateProgress now v x in
  (progress r = 100 -> status r = "completed") /\
  (progress r = 0 <-> status r = "assigned").
Proof.
  unfold updateProgress.
  rewrite pre_save_status, pre_save_progress.
  pose proof (clamp_range v) as Hc.
  set (c := Z.max 0 (Z.min 100 v)) in *. clearbody c.
  cbn [progress set_progress status].
  destruct (c =? 0) eqn:E0.
  { apply Z.eqb_eq in E0. subst c.
    cbn [progress set_progress status set_status].
    rewrite progress_assigned.
    destruct (modified_since _ _ _); split; (lia || done). }
  destruct (c =? 100) eqn:E1.
  { apply Z.eqb_eq in E1. subst c.
    destruct (negb (is_set (completedDate (set_status "completed" (set_progress 100 x)))));
      cbn [status set_status set_completedAt set_completedDate set_progress progress];
      rewrite progress_completed;
      destruct (modified_since _ _ _); split; (lia || done). }
  apply Z.eqb_neq in E0, E1.
  destruct ((0 <? c) && (String.eqb (status x) "assigned" || String.eqb (status x) "Pending"))
    eqn:E2.
  - destruct (negb (is_set (startedDate (set_status "in_progress" (set_progress c x)))));
      cbn [status set_status set_startedDate set_progress progress];
      rewrite progress_in_progress;
      destruct (modified_since _ _ _); destruct (c =? 0) eqn:E3;
      try (apply Z.eqb_eq in E3); split; (lia || done).
  - cbn [status set_progress progress].
    assert (modified_since x (set_progress c x) "status" = false) as ->.
    { unfold modified_since.
      change (String.eqb "status" "status") with true. cbn [status set_progress].
      by rewrite String.eqb_refl. }
    split; [lia|]. split; [lia|].
    intros Hs. rewrite Hs in E2.
    change (String.eqb "assigned" "assigned") with true in E2.
    destruct (0 <? c) eqn:E3; [done|]. apply Z.ltb_ge in E3. lia.
Qed.

End TaskFacts.


(** ** The status route *)

Module TechnicianFacts.
Import Technician CollectionFacts Derived.

Lemma updateData_id now req task x :
  Task._id (updateData now req task x) = Task._id x.
Proof. unfold updateData. TaskFacts.split_ifs; reflexivity. Qed.

Lemma updateData_project now req task x :
  Task.project (updateData now req task x) = Task.project x.
Proof. unfold updateData. TaskFacts.split_ifs; reflexivity. Qed.

Lemma updateData_status now req task x :
  Task.status (updateData now req task x) = body_status req.
Proof. unfold updateData. TaskFacts.split_ifs; reflexivity. Qed.

(** The route touches the progress only when the new status is
    ["completed"]. *)
Lemma updateData_progress now req task x :
  Task.progress (updateData now req task x)
  = if String.eqb (body_status req) "completed" then 100 else Task.progress x.
Proof.
  unfold updateData.
  destruct (String.eqb (body_status req) "completed") eqn:E.
  - apply String.eqb_eq in E. rewrite E.
    change (String.eqb "completed" "in_progress") with false.
    change (String.eqb "completed" "completed") with true.
    cbn [andb]. TaskFacts.split_ifs; reflexivity.
  - TaskFacts.split_ifs; reflexivity.
Qed.

(** *** Rejection of a delay without a reason *)

Lemma delayReason_missing_blank (r : option string) :
  match r with None => True | Some s => JS.trim s = "" end ->
  delayReason_missing r = true.
Proof.
  destruct r as [s|]; [|done]. intros H. unfold delayReason_missing.
  rewrite H. apply orb_true_r.
Qed.

(** C6. A request that sets the status to ["delayed"] with no delay
    reason, or with one that is empty or blank, is answered with an
    error (400, or 404 when the task is not one of the technician's) and
    leaves the world as it was: no task is updated, no project is
    recomputed and nothing is emitted. *)
Theorem C6_delayed_without_reason_rejected validate now req w :
  body_status req = "delayed" ->
  match body_delayReason req with None => True | Some s => JS.trim s = "" end ->
  snd (putTaskStatus validate now req w) = w /\
  code (fst (putTaskStatus validate now req w))
  = match Task.findOne (taskId req) (user req) (tasks w) with
    | Some _ => 400%nat
    | None => 404%nat
    end.
Proof.
  intros Hs Hr. unfold putTaskStatus.
  destruct (Task.findOne _ _ _); [|done].
  rewrite Hs, (delayReason_missing_blank _ Hr). done.
Qed.

Lemma C6_delayed_without_reason_rejected_witness :
  snd (putTaskStatus Fixtures.always_valid 9%nat
         (Fixtures.status_request 1%N "delayed" (Some "  ")) Fixtures.world_done)
  = Fixtures.world_done /\
  code (fst (putTaskStatus Fixtures.always_valid 9%nat
               (Fixtures.status_request 1%N "delayed" (Some "  ")) Fixtures.world_done))
  = 400%nat.
Proof.
  apply (C6_delayed_without_reason_rejected Fixtures.always_valid 9%nat
           (Fixtures.status_request 1%N "delayed" (Some "  ")) Fixtures.world_done);
    reflexivity.
Defined.

(** *** What a successful update leaves *)

(** The steps behind a 200 response. *)
Lemma putTaskStatus_200 validate now req w :
  code (fst (putTaskStatus validate now req w)) = 200%nat ->
  exists task found stored projects1 parentProject,
    Task.findOne (taskId req) (user req) (tasks w) = Some task /\
    Task.findById (taskId req) (tasks w) = Some found /\
    tasks (snd (putTaskStatus validate now req w))
    = Task.findByIdAndUpdate (taskId req) (updateData now req task) (tasks w) /\
    Project.findById (Task.project found) (projects w) = Some stored /\
    ensure_listed validate (tasks (snd (putTaskStatus validate now req w)))
      (updateData now req task found) stored (projects w)
    = Ok (projects1, parentProject) /\
    projects (snd (putTaskStatus validate now req w))
    = fst (recompute (tasks (snd (putTaskStatus validate now req w)))
             parentProject projects1).
Proof.
  unfold putTaskStatus.
  destruct (Task.findOne _ _ _) as [task|] eqn:Ht; [|done].
  destruct (_ && _); [done|].
  destruct (negb (fileData_casts req)); [done|].
  rewrite task_find_update by (intros; apply updateData_id).
  destruct (Task.findById (taskId req) (tasks w)) as [found|] eqn:Hf; [|done].
  cbn [fmap option_fmap option_map].
  rewrite updateData_project.
  destruct (Project.findById _ _) as [stored|] eqn:Hp; [|done].
  destruct (ensure_listed _ _ _ _ _) as [[projects1 parentProject]|] eqn:He; [|done].
  destruct (recompute _ _ _) as [projects2 parentProject2] eqn:Hr.
  intros _. exists task, found, stored, projects1, parentProject.
  cbn [fst snd tasks projects]. rewrite He, Hr. done.
Qed.

Lemma ensure_listed_project validate tasks updatedTask stored projects projects1 parentProject :
  ensure_listed validate tasks updatedTask stored projects = Ok (projects1, parentProject) ->
  Project.findById (Project._id stored) projects = Some stored ->
  Project._id parentProject = Project._id stored /\
  Project.status parentProject = Project.status stored /\
  exists q, Project.findById (Project._id stored) projects1 = Some q /\
            Project.status q = Project.status stored.
Proof.
  unfold ensure_listed, Project.save. intros H Hfind.
  destruct (negb _).
  - destruct (validate _); [|done]. injection H as <- <-.
    rewrite project_pre_save_id. cbn [Project._id Project.set_tasks].
    split; [done|]. split.
    { unfold Project.pre_save. TaskFacts.split_ifs; reflexivity. }
    rewrite project_find_update, Hfind by (intros; assumption).
    eexists. split; [reflexivity|]. reflexivity.
  - injection H as <- <-. split; [done|]. split; [done|]. by exists stored.
Qed.

(** The recomputation writes the counts, the percentage and the status
    derived from the counts, whatever the status was. *)
Lemma recompute_writes tasks parentProject projects q :
  Project.findById (Project._id parentProject) projects = Some q ->
  Project.status q = Project.status parentProject ->
  let T := Task.findByProject (Project._id parentProject) tasks in
  let c := length (List.filter (fun x => String.eqb (Task.status x) "completed") T) in
  (0 < length T)%nat ->
  exists q', Project.findById (Project._id parentProject)
               (fst (recompute tasks parentProject projects)) = Some q' /\
             Project.completionPercentage q' = JSNumber.percentage c (length T) /\
             Project.tasksCount q' = length T /\
             Project.completedTasks q' = c /\
             Project.status q' = newProjectStatus c (length T).
Proof.
  intros Hq Hs T c HT. unfold recompute. fold T. fold c.
  apply Nat.ltb_lt in HT. rewrite HT.
  destruct (negb (String.eqb (newProjectStatus c (length T)) (Project.status parentProject)))
    eqn:E; cbn [fst].
  - rewrite !project_find_update, Hq by (intros; assumption).
    eexists. split; [reflexivity|]. done.
  - rewrite !project_find_update, Hq by (intros; assumption).
    eexists. split; [reflexivity|]. cbn.
    apply negb_false_iff, String.eqb_eq in E. repeat split; congruence.
Qed.

(** X1. After a 200 response the project of the updated task carries
    the counts of its tasks, which are never none since the updated task
    is one of them, [Math.round((completed / total) * 100)] and the
    status [newProjectStatus] gives for the counts, whatever status the
    project had. *)
Lemma putTaskStatus_recomputes validate now req w :
  code (fst (putTaskStatus validate now req w)) = 200%nat ->
  let w' := snd (putTaskStatus validate now req w) in
  exists updated p,
    Task.findById (taskId req) (tasks w') = Some updated /\
    Task.status updated = body_status req /\
    Project.findById (Task.project updated) (projects w') = Some p /\
    let T := Task.findByProject (Task.project updated) (tasks w') in
    let c := length (List.filter (fun x => String.eqb (Task.status x) "completed") T) in
    (0 < length T)%nat /\
    Project.completionPercentage p = JSNumber.percentage c (length T) /\
    Project.tasksCount p = length T /\
    Project.completedTasks p = c /\
    Project.status p = newProjectStatus c (length T).
Proof.
  intros H200.
  destruct (putTaskStatus_200 _ _ _ _ H200)
    as (task & found & stored & projects1 & parentProject & Ht & Hf & Htasks & Hp & He & Hps).
  cbn zeta. set (w' := snd (putTaskStatus validate now req w)) in *.
  assert (Task.findById (taskId req) (tasks w') = Some (updateData now req task found)) as Hu.
  { rewrite Htasks, task_find_update, Hf by (intros; apply updateData_id). done. }
  pose proof (project_find_id _ _ _ Hp) as Hpid.
  rewrite <- Hpid in Hp.
  destruct (ensure_listed_project _ _ _ _ _ _ _ He Hp) as (Hid & Hst & q & Hq & Hqs).
  exists (updateData now req task found).
  rewrite updateData_project, updateData_status, <- Hpid, <- Hid.
  assert (0 < length (Task.findByProject (Project._id parentProject) (tasks w')))%nat as HT.
  { assert (In (updateData now req task found)
               (Task.findByProject (Project._id parentProject) (tasks w'))) as Hin.
    { apply filter_In. split; [by apply task_find_in in Hu|].
      rewrite updateData_project, Hid, Hpid. apply N.eqb_refl. }
    destruct (Task.findByProject _ _); [done | simpl; lia]. }
  rewrite <- Hid in Hq.
  destruct (recompute_writes (tasks w') parentProject projects1 q Hq ltac:(congruence) HT)
    as (q' & Hq' & Hpc & Htc & Hcc & Hsq).
  exists q'. rewrite Hps. done.
Qed.

(** *** Status and progress of a task *)

(** C7, as stated, fails: a completed task that the technician reopens
    keeps progress 100 under the status ["in_progress"]. *)
Lemma C7_reopened_task_keeps_progress :
  code (fst (putTaskStatus Fixtures.always_valid 9%nat
               (Fixtures.status_request 1%N "in_progress" None) Fixtures.world_done)) = 200%nat /\
  exists x,
    Task.findById 1%N
      (tasks (snd (putTaskStatus Fixtures.always_valid 9%nat
                     (Fixtures.status_request 1%N "in_progress" None) Fixtures.world_done)))
    = Some x /\
    Task.status x = "in_progress" /\ Task.progress x = 100 /\
    ~ (Task.progress x = 100 <-> Task.status x = "completed").
Proof.
  split; [reflexivity|]. eexists. split; [reflexivity|].
  cbn. split; [done|]. split; [done|]. intros [H _]. by specialize (H eq_refl).
Qed.

(** C7, amended. Each operation couples status and progress in one
    direction only.
    - The status route: a 200 response to a request for ["completed"]
      leaves the task completed with progress 100.
    - A save that changes the status: a completed task gets progress
      100, an assigned or pending one progress 0.
    - [updateProgress]: progress 100 only on a completed task, progress 0
      exactly on an assigned one. *)
Theorem C7_status_progress_coupling validate now req w isModified x v :
  (body_status req = "completed" ->
   code (fst (putTaskStatus validate now req w)) = 200%nat ->
   exists y, Task.findById (taskId req) (tasks (snd (putTaskStatus validate now req w)))
             = Some y /\
             Task.status y = "completed" /\ Task.progress y = 100) /\
  (isModified "status" = true ->
   Task.status (Task.pre_save isModified now x) = Task.status x /\
   (Task.status x = "completed" \/ Task.status x = "Completed" ->
    Task.progress (Task.pre_save isModified now x) = 100) /\
   (JS.toLowerCase (Task.status x) = "assigned" \/
    JS.toLowerCase (Task.status x) = "pending" ->
    Task.progress (Task.pre_save isModified now x) = 0)) /\
  (Task.progress (Task.updateProgress now v x) = 100 ->
   Task.status (Task.updateProgress now v x) = "completed") /\
  (Task.progress (Task.updateProgress now v x) = 0 <->
   Task.status (Task.updateProgress now v x) = "assigned").
Proof.
  split; [|split].
  - intros Hs H200.
    destruct (putTaskStatus_200 _ _ _ _ H200)
      as (task & found & _ & _ & _ & _ & Hf & Htasks & _).
    exists (updateData now req task found).
    rewrite Htasks, task_find_update, Hf by (intros; apply updateData_id).
    rewrite updateData_status, updateData_progress, Hs. done.
  - intros Hm. split; [apply TaskFacts.pre_save_status|].
    by apply TaskFacts.pre_save_couples.
  - apply TaskFacts.updateProgress_couples.
Qed.

Lemma C7_status_progress_coupling_witness :
  (exists y, Task.findById 23%N
               (tasks (snd (putTaskStatus Fixtures.always_valid 9%nat
                              (Fixtures.status_request 23%N "completed" None) Fixtures.world40)))
             = Some y /\
             Task.status y = "completed" /\ Task.progress y = 100) /\
  Task.progress (Task.pre_save (String.eqb "status") 9%nat
                   (Fixtures.task 1%N "assigned" 40)) = 0 /\
  Task.status (Task.updateProgress 9%nat 100 (Fixtures.task 1%N "in_progress" 40))
  = "completed".
Proof.
  pose proof (C7_status_progress_coupling Fixtures.always_valid 9%nat
                (Fixtures.status_request 23%N "completed" None) Fixtures.world40
                (String.eqb "status") (Fixtures.task 1%N "assigned" 40) 100)
    as (Hroute & Hsave & _).
  pose proof (C7_status_progress_coupling Fixtures.always_valid 9%nat
                (Fixtures.status_request 23%N "completed" None) Fixtures.world40
                (String.eqb "status") (Fixtures.task 1%N "in_progress" 40) 100)
    as (_ & _ & Hup & _).
  split; [|split].
  - apply Hroute; reflexivity.
  - apply Hsave; [reflexivity | left; reflexivity].
  - apply Hup. reflexivity.
Defined.

(** *** The completion percentage *)

(** X2. For a project of fewer than forty tasks the number
    [Math.round((c / t) * 100)] the route stores is the integer
    round(100 c / t) of exact arithmetic, a tie going up. *)
Lemma percentage_exact_below_40 (c t : nat) :
  (0 < t < 40)%nat -> (c <= t)%nat ->
  JSNumber.to_Z (JSNumber.percentage c t) = Some (JSNumber.exact_percentage c t).
Proof.
  intros Ht Hc.
  assert (forallb (fun t => forallb (fun c => agrees c t) (seq 0 (S t))) (seq 1 39) = true)
    as Hall by (vm_compute; reflexivity).
  rewrite forallb_forall in Hall.
  specialize (Hall t ltac:(apply in_seq; lia)).
  rewrite forallb_forall in Hall.
  specialize (Hall c ltac:(apply in_seq; lia)).
  unfold agrees in Hall. by apply bool_decide_eq_true in Hall.
Qed.

(** C1 at a project of forty tasks. The technician completes task 23,
    the twenty-third completed task of the project: the route answers
    200 and stores 57, where round(100 * 23 / 40) = round(57.5) is 58.
    The quotient 23/40 is not a binary64 number; multiplied by 100 it
    gives 57.49999999999999, which [Math.round] takes down. *)
Theorem C1_percentage_23_of_40 :
  let r := putTaskStatus Fixtures.always_valid 9%nat
             (Fixtures.status_request 23%N "completed" None) Fixtures.world40 in
  code (fst r) = 200%nat /\
  length (Task.findByProject 7%N (tasks (snd r))) = 40%nat /\
  length (List.filter (fun x => String.eqb (Task.status x) "completed")
            (Task.findByProject 7%N (tasks (snd r)))) = 23%nat /\
  Project.completionPercentage <$> Project.findById 7%N (projects (snd r))
  = Some (JSNumber.of_Z 57) /\
  JSNumber.exact_percentage 23 40 = 58.
Proof. vm_compute. repeat split; reflexivity. Qed.

(** *** The status decision *)

(** [Project.updateStatusByCompletion], which no route calls, leaves a
    project that is not in planning as it is while the percentage is
    below 100. *)
Lemma updateStatusByCompletion_sticky now p :
  JSNumber.eqb (Project.completionPercentage p) (JSNumber.of_Z 100) = false ->
  Project.status p <> "Planning" ->
  Project.updateStatusByCompletion now p = p.
Proof.
  intros H100 Hs. unfold Project.updateStatusByCompletion. rewrite H100.
  destruct (String.eqb (Project.status p) "Planning") eqn:E.
  - by apply String.eqb_eq in E.
  - by rewrite andb_false_r.
Qed.

(** C2 on the route. With one of two tasks completed a project on hold
    is moved to "In Progress", and with none completed a delayed project
    is moved to "Planning": the decision of the route does not look at
    the status the project has. *)
Theorem C2_route_overrides_sticky_status :
  let on_hold := putTaskStatus Fixtures.always_valid 9%nat
                   (Fixtures.status_request 1%N "completed" None) Fixtures.world_on_hold in
  let delayed := putTaskStatus Fixtures.always_valid 9%nat
                   (Fixtures.status_request 1%N "in_progress" None) Fixtures.world_delayed in
  Project.status <$> Project.findById 7%N (projects Fixtures.world_on_hold) = Some "On Hold" /\
  code (fst on_hold) = 200%nat /\
  Project.completedTasks <$> Project.findById 7%N (projects (snd on_hold)) = Some 1%nat /\
  Project.status <$> Project.findById 7%N (projects (snd on_hold)) = Some "In Progress" /\
  Project.status <$> Project.findById 7%N (projects Fixtures.world_delayed) = Some "Delayed" /\
  code (fst delayed) = 200%nat /\
  Project.completedTasks <$> Project.findById 7%N (projects (snd delayed)) = Some 0%nat /\
  Project.status <$> Project.findById 7%N (projects (snd delayed)) = Some "Planning".
Proof. vm_compute. repeat split; reflexivity. Qed.

End TechnicianFacts.


(** ** The handshake *)

Module HandshakeFacts.
Import SocketServer.

(** A refused connection leaves the server as it was: no presence
    entry, no room, nothing emitted. *)
Lemma connect_refused_leaves_server jwt_verify sid h s e :
  fst (connect jwt_verify sid h s) = Throw e ->
  snd (connect jwt_verify sid h s) = s.
Proof. unfold connect. by destruct (middleware jwt_verify sid h s). Qed.

(** A handshake without a token, with a token that does not verify, or
    with the token of a user that is not stored, is refused. *)
Lemma middleware_refuses jwt_verify sid h s :
  JS.truthy (handshake_token h) = false \/
  jwt_verify (default "" (handshake_token h)) = None \/
  (exists id, jwt_verify (default "" (handshake_token h)) = Some id /\
              findUser id (users s) = None) ->
  exists e, middleware jwt_verify sid h s = Throw e.
Proof.
  unfold middleware. intros [H | [H | (id & H1 & H2)]].
  - rewrite H. eauto.
  - destruct (negb _); [eauto|]. rewrite H. eauto.
  - destruct (negb _); [eauto|]. rewrite H1, H2. eauto.
Qed.

(** A verified token of a stored user is accepted; [isActive] is not
    consulted. *)
Lemma middleware_accepts jwt_verify sid h s id u :
  JS.truthy (handshake_token h) = true ->
  jwt_verify (default "" (handshake_token h)) = Some id ->
  findUser id (users s) = Some u ->
  middleware jwt_verify sid h s = Ok (mkSocket sid (user_id u) u).
Proof. unfold middleware. by intros -> -> ->. Qed.

(** C8 at the handshake of a deactivated user. The token of user X
    verifies and X is stored with [isActive = false]: the middleware
    lets the connection through, and the connection handler registers X
    in the presence map and joins the user and role rooms. *)
Theorem C8_deactivated_user_is_connected :
  let r := connect Fixtures.jwt "s1" Fixtures.handshake_of_X Fixtures.server0 in
  findUser "X" (users Fixtures.server0) = Some Fixtures.xi /\
  user_isActive Fixtures.xi = false /\
  fst r = Ok (Fixtures.socket_of Fixtures.xi "s1") /\
  isPresent "X" (snd r) = true /\
  rooms (snd r) = [("s1", "user:X"); ("s1", "role:technician")].
Proof. vm_compute. repeat split; reflexivity. Qed.

End HandshakeFacts.


(** ** More on the status route *)

Module RouteFacts.
Import Technician CollectionFacts TechnicianFacts.

Lemma task_find_update_other id id' f coll :
  id' <> id ->
  (forall x, Task._id (f x) = Task._id x) ->
  Task.findById id' (Task.findByIdAndUpdate id f coll) = Task.findById id' coll.
Proof.
  intros Hne Hid. unfold Task.findById.
  induction coll as [|y r IH]; simpl; [done|].
  destruct (N.eqb (Task._id y) id) eqn:E; simpl.
  - rewrite Hid. apply N.eqb_eq in E.
    destruct (N.eqb (Task._id y) id') eqn:E'; [|done].
    apply N.eqb_eq in E'. congruence.
  - destruct (N.eqb (Task._id y) id'); [done | apply IH].
Qed.

Lemma task_update_length id f coll :
  length (Task.findByIdAndUpdate id f coll) = length coll.
Proof. induction coll as [|y r IH]; simpl; [done|]. destruct (N.eqb _ _); simpl; congruence. Qed.



(** A file without a name: the update is refused, the answer is 500 and
    nothing is written. *)
Example putTaskStatus_file_without_name :
  putTaskStatus Fixtures.always_valid 9%nat
    (mkRequest 1%N 3%N "completed" None [("", "/plans/site.pdf")] None) Fixtures.world_done
  = (error500, Fixtures.world_done).
Proof. reflexivity. Qed.

(** The world behind a 200 response. *)
Lemma putTaskStatus_200_world validate now req w :
  code (fst (putTaskStatus validate now req w)) = 200%nat ->
  exists task found stored projects1 parentProject,
    Task.findOne (taskId req) (user req) (tasks w) = Some task /\
    Task.findById (taskId req) (tasks w) = Some found /\
    String.eqb (body_status req) "delayed" && delayReason_missing (body_delayReason req)
    = false /\
    Project.findById (Task.project found) (projects w) = Some stored /\
    let tasks1 := Task.findByIdAndUpdate (taskId req) (updateData now req task) (tasks w) in
    let updated := updateData now req task found in
    ensure_listed validate tasks1 updated stored (projects w) = Ok (projects1, parentProject) /\
    let rc := recompute tasks1 parentProject projects1 in
    snd (putTaskStatus validate now req w)
    = mkWorld tasks1 (fst rc)
        (emit_events task updated (snd rc)
           (if String.eqb (body_status req) "delayed"
            then JS.or (body_delayReason req) None else None)
           (mkWorld tasks1 (fst rc) (emitted w) (io_initialized w)))
        (io_initialized w).
Proof.
  unfold putTaskStatus.
  destruct (Task.findOne _ _ _) as [task|] eqn:Ht; [|done].
  destruct (_ && _) eqn:Ed; [done|].
  destruct (negb (fileData_casts req)); [done|].
  rewrite task_find_update by (intros; apply updateData_id).
  destruct (Task.findById (taskId req) (tasks w)) as [found|] eqn:Hf; [|done].
  cbn [fmap option_fmap option_map].
  rewrite updateData_project.
  destruct (Project.findById _ _) as [stored|] eqn:Hp; [|done].
  destruct (ensure_listed _ _ _ _ _) as [[projects1 parentProject]|] eqn:He; [|done].
  destruct (recompute _ _ _) as [projects2 parentProject2] eqn:Hr.
  intros _. exists task, found, stored, projects1, parentProject.
  cbn zeta. rewrite He, Hr. done.
Qed.

Lemma recompute_id tasks parentProject projects :
  Project._id (snd (recompute tasks parentProject projects)) = Project._id parentProject.
Proof. unfold recompute. TaskFacts.split_ifs; reflexivity. Qed.

(** X4. The events of a successful update. When the socket layer is
    initialised the handler publishes one event to the room of the
    manager who assigned the task, if the task records one, and then one
    to the superadmin room, after the events published before; both
    carry the task as stored and its project. When the socket layer is
    not initialised nothing is published and the response is 200 all the
    same. A delay reason travels with the events exactly for the status
    ["delayed"], and it is then a reason that is not blank. *)
Theorem putTaskStatus_events validate now req w :
  code (fst (putTaskStatus validate now req w)) = 200%nat ->
  let w' := snd (putTaskStatus validate now req w) in
  exists task updated project,
    Task.findOne (taskId req) (user req) (tasks w) = Some task /\
    Task.findById (taskId req) (tasks w') = Some updated /\
    Project._id project = Task.project updated /\
    let reason := if String.eqb (body_status req) "delayed"
                  then body_delayReason req else None in
    let event room := mkEmit room updated project reason in
    emitted w'
    = (if io_initialized w
       then emitted w ++
            match Task.assignedBy task with
            | Some manager => [event (UserRoom manager)]
            | None => []
            end ++ [event Superadmin]
       else emitted w) /\
    (body_status req = "delayed" ->
     exists r, body_delayReason req = Some r /\ JS.trim r <> "").
Proof.
  intros H200.
  destruct (putTaskStatus_200_world _ _ _ _ H200)
    as (task & found & stored & projects1 & parentProject & Ht & Hf & Hd & Hp & He & Hw).
  cbn zeta in *. rewrite Hw. cbn [tasks emitted].
  set (tasks1 := Task.findByIdAndUpdate _ _ _) in *.
  exists task, (updateData now req task found),
         (snd (recompute tasks1 parentProject projects1)).
  split; [done|]. split.
  { unfold tasks1. rewrite task_find_update, Hf by (intros; apply updateData_id). done. }
  split.
  { rewrite recompute_id, updateData_project.
    pose proof (project_find_id _ _ _ Hp) as Hpid. rewrite <- Hpid in Hp.
    destruct (ensure_listed_project _ _ _ _ _ _ _ He Hp) as (-> & _). done. }
  assert (body_status req = "delayed" ->
          exists r, body_delayReason req = Some r /\ JS.trim r <> "") as Hreason.
  { intros Hs. rewrite Hs in Hd. change (String.eqb "delayed" "delayed") with true in Hd.
    cbn [andb] in Hd. unfold delayReason_missing in Hd.
    destruct (body_delayReason req) as [r|]; [|done].
    exists r. split; [done|]. apply orb_false_iff in Hd as [_ Hd].
    by apply String.eqb_neq in Hd. }
  split; [|done].
  unfold emit_events. cbn [io_initialized emitted].
  destruct (io_initialized w); [|done].
  destruct (String.eqb (body_status req) "delayed") eqn:Es; [|done].
  apply String.eqb_eq in Es. destruct (Hreason Es) as (r & Hr & Hne).
  rewrite Hr. unfold JS.or, JS.truthy.
  destruct r; [|done]. by destruct Hne.
Qed.

Lemma updateData_statusLog now req task x :
  Task.statusLog (updateData now req task x)
  = Task.statusLog x ++
    [Task.mkLog (body_status req) (user req) now
       (if JS.truthy (body_comment req) then body_comment req else None)
       (fileData now req)
       (if String.eqb (body_status req) "delayed" then body_delayReason req else None)].
Proof. unfold updateData. TaskFacts.split_ifs; reflexivity. Qed.

Lemma updateData_assignment now req task x :
  Task.assignedTo (updateData now req task x) = Task.assignedTo x /\
  Task.assignedBy (updateData now req task x) = Task.assignedBy x /\
  Task.title (updateData now req task x) = Task.title x.
Proof. unfold updateData. TaskFacts.split_ifs; done. Qed.

(** X5. The status log is append-only. A successful update adds one
    entry at the end of the task's log (the new status, the technician,
    the time), leaves the task with its project and its assignment, and
    leaves every other task of the collection as it was. *)
Theorem putTaskStatus_appends_log validate now req w :
  code (fst (putTaskStatus validate now req w)) = 200%nat ->
  let w' := snd (putTaskStatus validate now req w) in
  exists before after entry,
    Task.findById (taskId req) (tasks w) = Some before /\
    Task.findById (taskId req) (tasks w') = Some after /\
    Task.statusLog after = Task.statusLog before ++ [entry] /\
    Task.log_status entry = body_status req /\
    Task.log_updatedBy entry = user req /\
    Task.log_timestamp entry = now /\
    Task.project after = Task.project before /\
    Task.assignedTo after = Task.assignedTo before /\
    length (tasks w') = length (tasks w) /\
    forall id, id <> taskId req ->
               Task.findById id (tasks w') = Task.findById id (tasks w).
Proof.
  intros H200.
  destruct (putTaskStatus_200 _ _ _ _ H200)
    as (task & found & _ & _ & _ & _ & Hf & Htasks & _).
  cbn zeta. rewrite Htasks.
  exists found, (updateData now req task found). eexists.
  split; [done|]. split.
  { rewrite task_find_update, Hf by (intros; apply updateData_id). done. }
  split; [apply updateData_statusLog|]. cbn [Task.log_status Task.log_updatedBy Task.log_timestamp].
  repeat split.
  - apply updateData_project.
  - apply updateData_assignment.
  - apply task_update_length.
  - intros id Hne. apply task_find_update_other; [done|]. intros; apply updateData_id.
Qed.

(** *** The recomputation *)

Lemma project_update_update id f g coll :
  (forall p, Project._id (g p) = Project._id p) ->
  Project.findByIdAndUpdate id f (Project.findByIdAndUpdate id g coll)
  = Project.findByIdAndUpdate id (fun p => f (g p)) coll.
Proof.
  intros Hid. induction coll as [|y r IH]; simpl; [done|].
  destruct (N.eqb (Project._id y) id) eqn:E; simpl.
  - by rewrite Hid, E.
  - by rewrite E, IH.
Qed.

Lemma project_update_ext id f g coll :
  (forall p, f p = g p) ->
  Project.findByIdAndUpdate id f coll = Project.findByIdAndUpdate id g coll.
Proof.
  intros Hfg. induction coll as [|y r IH]; simpl; [done|].
  destruct (N.eqb (Project._id y) id); simpl; congruence.
Qed.

(** X6. The recomputation is idempotent: run again on what it left, with
    no task changed in between, it writes nothing new. *)
Theorem recompute_idempotent tasks parentProject projects :
  recompute tasks (snd (recompute tasks parentProject projects))
                  (fst (recompute tasks parentProject projects))
  = recompute tasks parentProject projects.
Proof.
  pose proof (recompute_id tasks parentProject projects) as Hid.
  unfold recompute in *.
  set (T := Task.findByProject (Project._id parentProject) tasks) in *.
  destruct (0 <? length T)%nat eqn:ET; cbn [fst snd] in *.
  2: { fold T. by rewrite ET. }
  set (c := length (List.filter (fun x => String.eqb (Task.status x) "completed") T)) in *.
  destruct (negb (String.eqb (newProjectStatus c (length T)) (Project.status parentProject)))
    eqn:E; cbn [fst snd] in *.
  - cbn [Project._id Project.set_completionPercentage
      Project.set_tasksCount Project.set_completedTasks Project.set_status Project.status].
    fold T. rewrite ET. fold c. rewrite String.eqb_refl. cbn [negb].
    f_equal.
    rewrite !project_update_update by (intros; reflexivity).
    apply project_update_ext. intros p. reflexivity.
  - fold T. rewrite ET. fold c. rewrite E.
    f_equal.
    rewrite !project_update_update by (intros; reflexivity).
    apply project_update_ext. intros p. reflexivity.
Qed.

(** *** Instances *)


Lemma putTaskStatus_events_witness :
  length (emitted (snd (putTaskStatus Fixtures.always_valid 9%nat
                          (Fixtures.status_request 1%N "completed" None)
                          Fixtures.world_on_hold))) = 2%nat.
Proof.
  destruct (putTaskStatus_events Fixtures.always_valid 9%nat
              (Fixtures.status_request 1%N "completed" None) Fixtures.world_on_hold eq_refl)
    as (task & updated & project & Ht & _ & _ & He & _).
  rewrite He. injection Ht as <-. reflexivity.
Defined.

Lemma putTaskStatus_appends_log_witness :
  exists before after entry,
    Task.findById 1%N (tasks Fixtures.world_on_hold) = Some before /\
    Task.findById 1%N
      (tasks (snd (putTaskStatus Fixtures.always_valid 9%nat
                     (Fixtures.status_request 1%N "completed" None)
                     Fixtures.world_on_hold))) = Some after /\
    Task.statusLog after = Task.statusLog before ++ [entry] /\
    Task.log_status entry = "completed".
Proof.
  destruct (putTaskStatus_appends_log Fixtures.always_valid 9%nat
              (Fixtures.status_request 1%N "completed" None) Fixtures.world_on_hold eq_refl)
    as (before & after & entry & H1 & H2 & H3 & H4 & _).
  exists before, after, entry. auto.
Defined.

Lemma putTaskStatus_recomputes_witness :
  exists p,
    Project.findById 7%N
      (projects (snd (putTaskStatus Fixtures.always_valid 9%nat
                        (Fixtures.status_request 1%N "completed" None)
                        Fixtures.world_on_hold))) = Some p /\
    Project.tasksCount p = 2%nat /\ Project.completedTasks p = 1%nat /\
    Project.status p = "In Progress".
Proof.
  destruct (putTaskStatus_recomputes Fixtures.always_valid 9%nat
              (Fixtures.status_request 1%N "completed" None) Fixtures.world_on_hold eq_refl)
    as (updated & p & Hu & _ & Hp & _ & _ & Hn & Hc & Hs).
  injection Hu as <-. exists p. split; [exact Hp|].
  split; [exact Hn|]. split; [exact Hc | exact Hs].
Defined.

Lemma percentage_exact_below_40_witness :
  JSNumber.to_Z (JSNumber.percentage 1 8) = Some 13.
Proof. apply (percentage_exact_below_40 1 8); lia. Defined.

End RouteFacts.


(** ** More on the Project and Task models *)

Module ModelFacts.
Import CollectionFacts.

(** X7. [updateStatusByCompletion] changes a project in two ways only.
    At a percentage of exactly 100 it marks the project completed and
    stamps the end date with the current time, also over an end date
    recorded before. Below 100 it moves a project in planning with a
    positive percentage to "In Progress". In every other case, so for
    every delayed, on-hold or in-progress project below 100, the project
    is returned as it is. The counts, the percentage and the task list
    are never touched. *)
Theorem updateStatusByCompletion_outcomes now p :
  let p' := Project.updateStatusByCompletion now p in
  (JSNumber.eqb (Project.completionPercentage p) (JSNumber.of_Z 100) = true /\
   Project.status p' = "Completed" /\ Project.endDate p' = Some now) \/
  (JSNumber.eqb (Project.completionPercentage p) (JSNumber.of_Z 100) = false /\
   JSNumber.gtb (Project.completionPercentage p) (JSNumber.of_Z 0) = true /\
   Project.status p = "Planning" /\
   Project.status p' = "In Progress" /\ Project.endDate p' = Project.endDate p) \/
  (JSNumber.eqb (Project.completionPercentage p) (JSNumber.of_Z 100) = false /\
   (Project.status p <> "Planning" \/
    JSNumber.gtb (Project.completionPercentage p) (JSNumber.of_Z 0) = false) /\
   p' = p).
Proof.
  unfold Project.updateStatusByCompletion.
  destruct (JSNumber.eqb _ _); [left; done|].
  destruct (JSNumber.gtb _ _) eqn:Eg; cbn [andb].
  - destruct (String.eqb (Project.status p) "Planning") eqn:Es.
    + apply String.eqb_eq in Es. right; left. done.
    + apply String.eqb_neq in Es. right; right. auto.
  - right; right. auto.
Qed.

Lemma updateStatusByCompletion_keeps now p :
  let p' := Project.updateStatusByCompletion now p in
  Project._id p' = Project._id p /\
  Project.tasks p' = Project.tasks p /\
  Project.tasksCount p' = Project.tasksCount p /\
  Project.completedTasks p' = Project.completedTasks p /\
  Project.completionPercentage p' = Project.completionPercentage p /\
  Project.progress p' = Project.progress p.
Proof. unfold Project.updateStatusByCompletion. TaskFacts.split_ifs; done. Qed.

Lemma populate_length coll refs :
  (length (Project.populate coll refs) <= length refs)%nat.
Proof.
  unfold Project.populate, omap. induction refs as [|r rs IH]; simpl; [lia|].
  destruct (Task.findById r coll); simpl; lia.
Qed.

Lemma populate_ids coll refs x :
  In x (Project.populate coll refs) -> In (Task._id x) refs /\ In x coll.
Proof.
  unfold Project.populate, omap. induction refs as [|r rs IH]; simpl; [done|].
  destruct (Task.findById r coll) as [y|] eqn:E; simpl.
  - intros [<- | H].
    + split; [left; symmetry; by eapply task_find_id | by eapply task_find_in].
    + destruct (IH H). auto.
  - intros H. destruct (IH H). auto.
Qed.

(** The ids of the populated documents are the references behind which
    there is a task. *)
Lemma populate_refs coll refs id :
  In id (List.map Task._id (Project.populate coll refs)) <->
  In id refs /\ is_Some (Task.findById id coll).
Proof.
  unfold Project.populate, omap. induction refs as [|r rs IH]; simpl.
  - split; [done | by intros [[] _]].
  - destruct (Task.findById r coll) as [y|] eqn:E; simpl.
    + pose proof (task_find_id _ _ _ E) as Hy. rewrite IH. split.
      * intros [<- | [H1 H2]]; [|by auto].
        split; [by left | rewrite Hy, E; eauto].
      * intros [[<- | H1] H2]; [by left | by right].
    + rewrite IH. split.
      * intros [H1 H2]. auto.
      * intros [[<- | H1] H2]; [|done]. rewrite E in H2. by destruct H2.
Qed.

(** X8. [calculateCompletion] populates the tasks of the document: the
    array then holds the referenced tasks that exist, in the order of
    the references, and a reference to a task that is gone is dropped
    from it. [tasksCount] is the length of that array, so
    [completedTasks <= tasksCount <= ] the number of references. A task
    counts as completed only under the status ["Completed"]. The
    percentage is [Math.round((completed / count) * 100)], and 0 when no
    referenced task exists; the legacy [progress] is left equal to it,
    and it is what the call returns. The status is not touched. A
    project without references is returned as it is, with the
    percentage it had. *)
Theorem calculateCompletion_counts coll p :
  let p' := snd (Project.calculateCompletion coll p) in
  fst (Project.calculateCompletion coll p) = Project.completionPercentage p' /\
  Project.status p' = Project.status p /\
  (Project.tasks p = [] -> p' = p) /\
  (Project.tasks p <> [] ->
   let populated := Project.populate coll (Project.tasks p) in
   Project.tasks p' = List.map Task._id populated /\
   (forall id, In id (Project.tasks p') <->
               In id (Project.tasks p) /\ is_Some (Task.findById id coll)) /\
   Project.tasksCount p' = length (Project.tasks p') /\
   Project.completedTasks p'
   = length (List.filter (fun x => String.eqb (Task.status x) "Completed") populated) /\
   (Project.completedTasks p' <= Project.tasksCount p' <= length (Project.tasks p))%nat /\
   Project.progress p' = Project.completionPercentage p' /\
   (Project.tasksCount p' = 0%nat -> Project.completionPercentage p' = JSNumber.of_Z 0) /\
   ((0 < Project.tasksCount p')%nat ->
    Project.completionPercentage p'
    = JSNumber.percentage (Project.completedTasks p') (Project.tasksCount p'))).
Proof.
  unfold Project.calculateCompletion.
  destruct (Project.tasks p) as [|r rs] eqn:Et; cbn [fst snd].
  - repeat split; try done.
  - split; [done|]. split; [done|]. split; [done|].
    intros _. cbn zeta.
    cbn [Project.tasksCount Project.completedTasks Project.set_completedTasks
         Project.set_tasksCount Project.set_completionPercentage Project.set_progress
         Project.completionPercentage Project.progress Project.tasks Project.set_tasks].
    split; [done|]. split; [apply populate_refs|].
    split; [by rewrite length_map|]. split; [done|]. split.
    { split; [apply filter_length_le | apply populate_length]. }
    split; [done|]. split.
    + intros ->. reflexivity.
    + intros H. apply Nat.ltb_lt in H. by rewrite H.
Qed.

Lemma calculateCompletion_counts_witness :
  let p' := snd (Project.calculateCompletion (Fixtures.tasks_upto 1 1) Fixtures.project7) in
  Project.tasks p' = [] /\
  Project.tasksCount p' = 0%nat /\
  Project.completionPercentage p' = JSNumber.of_Z 0.
Proof.
  pose proof (calculateCompletion_counts (Fixtures.tasks_upto 1 1) Fixtures.project7)
    as (_ & _ & _ & H).
  destruct H as (Ht & _ & Hc & _ & _ & _ & Hz & _); [discriminate|].
  split; [exact Ht|]. split; [exact Hc | apply Hz; exact Hc].
Defined.

(** *** Task: [updateProgress] *)

Lemma pre_save_startedDate_set isModified now x :
  Task.is_set (Task.startedDate x) = true ->
  Task.is_set (Task.startedDate (Task.pre_save isModified now x)) = true.
Proof.
  intros H. unfold Task.pre_save.
  assert (Task.is_set (Task.startedDate (Task.sync_dates isModified x)) = true) as H1
    by (unfold Task.sync_dates; TaskFacts.split_ifs; done).
  revert H1. generalize (Task.sync_dates isModified x) as y. intros y H1.
  assert (Task.is_set (Task.startedDate (Task.on_completed isModified now y)) = true) as H2
    by (unfold Task.on_completed; TaskFacts.split_ifs; done).
  revert H2. generalize (Task.on_completed isModified now y) as z. intros z H2.
  assert (Task.is_set (Task.startedDate (Task.on_started isModified now z)) = true) as H3
    by (unfold Task.on_started; TaskFacts.split_ifs; done).
  revert H3. generalize (Task.on_started isModified now z) as u. intros u H3.
  unfold Task.progress_from_status; TaskFacts.split_ifs; done.
Qed.

Lemma pre_save_completedDate_set isModified now x :
  Task.is_set (Task.completedDate x) = true ->
  isModified "completedAt" && negb (isModified "completedDate") = false \/
  Task.is_set (Task.completedAt x) = true ->
  Task.is_set (Task.completedDate (Task.pre_save isModified now x)) = true.
Proof.
  intros H Hsync. unfold Task.pre_save.
  assert (Task.is_set (Task.completedDate (Task.sync_dates isModified x)) = true) as H1.
  { unfold Task.sync_dates.
    destruct (isModified "completedDate" && negb (isModified "completedAt"));
      [TaskFacts.split_ifs; done|].
    destruct Hsync as [-> | Hat]; [TaskFacts.split_ifs; done|].
    TaskFacts.split_ifs; done. }
  revert H1. generalize (Task.sync_dates isModified x) as y. intros y H1.
  assert (Task.is_set (Task.completedDate (Task.on_completed isModified now y)) = true) as H2.
  { unfold Task.on_completed. rewrite H1. cbn [negb andb]. TaskFacts.split_ifs; done. }
  revert H2. generalize (Task.on_completed isModified now y) as z. intros z H2.
  assert (Task.is_set (Task.completedDate (Task.on_started isModified now z)) = true) as H3
    by (unfold Task.on_started; TaskFacts.split_ifs; done).
  revert H3. generalize (Task.on_started isModified now z) as u. intros u H3.
  unfold Task.progress_from_status; TaskFacts.split_ifs; done.
Qed.

(** X9. [updateProgress] stores the value clamped to the range 0..100,
    whatever the status was and whatever the save middleware does
    afterwards; a value of 100 or more leaves the task completed with a
    completion date, and a value between 1 and 99 on an assigned task
    starts it. *)
Theorem updateProgress_clamps now v x :
  let r := Task.updateProgress now v x in
  Task.progress r = Z.max 0 (Z.min 100 v) /\
  0 <= Task.progress r <= 100 /\
  (100 <= v -> Task.status r = "completed" /\ Task.is_set (Task.completedDate r) = true) /\
  (0 < v < 100 -> Task.status x = "assigned" ->
   Task.status r = "in_progress" /\ Task.is_set (Task.startedDate r) = true).
Proof.
  cbn zeta.
  assert (Task.progress (Task.updateProgress now v x) = Z.max 0 (Z.min 100 v)) as Hp.
  { unfold Task.updateProgress.
    rewrite TaskFacts.pre_save_progress.
    set (c := Z.max 0 (Z.min 100 v)).
    cbn [Task.progress Task.set_progress Task.status].
    destruct (c =? 0) eqn:E0.
    { apply Z.eqb_eq in E0. cbn [Task.progress Task.set_progress Task.status Task.set_status].
      rewrite TaskFacts.progress_assigned. by destruct (Task.modified_since _ _ _). }
    destruct (c =? 100) eqn:E1.
    { apply Z.eqb_eq in E1.
      destruct (negb (Task.is_set (Task.completedDate
                                     (Task.set_status "completed" (Task.set_progress c x)))));
        cbn [Task.status Task.set_status Task.set_completedAt Task.set_completedDate
             Task.set_progress Task.progress];
        rewrite TaskFacts.progress_completed; by destruct (Task.modified_since _ _ _). }
    destruct ((0 <? c) && _) eqn:E2.
    - destruct (negb (Task.is_set (Task.startedDate
                                     (Task.set_status "in_progress" (Task.set_progress c x)))));
        cbn [Task.status Task.set_status Task.set_startedDate Task.set_progress Task.progress];
        rewrite TaskFacts.progress_in_progress, E0; by destruct (Task.modified_since _ _ _).
    - cbn [Task.status Task.set_progress Task.progress].
      assert (Task.modified_since x (Task.set_progress c x) "status" = false) as ->; [|done].
      unfold Task.modified_since.
      change (String.eqb "status" "status") with true. cbn [Task.status Task.set_progress].
      by rewrite String.eqb_refl. }
  split; [exact Hp|]. split; [rewrite Hp; lia|]. split.
  - intros Hv. unfold Task.updateProgress.
    replace (Z.max 0 (Z.min 100 v)) with 100 by lia.
    cbn [Task.progress Task.set_progress].
    change (100 =? 0) with false. change (100 =? 100) with true. cbn iota.
    rewrite TaskFacts.pre_save_status.
    destruct (Task.completedDate x) as [d|] eqn:Ed.
    + cbn [Task.completedDate Task.set_status Task.set_progress Task.is_set negb].
      rewrite Ed. cbn [Task.is_set negb Task.status Task.set_status]. split; [done|].
      apply pre_save_completedDate_set.
      * cbn [Task.completedDate Task.set_status Task.set_progress]. by rewrite Ed.
      * left. unfold Task.modified_since.
        change (String.eqb "completedAt" "status") with false.
        change (String.eqb "completedAt" "deadline") with false.
        change (String.eqb "completedAt" "dueDate") with false.
        change (String.eqb "completedAt" "completedDate") with false.
        change (String.eqb "completedAt" "completedAt") with true.
        cbn [Task.completedAt Task.set_status Task.set_progress].
        by rewrite bool_decide_eq_true_2.
    + cbn [Task.completedDate Task.set_status Task.set_progress Task.is_set negb].
      rewrite Ed. cbn [Task.is_set negb Task.status Task.set_status Task.set_completedAt
                       Task.set_completedDate]. split; [done|].
      apply pre_save_completedDate_set; [done | right; done].
  - intros Hv Hs. unfold Task.updateProgress.
    set (c := Z.max 0 (Z.min 100 v)).
    assert (0 < c < 100) as Hc by (unfold c; lia).
    cbn [Task.progress Task.set_progress Task.status].
    destruct (c =? 0) eqn:E0; [apply Z.eqb_eq in E0; lia|].
    destruct (c =? 100) eqn:E1; [apply Z.eqb_eq in E1; lia|].
    assert ((0 <? c) = true) as -> by (apply Z.ltb_lt; lia).
    rewrite Hs. change (String.eqb "assigned" "assigned") with true. cbn [andb orb].
    rewrite TaskFacts.pre_save_status.
    destruct (negb (Task.is_set (Task.startedDate
                                   (Task.set_status "in_progress" (Task.set_progress c x)))))
      eqn:En.
    + split; [done|]. by apply pre_save_startedDate_set.
    + split; [done|]. apply pre_save_startedDate_set. by apply negb_false_iff in En.
Qed.

Lemma updateProgress_clamps_witness :
  (Task.status (Task.updateProgress 9%nat 250 (Fixtures.task 1%N "delayed" 40)) = "completed" /\
   Task.is_set (Task.completedDate
                  (Task.updateProgress 9%nat 250 (Fixtures.task 1%N "delayed" 40))) = true) /\
  (Task.status (Task.updateProgress 9%nat 30 (Fixtures.task 1%N "assigned" 0)) = "in_progress" /\
   Task.is_set (Task.startedDate
                  (Task.updateProgress 9%nat 30 (Fixtures.task 1%N "assigned" 0))) = true).
Proof.
  split.
  - apply (updateProgress_clamps 9%nat 250 (Fixtures.task 1%N "delayed" 40)). lia.
  - apply (updateProgress_clamps 9%nat 30 (Fixtures.task 1%N "assigned" 0));
      [lia | reflexivity].
Defined.

(** *** Task: the save middleware and the dates *)

Lemma later_steps_keep_due isModified now y :
  let r := Task.progress_from_status isModified
             (Task.on_started isModified now (Task.on_completed isModified now y)) in
  Task.deadline r = Task.deadline y /\ Task.dueDate r = Task.dueDate y.
Proof.
  cbn zeta.
  assert (Task.deadline (Task.on_completed isModified now y) = Task.deadline y /\
          Task.dueDate (Task.on_completed isModified now y) = Task.dueDate y) as [<- <-]
    by (unfold Task.on_completed; TaskFacts.split_ifs; done).
  generalize (Task.on_completed isModified now y) as z. intros z.
  assert (Task.deadline (Task.on_started isModified now z) = Task.deadline z /\
          Task.dueDate (Task.on_started isModified now z) = Task.dueDate z) as [<- <-]
    by (unfold Task.on_started; TaskFacts.split_ifs; done).
  generalize (Task.on_started isModified now z) as u. intros u.
  unfold Task.progress_from_status; TaskFacts.split_ifs; done.
Qed.

Lemma later_steps_keep_completion isModified now y :
  let r := Task.progress_from_status isModified (Task.on_started isModified now y) in
  Task.completedDate r = Task.completedDate y /\ Task.completedAt r = Task.completedAt y /\
  Task.status r = Task.status y.
Proof.
  cbn zeta.
  assert (Task.completedDate (Task.on_started isModified now y) = Task.completedDate y /\
          Task.completedAt (Task.on_started isModified now y) = Task.completedAt y /\
          Task.status (Task.on_started isModified now y) = Task.status y) as (<- & <- & <-)
    by (unfold Task.on_started; TaskFacts.split_ifs; done).
  generalize (Task.on_started isModified now y) as u. intros u.
  unfold Task.progress_from_status; TaskFacts.split_ifs; done.
Qed.

(** X10. What the save middleware of a task establishes about dates.
    When exactly one of [deadline] and [dueDate] was modified the two
    are equal afterwards. When the status was changed to completed
    the task has a completion date ([completedDate] or [completedAt]),
    and when it was changed to in progress it has a start date; a start
    date that was recorded is never replaced. *)
Theorem task_pre_save_dates isModified now x :
  let r := Task.pre_save isModified now x in
  (xorb (isModified "deadline") (isModified "dueDate") = true ->
   Task.deadline r = Task.dueDate r) /\
  (isModified "status" = true ->
   Task.status x = "completed" \/ Task.status x = "Completed" ->
   Task.is_set (TaskDue.effectiveCompletedDate r) = true) /\
  (isModified "status" = true ->
   Task.status x = "in_progress" \/ Task.status x = "In Progress" ->
   Task.is_set (Task.startedDate r) = true) /\
  (forall d, Task.startedDate x = Some d -> Task.startedDate r = Some d).
Proof.
  cbn zeta. unfold Task.pre_save. split; [|split; [|split]].
  - intros Hx.
    destruct (later_steps_keep_due isModified now (Task.sync_dates isModified x)) as [-> ->].
    unfold Task.sync_dates.
    destruct (isModified "deadline"), (isModified "dueDate"); try discriminate Hx;
      cbn [andb negb]; TaskFacts.split_ifs; done.
  - intros Hm Hs.
    pose proof (TaskFacts.sync_dates_keeps isModified x) as (_ & Hst & _).
    revert Hst. generalize (Task.sync_dates isModified x) as y. intros y Hst.
    destruct (later_steps_keep_completion isModified now (Task.on_completed isModified now y))
      as (Hcd & Hca & _).
    unfold TaskDue.effectiveCompletedDate. rewrite Hcd, Hca.
    unfold Task.on_completed. rewrite Hm, Hst.
    assert (String.eqb (Task.status x) "completed" || String.eqb (Task.status x) "Completed"
            = true) as ->.
    { destruct Hs as [-> | ->]; reflexivity. }
    cbn [andb].
    destruct (Task.completedDate y) as [d|] eqn:Ed; cbn [Task.is_set negb andb].
    + cbn [Task.completedDate Task.set_progress]. by rewrite Ed.
    + destruct (Task.completedAt y) as [a|] eqn:Ea; cbn [Task.is_set negb andb].
      * cbn [Task.completedDate Task.completedAt Task.set_progress]. by rewrite Ed, Ea.
      * done.
  - intros Hm Hs.
    pose proof (TaskFacts.sync_dates_keeps isModified x) as (_ & Hst & _).
    revert Hst. generalize (Task.sync_dates isModified x) as y. intros y Hst.
    pose proof (TaskFacts.on_completed_keeps isModified now y) as (_ & Hst2 & _).
    rewrite Hst in Hst2.
    revert Hst2. generalize (Task.on_completed isModified now y) as z. intros z Hst2.
    assert (Task.is_set (Task.startedDate (Task.on_started isModified now z)) = true) as H.
    { unfold Task.on_started. rewrite Hm, Hst2.
      assert (String.eqb (Task.status x) "in_progress" ||
              String.eqb (Task.status x) "In Progress" = true) as ->.
      { destruct Hs as [-> | ->]; reflexivity. }
      cbn [andb]. destruct (Task.startedDate z) eqn:E; cbn [Task.is_set negb]; [|done].
      by rewrite E. }
    revert H. generalize (Task.on_started isModified now z) as u. intros u H.
    unfold Task.progress_from_status; TaskFacts.split_ifs; done.
  - intros d Hd.
    assert (Task.startedDate (Task.sync_dates isModified x) = Some d) as H1
      by (unfold Task.sync_dates; TaskFacts.split_ifs; done).
    revert H1. generalize (Task.sync_dates isModified x) as y. intros y H1.
    assert (Task.startedDate (Task.on_completed isModified now y) = Some d) as H2
      by (unfold Task.on_completed; TaskFacts.split_ifs; done).
    revert H2. generalize (Task.on_completed isModified now y) as z. intros z H2.
    assert (Task.startedDate (Task.on_started isModified now z) = Some d) as H3.
    { unfold Task.on_started. rewrite H2. cbn [Task.is_set negb]. TaskFacts.split_ifs; done. }
    revert H3. generalize (Task.on_started isModified now z) as u. intros u H3.
    unfold Task.progress_from_status; TaskFacts.split_ifs; done.
Qed.

Lemma task_pre_save_dates_witness :
  Task.deadline (Task.pre_save (String.eqb "deadline") 9%nat
                   (Task.set_deadline (Some 20%nat) (Fixtures.task 1%N "assigned" 0)))
  = Task.dueDate (Task.pre_save (String.eqb "deadline") 9%nat
                    (Task.set_deadline (Some 20%nat) (Fixtures.task 1%N "assigned" 0))) /\
  Task.is_set (TaskDue.effectiveCompletedDate
                 (Task.pre_save (String.eqb "status") 9%nat
                    (Fixtures.task 1%N "Completed" 40))) = true /\
  Task.is_set (Task.startedDate
                 (Task.pre_save (String.eqb "status") 9%nat
                    (Fixtures.task 1%N "In Progress" 0))) = true.
Proof.
  split; [|split].
  - apply (task_pre_save_dates (String.eqb "deadline") 9%nat
             (Task.set_deadline (Some 20%nat) (Fixtures.task 1%N "assigned" 0))).
    reflexivity.
  - apply (task_pre_save_dates (String.eqb "status") 9%nat
             (Fixtures.task 1%N "Completed" 40)); [reflexivity | right; reflexivity].
  - apply (task_pre_save_dates (String.eqb "status") 9%nat
             (Fixtures.task 1%N "In Progress" 0)); [reflexivity | right; reflexivity].
Defined.

(** *** Task: overdue *)

(** X11. Every task [isOverdue] reports is among those [findOverdue]
    returns, and neither ever reports a completed task. The converse
    fails in general, because [isOverdue] looks at the due date only
    when there is no deadline while the query looks at both; the two
    agree on every task whose deadline and due date are equal, as the
    save middleware leaves them. *)
Theorem isOverdue_findOverdue now x coll :
  In x coll ->
  (TaskDue.isOverdue now x = true -> In x (TaskDue.findOverdue now coll)) /\
  (Task.deadline x = Task.dueDate x ->
   In x (TaskDue.findOverdue now coll) -> TaskDue.isOverdue now x = true) /\
  (In x (TaskDue.findOverdue now coll) ->
   Task.status x <> "completed" /\ Task.status x <> "Completed").
Proof.
  intros Hin. unfold TaskDue.findOverdue, TaskDue.isOverdue, TaskDue.effectiveDueDate.
  rewrite filter_In. split; [|split].
  - intros H. split; [done|].
    destruct (Task.deadline x) as [d|]; cbn [TaskDue.before].
    + apply andb_true_iff in H as [-> ->]. done.
    + destruct (Task.dueDate x) as [d|]; [|done]. cbn [TaskDue.before].
      apply andb_true_iff in H as [-> ->]. done.
  - intros Heq [_ H]. rewrite <- Heq in H. rewrite orb_diag in H.
    destruct (Task.deadline x) as [d|]; rewrite <- ?Heq; cbn [TaskDue.before] in *; done.
  - intros [_ H]. apply andb_true_iff in H as [_ H].
    unfold TaskDue.not_completed in H. apply andb_true_iff in H as [H1 H2].
    apply negb_true_iff in H1, H2. by apply String.eqb_neq in H1, H2.
Qed.

Lemma isOverdue_findOverdue_witness :
  In (Task.set_deadline (Some 3%nat) (Fixtures.task 1%N "assigned" 0))
     (TaskDue.findOverdue 9%nat
        [Task.set_deadline (Some 3%nat) (Fixtures.task 1%N "assigned" 0)]).
Proof.
  apply (isOverdue_findOverdue 9%nat
           (Task.set_deadline (Some 3%nat) (Fixtures.task 1%N "assigned" 0))
           [Task.set_deadline (Some 3%nat) (Fixtures.task 1%N "assigned" 0)]);
    [left; reflexivity | reflexivity].
Defined.

(** The converse does fail: a deadline ahead and a due date behind. *)
Example findOverdue_not_isOverdue :
  let x := Task.set_dueDate (Some 3%nat)
             (Task.set_deadline (Some 20%nat) (Fixtures.task 1%N "assigned" 0)) in
  In x (TaskDue.findOverdue 9%nat [x]) /\ TaskDue.isOverdue 9%nat x = false.
Proof. split; [left; reflexivity | reflexivity]. Qed.

End ModelFacts.


(** ** More on the socket server *)

Module SocketMoreFacts.
Import SocketServer SocketFacts.

(** X12. A handshake with no token, with a token that does not verify,
    or with the token of a user that is not stored, is refused with an
    error and leaves the server exactly as it was: no presence entry, no
    room, nothing emitted. *)
Theorem handshake_refused_without_trace jwt_verify sid h s :
  JS.truthy (handshake_token h) = false \/
  jwt_verify (default "" (handshake_token h)) = None \/
  (exists id, jwt_verify (default "" (handshake_token h)) = Some id /\
              findUser id (users s) = None) ->
  exists e, connect jwt_verify sid h s = (Throw e, s).
Proof.
  intros H. destruct (HandshakeFacts.middleware_refuses jwt_verify sid h s H) as [e He].
  exists e. unfold connect. by rewrite He.
Qed.

Lemma handshake_refused_without_trace_witness :
  exists e, connect Fixtures.jwt "s1"
              (mkHandshake None (Some "Bearer forged") None None) Fixtures.server0
            = (Throw e, Fixtures.server0).
Proof.
  apply (handshake_refused_without_trace Fixtures.jwt "s1"
           (mkHandshake None (Some "Bearer forged") None None) Fixtures.server0).
  right; left. reflexivity.
Defined.

(** X13. Connections and disconnections of one user do not touch the
    presence of any other user; a disconnected socket is left in no
    room, and the rooms of other sockets are kept. *)
Theorem presence_of_others_untouched (socket : Socket) (v : string) (s : Server) :
  v <> socket_userId socket ->
  isPresent v (on_connection socket s) = isPresent v s /\
  isPresent v (on_disconnect socket s) = isPresent v s /\
  (forall room, ~ In (socket_id socket, room) (rooms (on_disconnect socket s))) /\
  (forall sid room, sid <> socket_id socket ->
     (In (sid, room) (rooms (on_disconnect socket s)) <-> In (sid, room) (rooms s))).
Proof.
  intros Hne. unfold isPresent. simpl.
  rewrite lookup_insert_ne, lookup_delete_ne by done.
  split; [done|]. split; [done|]. split.
  - intros room Hin. apply filter_In in Hin as [_ Hin]. simpl in Hin.
    by rewrite String.eqb_refl in Hin.
  - intros sid room Hsid. rewrite filter_In. simpl.
    split; [by intros [? _]|]. intros Hin. split; [done|].
    apply negb_true_iff. by apply String.eqb_neq.
Qed.

Lemma presence_of_others_untouched_witness :
  isPresent "U" (on_connection (Fixtures.socket_of Fixtures.xi "h9")
                   (on_connection (Fixtures.socket_of Fixtures.uma "h1") Fixtures.server0))
  = isPresent "U" (on_connection (Fixtures.socket_of Fixtures.uma "h1") Fixtures.server0).
Proof.
  apply (presence_of_others_untouched (Fixtures.socket_of Fixtures.xi "h9") "U"
           (on_connection (Fixtures.socket_of Fixtures.uma "h1") Fixtures.server0)).
  discriminate.
Defined.

(** X14. [getConnectedUsersCount] counts users, not sockets: the
    connection of a user who has no entry raises it by one, a further
    connection of a user who has one leaves it unchanged, and a
    disconnection of a user who has an entry lowers it by one, however
    many sockets that user had opened. *)
Theorem connected_count_is_per_user (socket : Socket) (s : Server) :
  (connectedUsers s !! socket_userId socket = None ->
   SocketBroadcast.getConnectedUsersCount (on_connection socket s)
   = S (SocketBroadcast.getConnectedUsersCount s)) /\
  (is_Some (connectedUsers s !! socket_userId socket) ->
   SocketBroadcast.getConnectedUsersCount (on_connection socket s)
   = SocketBroadcast.getConnectedUsersCount s /\
   S (SocketBroadcast.getConnectedUsersCount (on_disconnect socket s))
   = SocketBroadcast.getConnectedUsersCount s).
Proof.
  unfold SocketBroadcast.getConnectedUsersCount. simpl. split.
  - intros H. by apply map_size_insert_None.
  - intros [h H]. split.
    + apply map_size_insert_Some. by exists h.
    + rewrite <- (insert_delete_id (connectedUsers s) _ _ H) at 2.
      rewrite map_size_insert_None by apply lookup_delete_eq. done.
Qed.

Lemma connected_count_is_per_user_witness :
  SocketBroadcast.getConnectedUsersCount
    (on_connection (Fixtures.socket_of Fixtures.uma "h1") Fixtures.server0) = 1%nat /\
  SocketBroadcast.getConnectedUsersCount
    (on_connection (Fixtures.socket_of Fixtures.uma "h2")
       (on_connection (Fixtures.socket_of Fixtures.uma "h1") Fixtures.server0)) = 1%nat.
Proof.
  split.
  - apply (connected_count_is_per_user (Fixtures.socket_of Fixtures.uma "h1")
             Fixtures.server0). reflexivity.
  - apply (connected_count_is_per_user (Fixtures.socket_of Fixtures.uma "h2")
             (on_connection (Fixtures.socket_of Fixtures.uma "h1") Fixtures.server0)).
    exists "h1". reflexivity.
Defined.

(** *** Dispatch *)

Import Derived.

Lemma valid_target u p :
  Notification.validate (fields_of (Some u) p) = payload_ok p.
Proof. reflexivity. Qed.

Lemma invalid_without_target p :
  Notification.validate (fields_of None p) = false.
Proof. reflexivity. Qed.

(** The targets the schema accepts. *)
Lemma accepted_targets p userIds :
  List.filter (fun u => Notification.validate (fields_of u p)) userIds
  = if payload_ok p then List.filter (fun u => bool_decide (is_Some u)) userIds else [].
Proof.
  induction userIds as [|[u|] r IH]; cbn [List.filter].
  - by destruct (payload_ok p).
  - rewrite valid_target, IH. by destruct (payload_ok p).
  - rewrite invalid_without_target, IH. done.
Qed.

Lemma send_appends now userId p s :
  let s' := snd (sendNotificationToUser now userId p s) in
  connectedUsers s' = connectedUsers s /\ rooms s' = rooms s /\ users s' = users s /\
  exists l, notifications s' = notifications s ++ l /\
            List.map (fun n => Some (Notification.userId n)) l
            = List.filter (fun u => Notification.validate (fields_of u p)) [userId] /\
            Forall (fresh now) l.
Proof.
  cbn zeta. unfold sendNotificationToUser, Notification.create.
  cbn [List.filter].
  destruct (Notification.validate (fields_of userId p)) eqn:Ev.
  - assert (exists u, userId = Some u) as [u ->].
    { destruct userId; [eauto | by rewrite invalid_without_target in Ev]. }
    destruct (JS.truthy _); cbn [snd connectedUsers rooms users notifications add_effect];
      (repeat split; try done); eexists; (split; [reflexivity|]);
      (split; [reflexivity|]); repeat constructor.
  - cbn [snd]. repeat split; try done. exists []. rewrite app_nil_r. repeat split; constructor.
Qed.

Lemma map_send_appends now userIds p : forall s,
  let s' := snd (map_send now userIds p s) in
  connectedUsers s' = connectedUsers s /\ rooms s' = rooms s /\ users s' = users s /\
  exists l, notifications s' = notifications s ++ l /\
            List.map (fun n => Some (Notification.userId n)) l
            = List.filter (fun u => Notification.validate (fields_of u p)) userIds /\
            Forall (fresh now) l.
Proof.
  induction userIds as [|u rest IH]; intros s; cbn zeta.
  - cbn. repeat split; try done. exists []. by rewrite app_nil_r.
  - cbn [map_send].
    pose proof (send_appends now u p s) as (Hc & Hr & Hu & l1 & Hn & Hm & Hf).
    destruct (sendNotificationToUser now u p s) as [r s1]. cbn [snd] in *.
    specialize (IH s1) as (Hc2 & Hr2 & Hu2 & l2 & Hn2 & Hm2 & Hf2).
    destruct (map_send now rest p s1) as [rs s2]. cbn [snd] in *.
    split; [congruence|]. split; [congruence|]. split; [congruence|].
    exists (l1 ++ l2). split; [by rewrite Hn2, Hn, app_assoc|]. split.
    + rewrite List.map_app, Hm, Hm2. cbn [List.filter].
      by destruct (Notification.validate (fields_of u p)).
    + by apply Forall_app.
Qed.

Lemma users_send_appends now userIds p s :
  let s' := snd (sendNotificationToUsers now userIds p s) in
  connectedUsers s' = connectedUsers s /\ rooms s' = rooms s /\ users s' = users s /\
  exists l, notifications s' = notifications s ++ l /\
            List.map (fun n => Some (Notification.userId n)) l
            = List.filter (fun u => Notification.validate (fields_of u p)) userIds /\
            Forall (fresh now) l.
Proof.
  cbn zeta. unfold sendNotificationToUsers.
  pose proof (map_send_appends now userIds p s) as H.
  destruct (map_send now userIds p s) as [rs s2]. exact H.
Qed.

(** X15. What [sendNotificationToUsers] changes. It never alters the
    presence map, the rooms or the users, and it never removes or
    rewrites a stored notification: the store grows at its end by one
    notification per target the schema accepts, in the order of the
    targets, each unread, without expiry and created now. *)
Theorem sendNotificationToUsers_appends now userIds p s :
  let s' := snd (sendNotificationToUsers now userIds p s) in
  connectedUsers s' = connectedUsers s /\ rooms s' = rooms s /\ users s' = users s /\
  exists l, notifications s' = notifications s ++ l /\
            List.map (fun n => Some (Notification.userId n)) l
            = List.filter (fun u => Notification.validate (fields_of u p)) userIds /\
            Forall (fresh now) l.
Proof. apply users_send_appends. Qed.

(** The call is fulfilled exactly when every target was saved. *)
Lemma sendNotificationToUsers_result now userIds p s :
  (forallb (fun u => Notification.validate (fields_of u p)) userIds = true ->
   exists l, fst (sendNotificationToUsers now userIds p s) = Ok l /\
             length l = length userIds) /\
  (forallb (fun u => Notification.validate (fields_of u p)) userIds = false ->
   fst (sendNotificationToUsers now userIds p s) = Throw "ValidationError").
Proof.
  unfold sendNotificationToUsers.
  pose proof (Promise_all_settled p userIds _ (map_send_results now userIds p s)) as Hall.
  destruct (map_send now userIds p s) as [rs s2]. cbn [fst] in *.
  destruct (forallb _ userIds); split; done.
Qed.

Lemma role_targets_given role s :
  List.filter (fun u => bool_decide (is_Some u)) (SocketBroadcast.role_userIds role s)
  = SocketBroadcast.role_userIds role s.
Proof.
  unfold SocketBroadcast.role_userIds.
  induction (List.filter _ (users s)) as [|u r IH]; simpl; [done|]. by rewrite IH.
Qed.

Lemma forallb_targets p userIds :
  List.filter (fun u => bool_decide (is_Some u)) userIds = userIds ->
  forallb (fun u => Notification.validate (fields_of u p)) userIds
  = payload_ok p || bool_decide (userIds = []).
Proof.
  induction userIds as [|[u|] r IH]; cbn [List.filter forallb].
  - intros _. by rewrite orb_true_r.
  - intros H. injection H as H. rewrite valid_target, (IH H).
    by destruct (payload_ok p).
  - intros H. exfalso.
    rewrite bool_decide_eq_false_2 in H by (by intros [? ?]).
    pose proof (filter_length_le (fun u : option string => bool_decide (is_Some u)) r) as Hle.
    rewrite H in Hle. simpl in Hle. lia.
Qed.

(** X16. [sendNotificationToRole] addresses every stored user with the
    role, active or not. With a notification the schema accepts, each of
    them gets a stored notification, the call is fulfilled and the role
    room is published to once. With a notification the schema rejects,
    nothing is stored; the call is then rejected and the role room is
    not published to, unless no user has the role, in which case the
    call is fulfilled and only the room is published to. *)
Theorem sendNotificationToRole_outcome now role p s :
  let '(r, s', published) := SocketBroadcast.sendNotificationToRole now role p s in
  let targets := List.filter (fun u => String.eqb (user_role u) role) (users s) in
  let room := SocketBroadcast.ToRoom (String.append "role:" role) p in
  connectedUsers s' = connectedUsers s /\
  (payload_ok p = true ->
   r = Ok tt /\ published = [room] /\
   exists l, notifications s' = notifications s ++ l /\
             List.map Notification.userId l = List.map user_id targets) /\
  (payload_ok p = false ->
   notifications s' = notifications s /\
   (targets = [] -> r = Ok tt /\ published = [room]) /\
   (targets <> [] -> r = Throw "ValidationError" /\ published = [])).
Proof.
  unfold SocketBroadcast.sendNotificationToRole.
  pose proof (users_send_appends now (SocketBroadcast.role_userIds role s) p s)
    as (Hc & _ & _ & l & Hn & Hm & _).
  pose proof (sendNotificationToUsers_result now (SocketBroadcast.role_userIds role s) p s)
    as [Hok Hthrow].
  rewrite forallb_targets in Hok, Hthrow by apply role_targets_given.
  rewrite accepted_targets, role_targets_given in Hm.
  destruct (sendNotificationToUsers now (SocketBroadcast.role_userIds role s) p s)
    as [r s'] eqn:E. cbn [fst snd] in *.
  assert (SocketBroadcast.role_userIds role s = [] <->
          List.filter (fun u => String.eqb (user_role u) role) (users s) = []) as Hnil.
  { unfold SocketBroadcast.role_userIds.
    destruct (List.filter _ (users s)); simpl; split; congruence. }
  destruct (payload_ok p) eqn:Ep.
  - destruct (Hok eq_refl) as (l' & -> & _).
    split; [done|]. split; [|done]. intros _. split; [done|]. split; [done|].
    exists l. split; [done|].
    unfold SocketBroadcast.role_userIds in Hm.
    apply (f_equal (List.map (default ""))) in Hm. rewrite !List.map_map in Hm.
    exact Hm.
  - destruct l; [|done]. rewrite app_nil_r in Hn.
    destruct (bool_decide (SocketBroadcast.role_userIds role s = [])) eqn:Eb.
    + apply bool_decide_eq_true in Eb. destruct (Hok eq_refl) as (l' & -> & _).
      split; [done|]. split; [done|]. intros _. split; [done|]. split; [done|].
      intros Hne. by apply Hnil in Eb.
    + apply bool_decide_eq_false in Eb. rewrite (Hthrow eq_refl).
      split; [done|]. split; [done|]. intros _. split; [done|]. split; [|done].
      intros Ht. by apply Hnil in Ht.
Qed.

Lemma sendNotificationToRole_outcome_witness :
  fst (fst (SocketBroadcast.sendNotificationToRole 5%nat "manager"
              Fixtures.hello Fixtures.server0)) = Ok tt /\
  snd (SocketBroadcast.sendNotificationToRole 5%nat "manager"
         Fixtures.hello Fixtures.server0)
  = [SocketBroadcast.ToRoom "role:manager" Fixtures.hello] /\
  fst (fst (SocketBroadcast.sendNotificationToRole 5%nat "technician"
              Fixtures.unlisted_category Fixtures.server0)) = Throw "ValidationError" /\
  fst (fst (SocketBroadcast.sendNotificationToRole 5%nat "super-admin"
              Fixtures.unlisted_category Fixtures.server0)) = Ok tt.
Proof.
  pose proof (sendNotificationToRole_outcome 5%nat "manager" Fixtures.hello Fixtures.server0)
    as H1.
  pose proof (sendNotificationToRole_outcome 5%nat "technician"
                Fixtures.unlisted_category Fixtures.server0) as H2.
  pose proof (sendNotificationToRole_outcome 5%nat "super-admin"
                Fixtures.unlisted_category Fixtures.server0) as H3.
  destruct (SocketBroadcast.sendNotificationToRole 5%nat "manager" _ _) as [[r1 s1] b1].
  destruct (SocketBroadcast.sendNotificationToRole 5%nat "technician" _ _) as [[r2 s2] b2].
  destruct (SocketBroadcast.sendNotificationToRole 5%nat "super-admin" _ _) as [[r3 s3] b3].
  cbn [fst snd].
  destruct H1 as (_ & H1 & _). destruct (H1 eq_refl) as (-> & -> & _).
  destruct H2 as (_ & _ & H2). destruct (H2 eq_refl) as (_ & _ & H2').
  destruct H3 as (_ & _ & H3). destruct (H3 eq_refl) as (_ & H3' & _).
  destruct H2' as [-> _]; [discriminate|].
  destruct H3' as [-> _]; [reflexivity|].
  repeat split.
Defined.

(** X17. After a successful [sendNotificationToUser(u)] the unread count
    of [u] is one more than before and the unread count of every other
    user is what it was. *)
Theorem send_raises_unread_count now u p s n s' :
  sendNotificationToUser now (Some u) p s = (Ok n, s') ->
  Notification.getUnreadCount u (notifications s')
  = S (Notification.getUnreadCount u (notifications s)) /\
  forall v, v <> u ->
    Notification.getUnreadCount v (notifications s')
    = Notification.getUnreadCount v (notifications s).
Proof.
  intros H.
  destruct (send_cases now (Some u) p s) as [[_ Hs]|(Hv & k & Hc & Hr & Hn & _)].
  { rewrite H in Hs. discriminate. }
  rewrite H in Hr, Hn. cbn [fst snd] in *. injection Hr as <-.
  unfold Notification.create in Hc. rewrite Hv in Hc. injection Hc as Hn'.
  assert (Notification.userId n = u /\ Notification.isRead n = false) as [Hu Hr]
    by (subst n; done).
  assert (forall v, Notification.getUnreadCount v (notifications s')
                    = (Notification.getUnreadCount v (notifications s) +
                       if String.eqb u v then 1 else 0)%nat) as Hcount.
  { intros v. unfold Notification.getUnreadCount.
    rewrite Hn, List.filter_app, length_app. cbn [List.filter].
    unfold Notification.unread_of at 2. rewrite Hu, Hr.
    by destruct (String.eqb u v). }
  split.
  - rewrite Hcount, String.eqb_refl. lia.
  - intros v Hne. apply not_eq_sym, String.eqb_neq in Hne. rewrite Hcount, Hne. lia.
Qed.

Lemma send_raises_unread_count_witness :
  Notification.getUnreadCount "U"
    (notifications (snd (sendNotificationToUser 5%nat (Some "U")
                           Fixtures.hello Fixtures.server0))) = 1%nat.
Proof.
  destruct (sendNotificationToUser 5%nat (Some "U") Fixtures.hello Fixtures.server0)
    as [r s'] eqn:E.
  assert (exists n, r = Ok n) as [n ->].
  { vm_compute in E. injection E as <- _. eauto. }
  exact (proj1 (send_raises_unread_count _ _ _ _ _ _ E)).
Defined.

End SocketMoreFacts.


(** ** The notification service *)

Module ServiceFacts.
Import SocketServer NotificationService Derived.

Lemma save_cases now userId p s :
  (Notification.validate (fields_of userId p) = false /\
   saveNotificationToDatabase now userId p s = (Throw "ValidationError", s)) \/
  (Notification.validate (fields_of userId p) = true /\
   exists n, Notification.create (next_id s) now (fields_of userId p) = Ok n /\
     saveNotificationToDatabase now userId p s
     = (Ok n, mkServer (connectedUsers s) (rooms s) (notifications s ++ [n]) (users s)
                       (effects s ++ [Saved n]) (N.succ (next_id s)))).
Proof.
  unfold saveNotificationToDatabase, Notification.create.
  destruct (Notification.validate _); [right | left]; eauto.
Qed.

Lemma sendRealTimeNotification_rejected socketServer now userId p s :
  Notification.validate (fields_of userId p) = false ->
  sendRealTimeNotification socketServer now userId p s = (Throw "ValidationError", s).
Proof.
  intros Hv. unfold sendRealTimeNotification.
  destruct (save_cases now userId p s) as [[_ Hs] | (Hv' & _)]; [|congruence].
  destruct (SocketFacts.send_cases now userId p s) as [[_ Hs'] | (Hv' & _)]; [|congruence].
  rewrite Hs, Hs'. by destruct socketServer; rewrite ?Hs.
Qed.

(** X18. [sendRealTimeNotification] stores the same single notification
    and returns the same record whether or not a socket server is
    installed; the socket server only adds the push. When the schema
    rejects the notification the fallback is rejected as well: the call
    throws and the server is left as it was, so the fallback never
    stores a second copy. *)
Theorem sendRealTimeNotification_store socketServer now userId p s :
  let r := sendRealTimeNotification socketServer now userId p s in
  let d := saveNotificationToDatabase now userId p s in
  fst r = fst d /\
  notifications (snd r) = notifications (snd d) /\
  (socketServer = false -> r = d) /\
  (socketServer = true -> r = sendNotificationToUser now userId p s) /\
  (Notification.validate (fields_of userId p) = false ->
   r = (Throw "ValidationError", s)) /\
  (Notification.validate (fields_of userId p) = true ->
   exists n, fst r = Ok n /\ notifications (snd r) = notifications s ++ [n] /\
             Notification.createdAt n = Some now).
Proof.
  cbn zeta. unfold sendRealTimeNotification.
  destruct (save_cases now userId p s) as [[Hv Hs] | (Hv & n & Hc & Hs)];
    destruct (SocketFacts.send_cases now userId p s)
      as [[Hv' Hs'] | (Hv' & n' & Hc' & Hr' & Hn' & _)]; try congruence.
  - rewrite Hs, Hs'. destruct socketServer; rewrite ?Hs; cbn [fst snd];
      repeat split; try done; intros; congruence.
  - assert (n' = n) as -> by congruence.
    assert (Notification.createdAt n = Some now) as Hat.
    { unfold Notification.create in Hc. rewrite Hv in Hc. by injection Hc as <-. }
    rewrite Hs.
    destruct (sendNotificationToUser now userId p s) as [r1 s1] eqn:E.
    cbn [fst snd] in *. subst r1.
    destruct socketServer; cbn [fst snd notifications];
      repeat split; try done; try congruence; intros _; exists n; done.
Qed.

Lemma sendRealTimeNotification_store_witness :
  sendRealTimeNotification true 5%nat (Some "U") Fixtures.unlisted_category Fixtures.server0
  = (Throw "ValidationError", Fixtures.server0) /\
  exists n, fst (sendRealTimeNotification false 5%nat (Some "U")
                   Fixtures.hello Fixtures.server0) = Ok n /\
            notifications (snd (sendRealTimeNotification false 5%nat (Some "U")
                                  Fixtures.hello Fixtures.server0))
            = notifications Fixtures.server0 ++ [n] /\
            Notification.createdAt n = Some 5%nat.
Proof.
  split.
  - apply (sendRealTimeNotification_store true 5%nat (Some "U")
             Fixtures.unlisted_category Fixtures.server0). reflexivity.
  - apply (sendRealTimeNotification_store false 5%nat (Some "U")
             Fixtures.hello Fixtures.server0). reflexivity.
Defined.

Lemma map_send_rejected now userIds p : forall s,
  payload_ok p = false ->
  snd (map_send now userIds p s) = s.
Proof.
  induction userIds as [|u rest IH]; intros s Hp; [done|]. cbn [map_send].
  destruct (SocketFacts.send_cases now u p s) as [[_ ->] | (Hv & _)].
  - specialize (IH s Hp). by destruct (map_send now rest p s).
  - destruct u; [by rewrite SocketMoreFacts.valid_target, Hp in Hv | done].
Qed.

Lemma map_save_rejected now userIds p : forall s,
  payload_ok p = false ->
  snd (map_save now userIds p s) = s.
Proof.
  induction userIds as [|u rest IH]; intros s Hp; [done|]. cbn [map_save].
  destruct (save_cases now u p s) as [[_ ->] | (Hv & _)].
  - specialize (IH s Hp). by destruct (map_save now rest p s).
  - destruct u; [by rewrite SocketMoreFacts.valid_target, Hp in Hv | done].
Qed.

Lemma sendNotificationToRole_rejected socketServer now role p s :
  payload_ok p = false ->
  snd (fst (NotificationService.sendNotificationToRole socketServer now role p s)) = s.
Proof.
  intros Hp. unfold NotificationService.sendNotificationToRole,
    SocketBroadcast.sendNotificationToRole, saveNotificationToRole,
    SocketServer.sendNotificationToUsers.
  destruct socketServer.
  - pose proof (map_send_rejected now (SocketBroadcast.role_userIds role s) p s Hp) as H.
    destruct (map_send _ _ _ _) as [rs s1]. cbn [snd] in H. subst s1.
    by destruct (Promise_all rs).
  - pose proof (map_save_rejected now (SocketBroadcast.role_userIds role s) p s Hp) as H.
    destruct (map_save _ _ _ _) as [rs s1]. cbn [snd] in H. subst s1.
    by destruct (Promise_all rs).
Qed.

(** X19. The categories ["project"] and ["report"] are not among those
    the notification schema lists, so the service's project and report
    notifications are never stored: [sendReportSubmittedNotification]
    always throws, and [sendProjectCreatedNotification] leaves the
    server as it was, with or without a socket server, whoever the
    manager, the project or the author. *)
Theorem unlisted_categories_never_stored socketServer now managerId title name s :
  sendReportSubmittedNotification socketServer now managerId name s
  = (Throw "ValidationError", s) /\
  snd (fst (sendProjectCreatedNotification socketServer now title name s)) = s.
Proof.
  split.
  - unfold sendReportSubmittedNotification.
    apply sendRealTimeNotification_rejected.
    unfold Notification.validate. apply andb_false_iff. right. reflexivity.
  - unfold sendProjectCreatedNotification.
    apply sendNotificationToRole_rejected.
    unfold payload_ok, Notification.validate. apply andb_false_iff. right. reflexivity.
Qed.

Lemma map_save_like_send now userIds p : forall s1 s2,
  notifications s1 = notifications s2 -> next_id s1 = next_id s2 ->
  fst (map_save now userIds p s1) = fst (map_send now userIds p s2) /\
  notifications (snd (map_save now userIds p s1))
  = notifications (snd (map_send now userIds p s2)) /\
  next_id (snd (map_save now userIds p s1)) = next_id (snd (map_send now userIds p s2)) /\
  connectedUsers (snd (map_save now userIds p s1)) = connectedUsers s1 /\
  rooms (snd (map_save now userIds p s1)) = rooms s1.
Proof.
  induction userIds as [|u rest IH]; intros s1 s2 Hn Hi; [done|].
  cbn [map_save map_send].
  destruct (save_cases now u p s1) as [[Hv Hs] | (Hv & n & Hc & Hs)];
    destruct (SocketFacts.send_cases now u p s2)
      as [[Hv' Hs'] | (Hv' & n' & Hc' & Hr' & Hn' & Hi' & _)]; try congruence.
  - rewrite Hs, Hs'. specialize (IH s1 s2 Hn Hi).
    destruct (map_save now rest p s1), (map_send now rest p s2). cbn [fst snd] in *.
    destruct IH as (-> & IH). done.
  - rewrite Hs. destruct (sendNotificationToUser now u p s2) as [r s2'] eqn:E.
    cbn [fst snd] in *. subst r.
    assert (n' = n) as -> by (rewrite Hi in Hc; congruence).
    match goal with
    | |- context [map_save now rest p ?s] =>
        specialize (IH s s2' ltac:(cbn; congruence) ltac:(cbn; congruence))
    end.
    destruct (map_save now rest p _), (map_send now rest p s2'). cbn [fst snd] in *.
    destruct IH as (-> & IH). done.
Qed.

(** X20. The service's [sendNotificationToUsers] is the socket server's
    when one is installed. Without one it saves to the database only:
    it is fulfilled or rejected as the socket server's would be, with
    the same records, and leaves the same notifications stored. *)
Theorem service_sendNotificationToUsers_same_store now userIds p s :
  NotificationService.sendNotificationToUsers true now userIds p s
  = SocketServer.sendNotificationToUsers now userIds p s /\
  fst (NotificationService.sendNotificationToUsers false now userIds p s)
  = fst (SocketServer.sendNotificationToUsers now userIds p s) /\
  notifications (snd (NotificationService.sendNotificationToUsers false now userIds p s))
  = notifications (snd (SocketServer.sendNotificationToUsers now userIds p s)) /\
  connectedUsers (snd (NotificationService.sendNotificationToUsers false now userIds p s))
  = connectedUsers s.
Proof.
  split; [done|].
  unfold NotificationService.sendNotificationToUsers, SocketServer.sendNotificationToUsers.
  pose proof (map_save_like_send now userIds p s s eq_refl eq_refl) as (Hf & Hn & _ & Hc & _).
  destruct (map_save now userIds p s), (map_send now userIds p s). cbn [fst snd] in *.
  by rewrite Hf.
Qed.

End ServiceFacts.


(** ** More on the notification store *)

Module StoreFacts.
Import Notification NotificationDoc.

(** X21. [markAllAsRead] settles: a second call, at any later time,
    changes nothing, so the time a notification was first marked read is
    kept. It keeps every document and its identity, leaves alone every
    notification that was read already, and leaves no notification of
    the user unread. *)
Theorem markAllAsRead_settles now later u coll :
  markAllAsRead later u (markAllAsRead now u coll) = markAllAsRead now u coll /\
  List.map _id (markAllAsRead now u coll) = List.map _id coll /\
  (forall n, In n coll -> isRead n = true -> In n (markAllAsRead now u coll)) /\
  (forall n, In n (markAllAsRead now u coll) -> userId n = u -> isRead n = true).
Proof.
  unfold markAllAsRead. split; [|split; [|split]].
  - induction coll as [|n r IH]; simpl; [done|]. rewrite IH. f_equal.
    destruct (unread_of u n) eqn:E.
    + unfold unread_of. simpl. by rewrite andb_false_r.
    + by rewrite E.
  - induction coll as [|n r IH]; simpl; [done|]. rewrite IH.
    by destruct (unread_of u n).
  - intros n Hin Hr. apply in_map_iff. exists n. split; [|done].
    unfold unread_of. by rewrite Hr, andb_false_r.
  - intros n Hin Hu. apply in_map_iff in Hin as (m & Hm & _).
    destruct (unread_of u m) eqn:E; subst n; [done|].
    unfold unread_of in E. rewrite Hu, String.eqb_refl in E.
    by destruct (isRead m).
Qed.

Lemma markAllAsRead_settles_witness :
  isRead (mk 1%N "U" "t" "m" "info" true "low" "general" (Some 3%nat) None (Some 1%nat)) = true /\
  In (mk 1%N "U" "t" "m" "info" true "low" "general" (Some 3%nat) None (Some 1%nat))
     (markAllAsRead 9%nat "U"
        [mk 1%N "U" "t" "m" "info" true "low" "general" (Some 3%nat) None (Some 1%nat)]).
Proof.
  split; [reflexivity|].
  apply (markAllAsRead_settles 9%nat 9%nat "U"
           [mk 1%N "U" "t" "m" "info" true "low" "general" (Some 3%nat) None (Some 1%nat)]);
    [left; reflexivity | reflexivity].
Defined.

Lemma save_other doc coll :
  ~ In (_id doc) (List.map _id coll) -> save doc coll = coll.
Proof.
  induction coll as [|m r IH]; simpl; [done|]. intros Hn.
  destruct (N.eqb (_id m) (_id doc)) eqn:E.
  - apply N.eqb_eq in E. destruct Hn. by left.
  - rewrite IH; [done|]. intros H. apply Hn. by right.
Qed.

(** X22. Marking one unread notification as read and saving it lowers
    the unread count of its user by exactly one and leaves the unread
    counts of the other users as they were (identities being unique). *)
Theorem markAsRead_lowers_unread now n coll :
  List.NoDup (List.map _id coll) -> In n coll -> isRead n = false ->
  S (getUnreadCount (userId n) (save (markAsRead now n) coll))
  = getUnreadCount (userId n) coll /\
  forall v, v <> userId n ->
    getUnreadCount v (save (markAsRead now n) coll) = getUnreadCount v coll.
Proof.
  intros Hnd Hin Hr.
  assert (forall v, (getUnreadCount v (save (markAsRead now n) coll) +
                     if String.eqb (userId n) v then 1 else 0)%nat
                    = getUnreadCount v coll) as Hcount.
  { intros v. unfold getUnreadCount.
    induction coll as [|m r IH]; [done|]. cbn [save markAsRead _id].
    cbn [List.map] in Hnd. apply List.NoDup_cons_iff in Hnd as [Hm Hnd].
    destruct (N.eqb (_id m) (_id n)) eqn:E.
    - apply N.eqb_eq in E.
      assert (m = n) as ->.
      { destruct Hin as [-> | Hin]; [done|]. destruct Hm.
        rewrite E. by apply in_map. }
      assert (unread_of v (markAsRead now n) = false) as H1
        by (unfold unread_of; cbn; apply andb_false_r).
      assert (unread_of v n = String.eqb (userId n) v) as H2
        by (unfold unread_of; rewrite Hr; apply andb_true_r).
      change (mk (_id n) (userId n) (title n) (message n) (type n) true (priority n)
                 (category n) (Some now) (expiresAt n) (createdAt n))
        with (markAsRead now n).
      cbn [List.filter]. rewrite H1, H2.
      destruct (String.eqb (userId n) v); simpl; lia.
    - destruct Hin as [-> | Hin]; [by rewrite N.eqb_refl in E|].
      cbn [List.filter]. specialize (IH Hnd Hin).
      destruct (unread_of v m); simpl in *; lia. }
  split.
  - specialize (Hcount (userId n)). rewrite String.eqb_refl in Hcount. lia.
  - intros v Hne. specialize (Hcount v).
    apply not_eq_sym, String.eqb_neq in Hne. rewrite Hne in Hcount. lia.
Qed.

Lemma markAsRead_lowers_unread_witness :
  S (getUnreadCount "U"
       (save (markAsRead 9%nat
                (mk 1%N "U" "t" "m" "info" false "low" "general" None None (Some 1%nat)))
          [mk 1%N "U" "t" "m" "info" false "low" "general" None None (Some 1%nat)]))
  = 1%nat.
Proof.
  apply (markAsRead_lowers_unread 9%nat
           (mk 1%N "U" "t" "m" "info" false "low" "general" None None (Some 1%nat))
           [mk 1%N "U" "t" "m" "info" false "low" "general" None None (Some 1%nat)]).
  - apply List.NoDup_cons; [intros [] | apply List.NoDup_nil].
  - left. reflexivity.
  - reflexivity.
Defined.

(** X23. Cleaning up at a later time subsumes a cleanup at an earlier
    one, and a cleanup never removes a notification that has no expiry;
    in particular it spares every notification the dispatcher stored,
    since those are created without one. *)
Theorem cleanup_subsumes_and_spares earlier later coll :
  (earlier <= later)%nat ->
  cleanupExpiredNotifications later (cleanupExpiredNotifications earlier coll)
  = cleanupExpiredNotifications later coll /\
  (forall n, In n coll -> expiresAt n = None ->
             In n (cleanupExpiredNotifications later coll)) /\
  (forall now userId p s n s',
     SocketServer.sendNotificationToUser now userId p s = (Ok n, s') ->
     In n (cleanupExpiredNotifications later (SocketServer.notifications s'))).
Proof.
  intros Hle. unfold cleanupExpiredNotifications. split; [|split].
  - induction coll as [|n r IH]; simpl; [done|].
    destruct (negb (expired earlier n)) eqn:E1; simpl; rewrite IH; [done|].
    destruct (negb (expired later n)) eqn:E2; [|done].
    apply negb_false_iff in E1. apply negb_true_iff in E2.
    unfold expired in *. destruct (expiresAt n); [|done].
    apply Nat.ltb_lt in E1. apply Nat.ltb_ge in E2. lia.
  - intros n Hin He. apply filter_In. split; [done|]. unfold expired. by rewrite He.
  - intros now userId p s n s' Hs. apply filter_In.
    destruct (SocketFacts.send_cases now userId p s) as [[_ H]|(Hv & k & Hc & Hr & Hn & _)].
    { rewrite Hs in H. discriminate. }
    rewrite Hs in Hr, Hn. cbn [fst snd] in *. injection Hr as <-.
    split; [rewrite Hn; apply in_or_app; right; by left|].
    unfold create in Hc. rewrite Hv in Hc. injection Hc as <-. reflexivity.
Qed.

Lemma cleanup_subsumes_and_spares_witness :
  cleanupExpiredNotifications 9%nat
    (cleanupExpiredNotifications 4%nat
       [mk 1%N "U" "t" "m" "info" false "low" "general" None (Some 6%nat) (Some 1%nat)])
  = cleanupExpiredNotifications 9%nat
      [mk 1%N "U" "t" "m" "info" false "low" "general" None (Some 6%nat) (Some 1%nat)].
Proof.
  apply (cleanup_subsumes_and_spares 4%nat 9%nat
           [mk 1%N "U" "t" "m" "info" false "low" "general" None (Some 6%nat) (Some 1%nat)]).
  lia.
Defined.

End StoreFacts.


(** ** HTTP authentication and authorisation *)

Module AuthFacts.
Import SocketServer Auth.

Lemma findUser_some id users u :
  findUser id users = Some u -> In u users /\ user_id u = id.
Proof.
  unfold findUser. intros H. apply find_some in H as [Hin H].
  split; [done | by apply String.eqb_eq].
Qed.

Lemma protect_next jwt_verify authorization users u :
  protect jwt_verify authorization users = Next u <->
  exists token, bearer_token authorization = Some token /\ token <> "" /\
                jwt_verify token = Some (user_id u) /\
                findUser (user_id u) users = Some u /\ user_isActive u = true.
Proof.
  unfold protect. split.
  - destruct (bearer_token authorization) as [[|c token]|] eqn:Et; cbn [JS.truthy negb];
      try done.
    cbn [default]. destruct (jwt_verify _) as [id|] eqn:Ev; [|done].
    destruct (findUser id users) as [user|] eqn:Eu; [|done].
    destruct (user_isActive user) eqn:Ea; [|done]. cbn [negb].
    intros H. injection H as <-.
    destruct (findUser_some _ _ _ Eu) as [_ <-].
    exists (String c token). done.
  - intros (token & -> & Hne & Hv & Hu & Ha).
    destruct token as [|c token]; [done|]. simpl.
    by rewrite Hv, Hu, Ha.
Qed.

(** X24. A request gets past [protect] and [authorize(...roles)] only
    with a bearer token that verifies to a stored user who is active and
    whose role is one of [roles]; every other request is answered 401
    or 403, and a request with the token of a deactivated user is
    answered 401 whatever the role. *)
Theorem guarded_admits_only jwt_verify roles authorization users :
  match guarded jwt_verify roles authorization users with
  | Next u =>
      user_isActive u = true /\ In (user_role u) roles /\ In u users /\
      exists token, bearer_token authorization = Some token /\
                    jwt_verify token = Some (user_id u)
  | Respond code _ => code = 401%nat \/ code = 403%nat
  end /\
  (forall token id u,
     bearer_token authorization = Some token -> jwt_verify token = Some id ->
     findUser id users = Some u -> user_isActive u = false ->
     exists message,
       guarded jwt_verify roles authorization users = Respond 401 message).
Proof.
  unfold guarded. split.
  - destruct (protect jwt_verify authorization users) as [u|code msg] eqn:Ep.
    + apply protect_next in Ep as (token & Ht & _ & Hv & Hu & Ha).
      unfold authorize. destruct (existsb _ roles) eqn:Er; cbn [negb]; [|auto].
      split; [done|]. split.
      { apply existsb_exists in Er as (r & Hr & Heq). apply String.eqb_eq in Heq. by subst. }
      split; [exact (proj1 (findUser_some _ _ _ Hu))|]. eauto.
    + unfold protect in Ep.
      repeat match type of Ep with
             | (if ?b then _ else _) = _ => destruct b
             | match ?o with _ => _ end = _ => destruct o
             end; try discriminate; injection Ep as <- _; auto.
  - intros token id u Ht Hv Hu Ha. unfold protect. rewrite Ht.
    destruct token as [|c token]; simpl; [eauto|].
    rewrite Hv, Hu, Ha. simpl. eauto.
Qed.

Lemma guarded_admits_only_witness :
  exists message,
    guarded Fixtures.jwt ["technician"] (Some "Bearer token-of-X") [Fixtures.uma; Fixtures.xi]
    = Respond 401 message.
Proof.
  apply (guarded_admits_only Fixtures.jwt ["technician"] (Some "Bearer token-of-X")
           [Fixtures.uma; Fixtures.xi]) with (token := "token-of-X") (id := "X")
                                             (u := Fixtures.xi); reflexivity.
Defined.

(** X25. [optionalAuth] sets [req.user] exactly for the requests that
    [protect] lets through, and to the same user; for every other
    request it goes on without a user instead of answering. *)
Theorem optionalAuth_agrees_with_protect jwt_verify authorization users u :
  optionalAuth jwt_verify authorization users = Some u <->
  protect jwt_verify authorization users = Next u.
Proof.
  unfold optionalAuth, protect.
  destruct (JS.truthy (bearer_token authorization)); cbn [negb]; [|done].
  destruct (jwt_verify _); [|done].
  destruct (findUser _ users) as [user|]; [|done].
  destruct (user_isActive user); cbn [negb]; [|done].
  split; intros H; by injection H as <-.
Qed.

Lemma until_space_plain token :
  (forall c, In c (list_ascii_of_string token) -> c <> " "%char) ->
  until_space token = token.
Proof.
  induction token as [|c r IH]; cbn; [done|]. intros H.
  destruct (Ascii.eqb c " ") eqn:E.
  - apply Ascii.eqb_eq in E. destruct (H c); auto.
  - rewrite IH; [done|]. intros d Hd. apply H. by right.
Qed.

(** X26. The header ["Bearer <token>"], with a token that is not empty
    and holds no space, yields that token; a header that does not start
    with ["Bearer"], or that holds no space, yields none, and the request
    is answered 401. *)
Theorem bearer_token_of_header jwt_verify token header users :
  (token <> "" ->
   (forall c, In c (list_ascii_of_string token) -> c <> " "%char) ->
   bearer_token (Some (String.append "Bearer " token)) = Some token) /\
  (JS.startsWith "Bearer" header = false \/
   (forall c, In c (list_ascii_of_string header) -> c <> " "%char) ->
   bearer_token (Some header) = None /\
   protect jwt_verify (Some header) users = Respond 401 "Access denied. No token provided.").
Proof.
  split.
  - intros Hne Hplain.
    assert (bearer_token (Some (String.append "Bearer " token)) = Some (until_space token))
      as -> by reflexivity.
    by rewrite until_space_plain.
  - intros H.
    assert (bearer_token (Some header) = None) as Hb.
    { unfold bearer_token.
      change (default "" (Some header)) with header.
      destruct H as [H | H].
      - rewrite H. by rewrite andb_false_r.
      - destruct (_ && _); [|done].
        induction header as [|c r IH]; cbn; [done|].
        destruct (Ascii.eqb c " ") eqn:E.
        + apply Ascii.eqb_eq in E. destruct (H c); auto. by left.
        + apply IH. intros d Hd. apply H. by right. }
    split; [done|]. unfold protect. by rewrite Hb.
Qed.

Lemma bearer_token_of_header_witness :
  bearer_token (Some "Bearer token-of-U") = Some "token-of-U" /\
  protect Fixtures.jwt (Some "token-of-U") [Fixtures.uma]
  = Respond 401 "Access denied. No token provided.".
Proof.
  split.
  - apply (bearer_token_of_header Fixtures.jwt "token-of-U" "x" []); [discriminate|].
    intros c Hc. cbn in Hc.
    repeat (destruct Hc as [<- | Hc]; [discriminate|]). destruct Hc.
  - apply (bearer_token_of_header Fixtures.jwt "x" "token-of-U" [Fixtures.uma]).
    left. reflexivity.
Defined.

End AuthFacts.

(** ** The rooms of config/socket.js *)

Module SocketConfigFacts.
Import SocketConfig.

(** X27. A connection joins its own room [user_<id>] whatever its token
    says, and at most one of the rooms of the roles. The role is
    compared without regard to case, the superadmin room being joined
    for both spellings ["superadmin"] and ["super-admin"]; a token with
    another role, or without one, joins no role room. *)
Theorem joinedRooms_at_most_one_role socket :
  let joined := joinedRooms socket in
  let role := JS.toLowerCase <$> claim_role socket in
  last joined = Some (String.append "user_" (claim_id socket)) /\
  (length joined <= 2)%nat /\
  (In "superadmin" joined <-> role = Some "superadmin" \/ role = Some "super-admin") /\
  (In "manager" joined <-> role = Some "manager") /\
  (In "technician" joined <-> role = Some "technician").
Proof.
  cbn zeta. unfold joinedRooms.
  destruct (claim_role socket) as [r|]; cbn [fmap option_fmap option_map].
  - destruct (String.eqb (JS.toLowerCase r) "superadmin") eqn:E1.
    { apply String.eqb_eq in E1. rewrite E1. cbn.
      repeat split; try lia; try (intros [H|[H|[]]]; discriminate H); intuition (try discriminate); auto. }
    destruct (String.eqb (JS.toLowerCase r) "super-admin") eqn:E2.
    { apply String.eqb_eq in E2. rewrite E2. cbn.
      repeat split; try lia; try (intros [H|[H|[]]]; discriminate H); intuition (try discriminate); auto. }
    cbn [orb].
    destruct (String.eqb (JS.toLowerCase r) "manager") eqn:E3.
    { apply String.eqb_eq in E3. rewrite E3. cbn.
      repeat split; try lia; try (intros [H|[H|[]]]; discriminate H); intuition (try discriminate); auto. }
    destruct (String.eqb (JS.toLowerCase r) "technician") eqn:E4.
    { apply String.eqb_eq in E4. rewrite E4. cbn.
      repeat split; try lia; try (intros [H|[H|[]]]; discriminate H); intuition (try discriminate); auto. }
    apply String.eqb_neq in E1, E2, E3, E4. cbn.
    repeat split; try lia; try (intros [H|[]]; discriminate H);
      try (intros [H|H]; congruence); intros H; congruence.
  - cbn. repeat split; try lia; try (intros [H|[]]; discriminate H);
      try (intros [H|H]; discriminate H); intros H; discriminate H.
Qed.

End SocketConfigFacts.

(** ** The technician's dashboard counters *)

Module StatsFacts.
Import TechnicianStats.

Lemma filter_cons_length {A} (f : A -> bool) (x : A) (r : list A) :
  length (List.filter f (x :: r)) = (Nat.b2n (f x) + length (List.filter f r))%nat.
Proof. cbn [List.filter]. by destruct (f x). Qed.

(** A status is seen by one counter at most. *)
Lemma one_counter (s : string) :
  Nat.b2n (negb (counted s))
  = (1 - (Nat.b2n (String.eqb s "assigned") + Nat.b2n (String.eqb s "in_progress") +
          Nat.b2n (String.eqb s "completed") + Nat.b2n (String.eqb s "delayed")))%nat /\
  (Nat.b2n (String.eqb s "assigned") + Nat.b2n (String.eqb s "in_progress") +
   Nat.b2n (String.eqb s "completed") + Nat.b2n (String.eqb s "delayed") <= 1)%nat.
Proof.
  unfold counted.
  destruct (String.eqb s "assigned") eqn:E1.
  { apply String.eqb_eq in E1. subst s. split; reflexivity || (cbn; lia). }
  destruct (String.eqb s "in_progress") eqn:E2.
  { apply String.eqb_eq in E2. subst s. split; reflexivity || (cbn; lia). }
  destruct (String.eqb s "completed") eqn:E3.
  { apply String.eqb_eq in E3. subst s. split; reflexivity || (cbn; lia). }
  destruct (String.eqb s "delayed"); split; reflexivity || (cbn; lia).
Qed.

(** X28. The four counters of GET /stats are disjoint and count only the
    technician's own tasks: together with the technician's tasks whose
    status is none of ["assigned"], ["in_progress"], ["completed"] and
    ["delayed"] (the capitalised legacy statuses among them), which no
    counter sees, they add up to the number of tasks assigned to the
    technician. *)
Theorem stats_partition who coll :
  let st := stats who coll in
  (assignedTasksCount st + inProgressTasksCount st + completedTasksCount st +
   delayedTasksCount st +
   length (List.filter (fun x => N.eqb (Task.assignedTo x) who &&
                                 negb (counted (Task.status x))) coll))%nat
  = length (TaskDue.findByAssignee who coll).
Proof.
  cbn zeta. unfold stats, countDocuments, TaskDue.findByAssignee.
  cbn [assignedTasksCount inProgressTasksCount completedTasksCount delayedTasksCount].
  induction coll as [|x r IH]; [done|].
  rewrite !filter_cons_length. rewrite <- IH.
  destruct (N.eqb (Task.assignedTo x) who); cbn [andb Nat.b2n]; [|lia].
  destruct (one_counter (Task.status x)) as [-> Hle]. lia.
Qed.

End StatsFacts.


(** ** Task creation *)

Module CreateFacts.
Import TaskRoutes CollectionFacts.

(** The exits of the handler. *)
Lemma createTask_exits validate id now req w :
  let r := createTask validate id now req w in
  (code (fst r) <> 201%nat /\ code (fst r) <> 500%nat /\ snd r = w /\
   (code (fst r) = 400%nat \/ code (fst r) = 403%nat \/ code (fst r) = 404%nat)) \/
  (code (fst r) = 500%nat /\ snd r = w) \/
  (exists foundProject technician,
     body_project req ≫= (fun p => Project.findById p (projects w)) = Some foundProject /\
     Project.assignedManager foundProject = Some (user req) /\
     body_assignedTo req ≫= (fun t => findUser t (users w)) = Some technician /\
     user_role technician = "technician" /\
     let doc := newTask id req (Project._id foundProject) (user_id technician) in
     let saved := Task.pre_save (given req) now doc in
     let listed := Project.set_tasks (Project.tasks foundProject ++ [id]) foundProject in
     Task.title doc <> "" /\
     ((code (fst r) = 500%nat /\
       Project.save validate (Project.mkChanges (fun _ => false) [id]) listed (projects w)
       = Throw "ValidationError" /\
       snd r = mkWorld (tasks w ++ [saved]) (projects w) (users w) (emitted w)
                       (io_initialized w)) \/
      (code (fst r) = 201%nat /\
       exists projects1,
         Project.save validate (Project.mkChanges (fun _ => false) [id]) listed (projects w)
         = Ok projects1 /\
         snd r = mkWorld (tasks w ++ [saved]) projects1 (users w)
                   (if io_initialized w
                    then emitted w ++ [mkAssigned (user_id technician) saved]
                    else emitted w)
                   (io_initialized w)))).
Proof.
  cbn zeta. unfold createTask.
  destruct (negb (body_valid req)); [left; cbn; repeat split; auto; lia|].
  destruct (body_project req ≫= _) as [foundProject|] eqn:Ep;
    [|left; cbn; repeat split; auto; lia].
  destruct (Project.assignedManager foundProject) as [manager|] eqn:Em;
    [|right; left; done].
  destruct (negb (N.eqb manager (user req))) eqn:En;
    [left; cbn; repeat split; auto; lia|].
  apply negb_false_iff, N.eqb_eq in En. subst manager.
  destruct (body_assignedTo req ≫= _) as [technician|] eqn:Et;
    [|left; cbn; repeat split; auto; lia].
  destruct (negb (String.eqb (user_role technician) "technician")) eqn:Er;
    [left; cbn; repeat split; auto; lia|].
  apply negb_false_iff, String.eqb_eq in Er.
  destruct (negb (task_valid _)) eqn:Ev; [right; left; done|].
  right; right. exists foundProject, technician.
  split; [done|]. split; [done|]. split; [done|]. split; [done|].
  split.
  { unfold task_valid in Ev. apply negb_false_iff, negb_true_iff in Ev.
    by apply String.eqb_neq in Ev. }
  rewrite TaskFacts.pre_save_id. cbn [Task._id newTask].
  unfold Project.save.
  destruct (validate _); [right | left]; cbn [fst snd code]; eauto.
Qed.

(** X29. A created task. A 201 response means that the project exists
    and is managed by the requester, and that the assignee is a stored
    technician. The task is then stored at the end of the collection
    under the generated identity, assigned, with progress 0, a title
    that is trimmed and not empty, and the requester as [assignedBy];
    the project lists it last and its [tasksCount] is one more than the
    number of tasks it listed. *)
Theorem createTask_created validate id now req w :
  code (fst (createTask validate id now req w)) = 201%nat ->
  let w' := snd (createTask validate id now req w) in
  exists project technician saved,
    Project.findById (Project._id project) (projects w) = Some project /\
    body_project req = Some (Project._id project) /\
    Project.assignedManager project = Some (user req) /\
    In technician (users w) /\ user_role technician = "technician" /\
    tasks w' = tasks w ++ [saved] /\
    Task._id saved = id /\ Task.status saved = "assigned" /\ Task.progress saved = 0 /\
    Task.project saved = Project._id project /\
    Task.assignedTo saved = user_id technician /\
    Task.assignedBy saved = Some (user req) /\
    Task.title saved = JS.trim (default "" (body_title req)) /\ Task.title saved <> "" /\
    exists listed,
      Project.findById (Project._id project) (projects w') = Some listed /\
      Project.tasks listed = Project.tasks project ++ [id] /\
      Project.tasksCount listed = S (length (Project.tasks project)).
Proof.
  intros H201.
  destruct (createTask_exits validate id now req w)
    as [(Hc & _) | [(Hc & _) | (project & technician & Hp & Hm & Ht & Hr & H)]];
    [done | lia |].
  cbn zeta in H. destruct H as (Hv & [(Hc & _) | (_ & projects1 & Hs & Hw)]); [lia|].
  cbn zeta. rewrite Hw. cbn [tasks projects].
  destruct (body_project req) as [pid|] eqn:Eb; [|done]. cbn in Hp.
  pose proof (project_find_id _ _ _ Hp) as Hpid. subst pid.
  destruct (body_assignedTo req) as [tid|]; [|done]. cbn in Ht.
  unfold findUser in Ht. apply find_some in Ht as [Hin _].
  exists project, technician, (Task.pre_save (given req) now
                                 (newTask id req (Project._id project) (user_id technician))).
  split; [done|]. split; [done|]. split; [done|]. split; [done|]. split; [done|].
  split; [done|].
  rewrite TaskFacts.pre_save_id, TaskFacts.pre_save_status, TaskFacts.pre_save_progress.
  split; [done|]. split; [done|]. split.
  { destruct (given req "status"); [|done]. apply TaskFacts.progress_assigned. }
  assert (forall y, Task.project (Task.pre_save (given req) now y) = Task.project y /\
                    Task.assignedTo (Task.pre_save (given req) now y) = Task.assignedTo y /\
                    Task.assignedBy (Task.pre_save (given req) now y) = Task.assignedBy y /\
                    Task.title (Task.pre_save (given req) now y) = Task.title y) as Hkeep.
  { intros y. unfold Task.pre_save.
    assert (forall u, Task.project (Task.sync_dates (given req) u) = Task.project u /\
                      Task.assignedTo (Task.sync_dates (given req) u) = Task.assignedTo u /\
                      Task.assignedBy (Task.sync_dates (given req) u) = Task.assignedBy u /\
                      Task.title (Task.sync_dates (given req) u) = Task.title u) as H1
      by (intros; unfold Task.sync_dates; TaskFacts.split_ifs; done).
    assert (forall u, Task.project (Task.on_completed (given req) now u) = Task.project u /\
                      Task.assignedTo (Task.on_completed (given req) now u) = Task.assignedTo u /\
                      Task.assignedBy (Task.on_completed (given req) now u) = Task.assignedBy u /\
                      Task.title (Task.on_completed (given req) now u) = Task.title u) as H2
      by (intros; unfold Task.on_completed; TaskFacts.split_ifs; done).
    assert (forall u, Task.project (Task.on_started (given req) now u) = Task.project u /\
                      Task.assignedTo (Task.on_started (given req) now u) = Task.assignedTo u /\
                      Task.assignedBy (Task.on_started (given req) now u) = Task.assignedBy u /\
                      Task.title (Task.on_started (given req) now u) = Task.title u) as H3
      by (intros; unfold Task.on_started; TaskFacts.split_ifs; done).
    assert (forall u, Task.project (Task.progress_from_status (given req) u) = Task.project u /\
                      Task.assignedTo (Task.progress_from_status (given req) u)
                      = Task.assignedTo u /\
                      Task.assignedBy (Task.progress_from_status (given req) u)
                      = Task.assignedBy u /\
                      Task.title (Task.progress_from_status (given req) u) = Task.title u) as H4
      by (intros; unfold Task.progress_from_status; TaskFacts.split_ifs; done).
    destruct (H4 (Task.on_started (given req) now
                    (Task.on_completed (given req) now (Task.sync_dates (given req) y))))
      as (-> & -> & -> & ->).
    destruct (H3 (Task.on_completed (given req) now (Task.sync_dates (given req) y)))
      as (-> & -> & -> & ->).
    destruct (H2 (Task.sync_dates (given req) y)) as (-> & -> & -> & ->).
    apply H1. }
  destruct (Hkeep (newTask id req (Project._id project) (user_id technician)))
    as (-> & -> & -> & ->).
  cbn [newTask Task.project Task.assignedTo Task.assignedBy Task.title] in *.
  repeat (split; [done|]).
  unfold Project.save in Hs. destruct (validate _); [|done]. injection Hs as <-.
  rewrite project_find_update, Hp by (intros; assumption).
  eexists. split; [reflexivity|].
  unfold Project.delta. cbn [Project.tasks Project.tasksCount Project.assigned Project.pushed].
  change (Project.isModified (Project.mkChanges (fun _ => false) [id]) "tasks") with true.
  cbn [orb].
  rewrite ProjectFacts.pre_save_tasksCount, ProjectFacts.pre_save_tasks by reflexivity.
  cbn [Project.tasks Project.set_tasks]. split; [done|].
  rewrite length_app. simpl. lia.
Qed.

Lemma createTask_created_witness :
  exists saved,
    tasks (snd (createTask Fixtures.always_valid 41%N 9%nat
                  (Fixtures.create_request "  Mount panel ") Fixtures.create_world))
    = tasks Fixtures.create_world ++ [saved] /\
    Task.title saved = "Mount panel".
Proof.
  destruct (createTask_created Fixtures.always_valid 41%N 9%nat
              (Fixtures.create_request "  Mount panel ") Fixtures.create_world eq_refl)
    as (project & technician & saved & _ & _ & _ & _ & _ & Ht & _ & _ & _ & _ & _ & _ & Hn & _).
  exists saved. split; [exact Ht | exact Hn].
Defined.

(** X30. A task that is not created. A response other than 201 never
    comes with a change to a project or with an event. After 400, 403
    and 404 nothing has changed. A 500 either changed nothing, as for a
    title of blanks, which passes the request validation and fails the
    schema, or it stored the task and then failed to save the project:
    the task then stays stored although no project lists it. *)
Theorem createTask_not_created validate id now req w :
  code (fst (createTask validate id now req w)) <> 201%nat ->
  let r := createTask validate id now req w in
  projects (snd r) = projects w /\ emitted (snd r) = emitted w /\ users (snd r) = users w /\
  (code (fst r) <> 500%nat -> snd r = w) /\
  (tasks (snd r) = tasks w \/
   exists saved, tasks (snd r) = tasks w ++ [saved] /\ Task._id saved = id /\
                 code (fst r) = 500%nat) /\
  (forall title, body_title req = Some title -> JS.trim title = "" -> snd r = w).
Proof.
  intros Hne. cbn zeta.
  destruct (createTask_exits validate id now req w)
    as [(_ & Hc & Hw & _) | [(Hc & Hw) | (project & technician & _ & _ & _ & _ & H)]].
  - rewrite Hw. repeat split; auto.
  - rewrite Hw. repeat split; auto.
  - cbn zeta in H. destruct H as (Hv & [(Hc & _ & Hw) | (Hc & _)]); [|done].
    rewrite Hw. cbn [projects emitted users tasks].
    split; [done|]. split; [done|]. split; [done|]. split; [intros; lia|]. split.
    + right. eexists. split; [reflexivity|]. split; [apply TaskFacts.pre_save_id | done].
    + intros title Ht Hb. cbn [newTask Task.title] in Hv. rewrite Ht in Hv.
      change (default "" (Some title)) with title in Hv. by rewrite Hb in Hv.
Qed.

Lemma createTask_not_created_witness :
  snd (createTask Fixtures.always_valid 41%N 9%nat
         (Fixtures.create_request "   ") Fixtures.create_world)
  = Fixtures.create_world.
Proof.
  apply (createTask_not_created Fixtures.always_valid 41%N 9%nat
           (Fixtures.create_request "   ") Fixtures.create_world) with (title := "   ");
    [discriminate | reflexivity | reflexivity].
Defined.

End CreateFacts.
